(** * WireGuard / MikroTik peer management: a shallow embedding

    The development follows the Python sources

    - [tools/wireguard_mikrotik_service.py]  (class [WireGuardMikroTikService]),
    - [menu/wireguard-menu.py]               (classes [WireGuardConfigManager],
                                              [SupabaseManager] and
                                              [WireGuardMenu]),
    - [database_manager.py]                  (class [DatabaseManager]).

    Part I gives the definitions: Python's string primitives, the regular
    expression of the configuration parser, the file and process
    environment, and then one module per Python class.  Part II states and
    proves the properties.

    Text is modelled by [string], a sequence of 8-bit characters, and the
    string primitives are those of Python on ASCII text, where a character
    is a byte.  Characters above 127 are treated as ordinary non-blank
    characters, which is not what Python does with the blanks and digits of
    other scripts or with bytes that do not decode; the properties that
    carry [Notions.seven_bit] are stated for ASCII text for that reason. *)

From Stdlib Require Import Ascii.
From stdpp Require Import base option list strings gmap pretty.

Open Scope string_scope.
Open Scope list_scope.
Open Scope nat_scope.

(* ===================================================================== *)
(** * Part I. Definitions                                                  *)
(* ===================================================================== *)

(** ** Python string primitives *)

Module Py.

(** The line feed and carriage return characters. *)
Definition LF : ascii := "010"%char.
Definition CR : ascii := "013"%char.

(** The one-character string ["\n"]. *)
Definition nl : string := String LF "".

(** [str.isspace] on one character; for the ASCII range these are the
    codes 9 to 13, 28 to 31 and 32. *)
Definition isspace (c : ascii) : bool :=
  match c with
  | "009" | "010" | "011" | "012" | "013"
  | "028" | "029" | "030" | "031" | " " => true
  | _ => false
  end%char.

(** [s.lstrip()], [s.rstrip()] and [s.strip()]. *)
Fixpoint lstrip (s : string) : string :=
  match s with
  | "" => ""
  | String c s' => if isspace c then lstrip s' else s
  end.

Fixpoint rstrip (s : string) : string :=
  match s with
  | "" => ""
  | String c s' =>
      match rstrip s' with
      | "" => if isspace c then "" else String c ""
      | r => String c r
      end
  end.

Definition strip (s : string) : string := rstrip (lstrip s).

(** [s.startswith(pre)]. *)
Fixpoint startswith (pre s : string) : bool :=
  match pre, s with
  | "", _ => true
  | String a pre', String b s' => Ascii.eqb a b && startswith pre' s'
  | String _ _, "" => false
  end.

(** [sub in s]. *)
Fixpoint contains (sub s : string) : bool :=
  startswith sub s ||
  match s with
  | "" => false
  | String _ s' => contains sub s'
  end.

(** [s.split(sep)] for a one-character separator: never the empty list. *)
Fixpoint split (sep : ascii) (s : string) : list string :=
  match s with
  | "" => [""]
  | String c s' =>
      if Ascii.eqb c sep then "" :: split sep s'
      else match split sep s' with
           | [] => [String c ""]
           | h :: t => String c h :: t
           end
  end.

(** The lines of a text, each with its line feed, as [f.readlines()] and
    iteration over a file give them: only a line feed ends a line. *)
Fixpoint readlines (s : string) : list string :=
  match s with
  | "" => []
  | String c s' =>
      if Ascii.eqb c LF then nl :: readlines s'
      else match readlines s' with
           | [] => [String c ""]
           | l :: ls => String c l :: ls
           end
  end.

(** [f.writelines(lines)] writes the concatenation of the lines. *)
Fixpoint join (lines : list string) : string :=
  match lines with
  | [] => ""
  | l :: ls => l +:+ join ls
  end.

(** Reading a file opened in text mode ([open(path, 'r')], [newline=None])
    turns ["\r\n"] and a lone ["\r"] into ["\n"]. *)
Fixpoint universal_newlines (s : string) : string :=
  match s with
  | "" => ""
  | String c s' =>
      if Ascii.eqb c CR then
        match s' with
        | String d s'' =>
            if Ascii.eqb d LF then String LF (universal_newlines s'')
            else String LF (universal_newlines s')
        | "" => nl
        end
      else String c (universal_newlines s')
  end.

(** The blanks that [int] skips around a number: the codes 9 to 13 and 32.
    The codes 28 to 31, which [str.strip] removes, are not among them. *)
Definition int_space (c : ascii) : bool :=
  match c with
  | "009" | "010" | "011" | "012" | "013" | " " => true
  | _ => false
  end%char.

Fixpoint int_lstrip (s : string) : string :=
  match s with
  | "" => ""
  | String c s' => if int_space c then int_lstrip s' else s
  end.

Fixpoint int_rstrip (s : string) : string :=
  match s with
  | "" => ""
  | String c s' =>
      match int_rstrip s' with
      | "" => if int_space c then "" else String c ""
      | r => String c r
      end
  end.

(** [int(s)] on an ASCII string of at most 4300 characters: the blanks
    around are skipped, one sign is allowed, then decimal digits, single
    underscores between digits.  [None] is [ValueError].  (Python refuses
    longer runs of digits, and reads the digits of other scripts; the
    properties that depend on [int] are stated for ASCII texts of at most
    4300 characters.) *)
Fixpoint int_digits (acc : Z) (need_digit : bool) (s : string) : option Z :=
  match s with
  | "" => if need_digit then None else Some acc
  | String c s' =>
      match Ascii.is_nat c with
      | Some d => int_digits (10 * acc + Z.of_nat d) false s'
      | None =>
          if Ascii.eqb c "_" && negb need_digit then int_digits acc true s'
          else None
      end
  end.

Definition int (s : string) : option Z :=
  match int_rstrip (int_lstrip s) with
  | String c r =>
      if Ascii.eqb c "-" then Z.opp <$> int_digits 0 true r
      else if Ascii.eqb c "+" then int_digits 0 true r
      else int_digits 0 true (String c r)
  | "" => None
  end.

(** Truth value of an optional string argument: [None] and [""] are
    falsy. *)
Definition truthy (o : option string) : bool :=
  match o with
  | Some (String _ _) => true
  | _ => false
  end.

End Py.

(** ** The regular expression of the configuration parser

    [re.findall(r'# (.+?)\n\[Peer\]\nPublicKey = (.+?)\nAllowedIPs = (.+?)(?=\n\n|\n#|\Z)', content, re.DOTALL)]

    The matcher below is the backtracking semantics of this pattern: literal
    pieces consume a prefix, each lazy group [(.+?)] (where [.] is any
    character, [re.DOTALL]) takes one character and then grows one character
    at a time until the rest of the pattern matches, and the lookahead
    consumes nothing. *)

Module Re.

(** A literal piece of the pattern: the text left after it, if it is a
    prefix. *)
Fixpoint lit (pat s : string) : option string :=
  match pat with
  | "" => Some s
  | String a pat' =>
      match s with
      | String b s' => if Ascii.eqb a b then lit pat' s' else None
      | "" => None
      end
  end.

(** [(.+?)] followed by the continuation [k] of the pattern: [k g rest] is
    tried for the prefixes [g] of length 1, 2, ... in that order, and the
    first success is the match. *)
Fixpoint lazy_plus {R} (k : string → string → option R) (s : string)
    : option R :=
  match s with
  | "" => None
  | String c s' =>
      match k (String c "") s' with
      | Some r => Some r
      | None => lazy_plus (λ g rest, k (String c g) rest) s'
      end
  end.

(** [(?=\n\n|\n#|\Z)]; Python's [\Z] holds at the very end of the text
    only. *)
Definition lookahead (s : string) : bool :=
  Py.startswith (Py.nl +:+ Py.nl) s
  || Py.startswith (Py.nl +:+ "#") s
  || String.eqb s "".

(** One match of the pattern at the head of [s]: the three groups and the
    text left after the match. *)
Definition peer_block (s : string)
    : option (string * string * string * string) :=
  s1 ← lit "# " s;
  lazy_plus (λ name s2,
    s3 ← lit (Py.nl +:+ "[Peer]" +:+ Py.nl +:+ "PublicKey = ") s2;
    lazy_plus (λ public_key s4,
      s5 ← lit (Py.nl +:+ "AllowedIPs = ") s4;
      lazy_plus (λ allowed_ips s6,
        if lookahead s6 then Some (name, public_key, allowed_ips, s6)
        else None) s5) s3) s1.

(** [re.findall]: the matches from left to right, without overlap.  After
    a match the scan goes on where the match ended: [skip] counts the
    characters of the current match still to be passed over. *)
Fixpoint findall_from (skip : nat) (s : string)
    : list (string * string * string) :=
  match s with
  | "" => []
  | String _ s' =>
      match skip with
      | S n => findall_from n s'
      | O =>
          match peer_block s with
          | Some (groups, rest) =>
              groups :: findall_from (String.length s' - String.length rest) s'
          | None => findall_from 0 s'
          end
      end
  end.

Definition findall (s : string) : list (string * string * string) :=
  findall_from 0 s.

End Re.

(** ** The environment: files, processes, clock *)

Module Env.

(** A file that exists: it cannot be opened ([PermissionError]), or it has
    a content. *)
Inductive file := Denied | File (raw : string).

(** What starting a program gives: the program is absent
    ([FileNotFoundError]), or it runs and exits. *)
Inductive proc := NotFound | Exit (code : Z) (stderr : string).

Inductive event :=
| Opened (path mode : string)      (* [open(path, mode)] succeeded *)
| Written (path data : string)     (* [data] reached the file [path] *)
| Ran (cmd : list string)          (* [subprocess.run(cmd)] started *)
| ApiTried (router : string)       (* [MikroTikAPIService(router)] entered *)
| Saved (router : string)          (* [router.save()] called *)
| Logged (action message : string) (* [_log_router_action] called *).

Record world := {
  files : gmap string file;        (* the file system, by path *)
  disk_room : option nat;          (* characters the disk still takes;
                                      [None]: no limit *)
  spawn : list string → proc;      (* outcome of a command line *)
  api_up : string → bool;          (* the management API of the router of
                                      that name accepts a connection *)
  save_error : option string;      (* [router.save()] raises with this text *)
  clock : string;                  (* [datetime.now().isoformat()] *)
  trace : list (event * gmap string file)
                                   (* the events so far, oldest first, each
                                      with the file system right after it *)
}.

Definition with_files (fs : gmap string file) (w : world) : world :=
  {| files := fs; disk_room := disk_room w; spawn := spawn w;
     api_up := api_up w; save_error := save_error w; clock := clock w;
     trace := trace w |}.

Definition with_room (r : option nat) (w : world) : world :=
  {| files := files w; disk_room := r; spawn := spawn w;
     api_up := api_up w; save_error := save_error w; clock := clock w;
     trace := trace w |}.

Definition record (e : event) (w : world) : world :=
  {| files := files w; disk_room := disk_room w; spawn := spawn w;
     api_up := api_up w; save_error := save_error w; clock := clock w;
     trace := trace w ++ [(e, files w)] |}.

(** Exceptions: [subprocess.CalledProcessError] with its [stderr], and any
    other exception with its [str(e)]. *)
Inductive exn := CalledProcessError (stderr : string) | Error (text : string).

Inductive outcome (A : Type) := Raised (e : exn) | Value (a : A).
Arguments Raised {A} e.
Arguments Value {A} a.

(** Computations that read and change the world and may raise. *)
Definition M (A : Type) : Type := world → outcome A * world.

Definition ret {A} (a : A) : M A := λ w, (Value a, w).
Definition raise {A} (e : exn) : M A := λ w, (Raised e, w).
Definition bind {A B} (m : M A) (f : A → M B) : M B :=
  λ w, match m w with
       | (Value a, w') => f a w'
       | (Raised e, w') => (Raised e, w')
       end.
(** [try: m  except Exception as e: h e] *)
Definition try_except {A} (m : M A) (h : exn → M A) : M A :=
  λ w, match m w with
       | (Value a, w') => (Value a, w')
       | (Raised e, w') => h e w'
       end.

Declare Scope py_scope.
Delimit Scope py_scope with py.
Notation "x <~ m ; k" := (bind m (λ x, k))
  (at level 20, m at level 100, k at level 200, only parsing) : py_scope.
Notation "m ;;; k" := (bind m (λ _, k))
  (at level 100, k at level 200, only parsing, right associativity)
  : py_scope.

(** [try: m  except Exception as e: return h e], for a handler that
    cannot raise: the function always returns. *)
Definition catch {A} (m : M A) (h : exn → world → A * world)
    : world → A * world :=
  λ w, match m w with
       | (Value a, w') => (a, w')
       | (Raised e, w') => h e w'
       end.

(** A call of a function that always returns. *)
Definition call {A} (f : world → A * world) : M A :=
  λ w, let '(a, w') := f w in (Value a, w').

Definition errno2 (what : string) : exn :=
  Error ("[Errno 2] No such file or directory: '" +:+ what +:+ "'").
Definition errno13 (path : string) : exn :=
  Error ("[Errno 13] Permission denied: '" +:+ path +:+ "'").
Definition errno28 : exn := Error "[Errno 28] No space left on device".

(** [os.path.exists(path)] *)
Definition exists_ (path : string) : M bool :=
  λ w, (Value (bool_decide (is_Some (files w !! path))), w).

(** [with open(path, 'r') as f: f.read()], in text mode. *)
Definition read_text (path : string) : M string :=
  λ w, match files w !! path with
       | Some (File raw) =>
           (Value (Py.universal_newlines raw), record (Opened path "r") w)
       | Some Denied => (Raised (errno13 path), w)
       | None => (Raised (errno2 path), w)
       end.

(** [data] goes to the end of the open file [path]; when the disk has room
    for [n] characters only, the first [n] arrive and [OSError] is
    raised. *)
Definition write_out (path data : string) : M unit :=
  λ w, let old := match files w !! path with
                  | Some (File raw) => raw
                  | _ => ""
                  end in
       match disk_room w with
       | Some n =>
           if decide (n < String.length data) then
             let part := String.substring 0 n data in
             (Raised errno28,
              record (Written path part)
                (with_room (Some 0)
                   (with_files (<[path := File (old +:+ part)]> (files w)) w)))
           else
             (Value (),
              record (Written path data)
                (with_room (Some (n - String.length data))
                   (with_files (<[path := File (old +:+ data)]> (files w)) w)))
       | None =>
           (Value (),
            record (Written path data)
              (with_files (<[path := File (old +:+ data)]> (files w)) w))
       end.

(** [with open(path, 'a') as f: f.write(data)]: the file is created when
    absent, and [data] is added at its end. *)
Definition append_text (path data : string) : M unit :=
  λ w, match files w !! path with
       | Some Denied => (Raised (errno13 path), w)
       | Some (File _) => write_out path data (record (Opened path "a") w)
       | None =>
           write_out path data
             (record (Opened path "a")
                (with_files (<[path := File ""]> (files w)) w))
       end.

(** [with open(path, 'w') as f: f.writelines(lines)]: opening empties the
    file, then the lines are written. *)
Definition rewrite_text (path : string) (lines : list string) : M unit :=
  λ w, match files w !! path with
       | Some Denied => (Raised (errno13 path), w)
       | _ =>
           write_out path (Py.join lines)
             (record (Opened path "w")
                (with_files (<[path := File ""]> (files w)) w))
       end.

(** [subprocess.run(cmd, capture_output=True)]: raises only when the
    program cannot be started. *)
Definition run (cmd : list string) : M proc :=
  λ w, match spawn w cmd with
       | NotFound => (Raised (errno2 (hd "" cmd)), w)
       | Exit code err => (Value (Exit code err), record (Ran cmd) w)
       end.

(** [subprocess.run(cmd, capture_output=True, check=True)] *)
Definition run_checked (cmd : list string) : M unit :=
  λ w, match spawn w cmd with
       | NotFound => (Raised (errno2 (hd "" cmd)), w)
       | Exit code err =>
           if decide (code = 0%Z) then (Value (), record (Ran cmd) w)
           else (Raised (CalledProcessError err), record (Ran cmd) w)
       end.

(** An [Optional] result read where a value is required:
    [None] raises. *)
Definition demand {A} (e : exn) (o : option A) : M A :=
  match o with
  | Some a => ret a
  | None => raise e
  end.

End Env.

(** ** The address scan shared by both allocators

    [for i in range(2, 255): ip = f"10.10.0.{i}"; if ip not in used_ips: ...]
    The loop is the same in [WireGuardMikroTikService._get_next_available_ip]
    (where [used_ips] is a set) and in [WireGuardConfigManager.add_peer]
    (where it is a list). *)

Module Pool.

(** [f"10.10.0.{i}"] *)
Definition candidate (i : nat) : string := "10.10.0." +:+ pretty i.

(** [range(2, 255)] *)
Definition host_range : list nat := seq 2 253.

(** The first candidate of [range] that is not used. *)
Fixpoint first_free (is_used : string → bool) (range : list nat)
    : option string :=
  match range with
  | [] => None
  | i :: rest =>
      if is_used (candidate i) then first_free is_used rest
      else Some (candidate i)
  end.

End Pool.

(** ** The Django model [Router], with the fields the sources read or set *)

Module Models.

Record Router := {
  name : string;
  public_key : string;
  ip_address : string;
  is_active : bool;
  vpn_ip : option string;
  vpn_type : string;
  is_vpn_connected : bool;
  last_vpn_check : option string
}.

End Models.

(** ** [class WireGuardConfigManager] of [menu/wireguard-menu.py] *)

Module ConfigManager.
Import Env.
Local Open Scope py_scope.

Definition config_file : string := "/etc/wireguard/wg0.conf".
Definition interface : string := "wg0".

(** The dictionaries built by [get_peers_from_config]. *)
Record peer := {
  name : string;
  public_key : string;
  allowed_ips : string;
  ip : string
}.

Definition peer_of_groups (g : string * string * string) : peer :=
  let '(name, public_key, allowed_ips) := g in
  {| name := Py.strip name;
     public_key := Py.strip public_key;
     allowed_ips := Py.strip allowed_ips;
     ip := hd "" (Py.split "/" (Py.strip allowed_ips)) |}.

(** [get_peers_from_config]: on any exception the peers found so far are
    returned, and none is found before the file has been read. *)
Definition get_peers_from_config : world → list peer * world :=
  catch (content <~ read_text config_file;
         ret (peer_of_groups <$> Re.findall content))
        (λ _ w, ([], w)).

(** The text appended for a peer:
    [f"\n# {name}\n[Peer]\nPublicKey = {public_key}\nAllowedIPs = {ip}/32\n"] *)
Definition peer_config (name public_key ip : string) : string :=
  Py.nl +:+ "# " +:+ name +:+ Py.nl +:+ "[Peer]" +:+ Py.nl
  +:+ "PublicKey = " +:+ public_key +:+ Py.nl
  +:+ "AllowedIPs = " +:+ ip +:+ "/32" +:+ Py.nl.

Global Arguments peer_config : simpl never.

(** The two [wg-quick] calls that restart the interface. *)
Definition restart : M unit :=
  run ["wg-quick"; "down"; interface];;;
  run ["wg-quick"; "up"; interface];;;
  ret ().

(** [add_peer(name, public_key, ip=None)] *)
Definition add_peer (name public_key : string) (ip : option string)
    : world → bool * world :=
  catch
    (chosen <~ (if Py.truthy ip then ret ip
                else
                  peers <~ call get_peers_from_config;
                  let used_ips := ConfigManager.ip <$> peers in
                  ret (Pool.first_free (λ c, bool_decide (c ∈ used_ips))
                         Pool.host_range));
     match chosen with
     | None => ret false                 (* "No available IP addresses" *)
     | Some ip =>
         append_text config_file (peer_config name public_key ip);;;
         restart;;;
         ret true
     end)
    (λ _ w, (false, w)).

(** The loop of [remove_peer] over the lines, with its flag
    [skip_until_next_section]. *)
Fixpoint remove_lines (name : string) (skip_until_next_section : bool)
    (lines : list string) : list string :=
  match lines with
  | [] => []
  | line :: rest =>
      if String.eqb (Py.strip line) ("# " +:+ name) then
        remove_lines name true rest
      else if skip_until_next_section
              && String.eqb (Py.strip line) "[Peer]" then
        remove_lines name skip_until_next_section rest
      else if skip_until_next_section
              && Py.startswith "PublicKey" line then
        remove_lines name skip_until_next_section rest
      else if skip_until_next_section
              && Py.startswith "AllowedIPs" line then
        remove_lines name false rest
      else if negb skip_until_next_section then
        line :: remove_lines name skip_until_next_section rest
      else remove_lines name skip_until_next_section rest
  end.

(** [remove_peer(name)] *)
Definition remove_peer (name : string) : world → bool * world :=
  catch
    (content <~ read_text config_file;
     let lines := Py.readlines content in
     let new_lines := remove_lines name false lines in
     rewrite_text config_file new_lines;;;
     restart;;;
     ret true)
    (λ _ w, (false, w)).

End ConfigManager.

(** ** [class WireGuardMikroTikService] of
       [tools/wireguard_mikrotik_service.py] *)

Module Service.
Import Env.
Local Open Scope py_scope.

Definition wg_config : string := "/etc/wireguard/wg0.conf".
Definition wg_interface : string := "wg0".
Definition management_script : string := "/usr/local/bin/wg-mikrotik".
Definition vpn_network : string := "10.10.0.0/24".
Definition vpn_gateway : string := "10.10.0.1".

(** [line.split('=')[1].strip().split('/')[0]]; [None] is [IndexError]. *)
Definition allowed_ip_of (line : string) : option string :=
  match Py.split "=" line with
  | _ :: x :: _ => Some (hd "" (Py.split "/" (Py.strip x)))
  | _ => None
  end.

(** The loop over the lines of the configuration file that fills
    [used_ips]. *)
Fixpoint collect_used_ips (lines : list string) (used_ips : gset string)
    : option (gset string) :=
  match lines with
  | [] => Some used_ips
  | line :: rest =>
      if Py.contains "AllowedIPs" line then
        ip ← allowed_ip_of line;
        collect_used_ips rest ({[ip]} ∪ used_ips)
      else collect_used_ips rest used_ips
  end.

(** The second loop of [_get_next_available_ip]: the first address of
    [10.10.0.2] to [10.10.0.254] that is not in [used_ips]. *)
Definition next_available (used_ips : gset string) : option string :=
  Pool.first_free (λ ip, bool_decide (ip ∈ used_ips)) Pool.host_range.

(** [_get_next_available_ip()] *)
Definition _get_next_available_ip : world → option string * world :=
  catch
    (present <~ exists_ wg_config;
     used_ips <~ (if present : bool then
                    content <~ read_text wg_config;
                    demand (Error "list index out of range")
                      (collect_used_ips (Py.readlines content) ∅)
                  else ret ∅);
     ret (next_available used_ips))
    (λ _ w, (None, w)).

(** [_is_valid_vpn_ip(ip_address)] *)
Definition _is_valid_vpn_ip (ip_address : string) : bool :=
  match Py.split "." ip_address with
  | [p0; p1; p2; p3] =>
      if String.eqb p0 "10" && String.eqb p1 "10" && String.eqb p2 "0" then
        match Py.int p3 with
        | Some ip_num => bool_decide (2 ≤ ip_num ≤ 254)%Z
        | None => false                              (* [ValueError] *)
        end
      else false
  | _ => false
  end.

(** [_log_router_action(router, action, message)] *)
Definition _log_router_action (action message : string) (w : world)
    : world :=
  record (Logged action message) w.

Definition set_vpn (ip_address : string) (r : Models.Router)
    : Models.Router :=
  {| Models.name := Models.name r;
     Models.public_key := Models.public_key r;
     Models.ip_address := Models.ip_address r;
     Models.is_active := Models.is_active r;
     Models.vpn_ip := Some ip_address;
     Models.vpn_type := "wireguard";
     Models.is_vpn_connected := true;
     Models.last_vpn_check := Models.last_vpn_check r |}.

(** [add_router_to_wireguard(router, public_key, ip_address=None)]: the
    returned pair, the router object as the call leaves it, and the
    world. *)
Definition add_router_to_wireguard (router : Models.Router)
    (public_key : string) (ip_address : option string)
    : world → (bool * string) * Models.Router * world :=
  λ w,
    let '(chosen, w1) :=
      if Py.truthy ip_address then (ip_address, w)
      else _get_next_available_ip w in
    if negb (Py.truthy chosen) then
      ((false, "No available IP addresses in VPN range"), router, w1)
    else
      let ip_address := default "" chosen in
      if negb (_is_valid_vpn_ip ip_address) then
        ((false, "Invalid VPN IP address: " +:+ ip_address), router, w1)
      else
        let cmd := [management_script; "add"; Models.name router;
                    public_key; ip_address] in
        match run_checked cmd w1 with
        | (Value _, w2) =>
            let router' := set_vpn ip_address router in
            let w3 := record (Saved (Models.name router)) w2 in
            match save_error w3 with
            | None =>
                ((true, "Router '" +:+ Models.name router
                        +:+ "' added to WireGuard with IP " +:+ ip_address),
                 router',
                 _log_router_action "WIREGUARD_ADD"
                   ("Router added to WireGuard VPN with IP " +:+ ip_address)
                   w3)
            | Some text =>
                let error_msg :=
                  "Unexpected error adding router: " +:+ text in
                ((false, error_msg), router',
                 _log_router_action "WIREGUARD_ERROR" error_msg w3)
            end
        | (Raised (CalledProcessError stderr), w2) =>
            let error_msg :=
              "Failed to add router to WireGuard: " +:+ stderr in
            ((false, error_msg), router,
             _log_router_action "WIREGUARD_ERROR" error_msg w2)
        | (Raised (Error text), w2) =>
            let error_msg := "Unexpected error adding router: " +:+ text in
            ((false, error_msg), router,
             _log_router_action "WIREGUARD_ERROR" error_msg w2)
        end.

(** The command line of the reachability check. *)
Definition ping_cmd (ip : string) : list string :=
  ["ping"; "-c"; "1"; "-W"; "3"; ip].

(** The dictionary returned by [get_router_vpn_status]; a key that the
    dictionary does not have is [None]. *)
Record vpn_status := {
  is_connected : bool;
  api_accessible : option bool;
  status : string;
  message : option string;
  vpn_ip : option string;
  last_check : option string
}.

(** [get_router_vpn_status(router)] *)
Definition get_router_vpn_status (router : Models.Router)
    : world → vpn_status * world :=
  λ w,
    if negb (Py.truthy (Models.vpn_ip router)) then
      ({| is_connected := false; api_accessible := None;
          status := "not_configured";
          message := Some "Router not configured for VPN";
          vpn_ip := None; last_check := None |}, w)
    else
      let ip := default "" (Models.vpn_ip router) in
      match run (ping_cmd ip) w with
      | (Value result, w1) =>
          let is_online :=
            match result with
            | Exit code _ => bool_decide (code = 0%Z)
            | NotFound => false
            end in
          let '(api_accessible, w2) :=
            if is_online then
              (api_up w1 (Models.name router),
               record (ApiTried (Models.name router)) w1)
            else (false, w1) in
          ({| is_connected := is_online;
              api_accessible := Some api_accessible;
              status := if is_online then "online" else "offline";
              message := None;
              vpn_ip := Some ip;
              last_check := Some (clock w2) |}, w2)
      | (Raised e, w1) =>
          ({| is_connected := false; api_accessible := None;
              status := "error";
              message := Some match e with
                              | Error text => text
                              | CalledProcessError stderr => stderr
                              end;
              vpn_ip := None;
              last_check := Some (clock w1) |}, w1)
      end.

End Service.

(** ** [class DatabaseManager] of [database_manager.py] *)

Module Database.

(** Values passed as statement parameters. *)
Inductive sqlval :=
| VNull
| VStr (s : string)
| VBool (b : bool)
| VInt (z : Z).

(** A row of the table [routers], with the columns the statements of
    [add_router] name.  [updated_at] is [None] until a statement sets
    it. *)
Record row := {
  id : Z;
  name : string;
  public_key : string;
  ip_address : string;
  vpn_type : string;
  is_active : bool;
  api_accessible : bool;
  notes : string;
  updated_at : option string
}.

(** The dictionary [router_data] given to [add_router]. *)
Record router_data := {
  d_name : string;
  d_public_key : string;
  d_ip_address : string;
  d_vpn_type : string;
  d_is_active : bool;
  d_api_accessible : bool;
  d_notes : string
}.

(** The manager with its connection and the server behind it.  The server
    holds the table; [update_semantics] is what it makes of an [UPDATE]
    statement with its parameters ([None]: it rejects the statement);
    [in_failed_txn] is set by a rejected statement, after which the
    connection rejects every statement (the sources never roll back). *)
Record DatabaseManager := {
  available : bool;
  server_up : bool;
  in_failed_txn : bool;
  table : list row;
  next_id : Z;
  now : string;
  update_semantics :
    string → gmap string sqlval → list row → option (list row);
  executed : list string;       (* statements run, oldest first *)
  commits : nat
}.

Definition after_execute (sql : string) (t : list row) (db : DatabaseManager)
    : DatabaseManager :=
  {| available := available db; server_up := server_up db;
     in_failed_txn := in_failed_txn db; table := t;
     next_id := next_id db + 1; now := now db;
     update_semantics := update_semantics db;
     executed := executed db ++ [sql]; commits := commits db |}.

Definition after_commit (db : DatabaseManager) : DatabaseManager :=
  {| available := available db; server_up := server_up db;
     in_failed_txn := in_failed_txn db; table := table db;
     next_id := next_id db; now := now db;
     update_semantics := update_semantics db;
     executed := executed db; commits := S (commits db) |}.

Definition after_error (db : DatabaseManager) : DatabaseManager :=
  {| available := available db; server_up := server_up db;
     in_failed_txn := true; table := table db;
     next_id := next_id db; now := now db;
     update_semantics := update_semantics db;
     executed := executed db; commits := commits db |}.

(** [ON CONFLICT (name) DO UPDATE SET public_key = EXCLUDED.public_key,
    ip_address = EXCLUDED.ip_address, is_active = EXCLUDED.is_active,
    updated_at = NOW()] on the row that has the name. *)
Definition on_conflict_update (now : string) (d : router_data) (r : row)
    : row :=
  {| id := id r; name := name r;
     public_key := d_public_key d;
     ip_address := d_ip_address d;
     vpn_type := vpn_type r;
     is_active := d_is_active d;
     api_accessible := api_accessible r;
     notes := notes r;
     updated_at := Some now |}.

(** [INSERT INTO routers (name, public_key, ip_address, vpn_type,
    is_active, api_accessible, notes) VALUES (...)] as a new row. *)
Definition inserted (new_id : Z) (d : router_data) : row :=
  {| id := new_id; name := d_name d;
     public_key := d_public_key d;
     ip_address := d_ip_address d;
     vpn_type := d_vpn_type d;
     is_active := d_is_active d;
     api_accessible := d_api_accessible d;
     notes := d_notes d;
     updated_at := None |}.

(** The whole statement of [add_router] on the table. *)
Fixpoint insert_on_conflict (now : string) (new_id : Z) (d : router_data)
    (t : list row) : list row :=
  match t with
  | [] => [inserted new_id d]
  | r :: t' =>
      if String.eqb (name r) (d_name d) then on_conflict_update now d r :: t'
      else r :: insert_on_conflict now new_id d t'
  end.

(** [n] spaces. *)
Fixpoint indent (n : nat) : string :=
  match n with
  | 0 => ""
  | S n' => String " " (indent n')
  end.

(** The statement of [add_router], with the line feeds and the indentation
    of the triple-quoted text. *)
Definition add_router_sql : string :=
  Py.nl
  +:+ indent 20 +:+ "INSERT INTO routers (" +:+ Py.nl
  +:+ indent 24 +:+ "name, public_key, ip_address, vpn_type, " +:+ Py.nl
  +:+ indent 24 +:+ "is_active, api_accessible, notes" +:+ Py.nl
  +:+ indent 20 +:+ ") VALUES (" +:+ Py.nl
  +:+ indent 24
  +:+ "%(name)s, %(public_key)s, %(ip_address)s, %(vpn_type)s," +:+ Py.nl
  +:+ indent 24
  +:+ "%(is_active)s, %(api_accessible)s, %(notes)s" +:+ Py.nl
  +:+ indent 20 +:+ ")" +:+ Py.nl
  +:+ indent 20 +:+ "ON CONFLICT (name) DO UPDATE SET" +:+ Py.nl
  +:+ indent 24 +:+ "public_key = EXCLUDED.public_key," +:+ Py.nl
  +:+ indent 24 +:+ "ip_address = EXCLUDED.ip_address," +:+ Py.nl
  +:+ indent 24 +:+ "is_active = EXCLUDED.is_active," +:+ Py.nl
  +:+ indent 24 +:+ "updated_at = NOW()" +:+ Py.nl
  +:+ indent 16.

(** [add_router(router_data)] *)
Definition add_router (d : router_data) (db : DatabaseManager)
    : bool * DatabaseManager :=
  if negb (available db) then (false, db)
  else if negb (server_up db) || in_failed_txn db then
    (false, after_error db)
  else
    (true,
     after_commit
       (after_execute add_router_sql
          (insert_on_conflict (now db) (next_id db) d (table db)) db)).

(** What a Python function returns: [True], [False], or [None] when it
    ends without [return]. *)
Inductive returned := PyTrue | PyFalse | PyNone.

Definition truth (r : returned) : bool :=
  match r with
  | PyTrue => true
  | PyFalse | PyNone => false
  end.

(** [sep.join(parts)] *)
Fixpoint join_with (sep : string) (parts : list string) : string :=
  match parts with
  | [] => ""
  | [x] => x
  | x :: rest => x +:+ sep +:+ join_with sep rest
  end.

(** The pieces that [update_router] builds from [updates], the items of the
    dictionary in their order: the [SET] clauses, the parameters (a
    dictionary, so a later item for the same key replaces an earlier one),
    and the statement. *)
Definition set_clauses (updates : list (string * sqlval)) : list string :=
  (λ kv, fst kv +:+ " = %(" +:+ fst kv +:+ ")s") <$> updates.

Definition values (router_id : Z) (updates : list (string * sqlval))
    : gmap string sqlval :=
  foldl (λ m kv, <[fst kv := snd kv]> m) {[ "id" := VInt router_id ]} updates.

Definition query (updates : list (string * sqlval)) : string :=
  Py.nl
  +:+ indent 24 +:+ "UPDATE routers " +:+ Py.nl
  +:+ indent 24 +:+ "SET " +:+ join_with ", " (set_clauses updates)
  +:+ ", updated_at = NOW()" +:+ Py.nl
  +:+ indent 24 +:+ "WHERE id = %(id)s" +:+ Py.nl
  +:+ indent 20.

(** [update_router(router_id, updates)] *)
Definition update_router (router_id : Z) (updates : list (string * sqlval))
    (db : DatabaseManager) : returned * DatabaseManager :=
  if negb (available db) then (PyFalse, db)
  else
    match set_clauses updates with
    | _ :: _ =>
        if negb (server_up db) || in_failed_txn db then
          (PyFalse, after_error db)
        else
          match update_semantics db (query updates) (values router_id updates)
                  (table db) with
          | Some t =>
              (PyTrue, after_commit (after_execute (query updates) t db))
          | None => (PyFalse, after_error db)
          end
    | [] => (PyNone, db)                   (* no [return] is reached *)
    end.

End Database.

(** ** [WireGuardMenu.list_routers] of [menu/wireguard-menu.py]: the list
       [routers] that the method builds and then prints *)

Module Menu.

(** A row as a dictionary read with [.get]: a key may be absent. *)
Record row := {
  r_name : option string;
  r_public_key : option string;
  r_ip_address : option string;
  r_is_active : option bool
}.

(** The dictionaries appended to [routers]. *)
Record entry := {
  name : string;
  public_key : string;
  ip : string;
  status : string;
  source : string
}.

Definition status_of (is_active : bool) : string :=
  if is_active then "Active" else "Inactive".

Definition entry_of_row (source : string) (r : row) : entry :=
  {| name := default "Unknown" (r_name r);
     public_key := default "Unknown" (r_public_key r);
     ip := default "Unknown" (r_ip_address r);
     status := status_of (default false (r_is_active r));
     source := source |}.

Definition entry_of_django (r : Models.Router) : entry :=
  {| name := Models.name r;
     public_key := Models.public_key r;
     ip := Models.ip_address r;
     status := status_of (Models.is_active r);
     source := "Django DB" |}.

Definition entry_of_peer (p : ConfigManager.peer) : entry :=
  {| name := ConfigManager.name p;
     public_key := ConfigManager.public_key p;
     ip := ConfigManager.ip p;
     status := "Active";
     source := "WireGuard Config" |}.

(** [any(r['public_key'] == key for r in routers)]; [key] is [None] when
    it is read by [.get] from a dictionary without it, and then equals no
    string. *)
Definition seen (routers : list entry) (key : option string) : bool :=
  match key with
  | Some k => existsb (λ r, String.eqb (public_key r) k) routers
  | None => false
  end.

(** One [for router in ...: if not any(...): routers.append(...)] loop. *)
Definition extend {A} (key : A → option string) (mk : A → entry)
    (routers : list entry) (found : list A) : list entry :=
  foldl (λ routers router,
           if seen routers (key router) then routers
           else routers ++ [mk router])
        routers found.

(** The four sources in their order.  [database] is [None] when there is
    no available [DatabaseManager] and else what [get_routers()] returned;
    [django] is [None] when Django is not available or its query raised;
    [supabase] likewise; the WireGuard configuration is read from the
    world. *)
Definition list_routers (database : option (list row))
    (django : option (list Models.Router)) (supabase : option (list row))
    : Env.world → list entry * Env.world :=
  λ w,
    let routers := [] in
    let routers :=
      match database with
      | Some db_routers => routers ++ (entry_of_row "Database" <$> db_routers)
      | None => routers
      end in
    let routers :=
      match django with
      | Some django_routers =>
          extend (λ r, Some (Models.public_key r)) entry_of_django
                 routers django_routers
      | None => routers
      end in
    let routers :=
      match supabase with
      | Some supabase_routers =>
          extend r_public_key (entry_of_row "Supabase")
                 routers supabase_routers
      | None => routers
      end in
    let '(wg_routers, w') := ConfigManager.get_peers_from_config w in
    (extend (λ p, Some (ConfigManager.public_key p)) entry_of_peer
            routers wg_routers, w').

End Menu.

(** ** Concrete inputs used by the examples below *)

Module Scenario.
Import Env.

(** A configuration file with the server's own section and no peer. *)
Definition server_conf : string :=
  "[Interface]" +:+ Py.nl +:+ "PrivateKey = SERVERKEY" +:+ Py.nl
  +:+ "Address = 10.10.0.1/24" +:+ Py.nl +:+ "ListenPort = 51820" +:+ Py.nl.

(** A machine where every program starts and exits with 0, the disk has
    no limit, and the configuration file has the content [conf]. *)
Definition machine (conf : string) : world :=
  {| files := {[ ConfigManager.config_file := File conf ]};
     disk_room := None;
     spawn := λ _, Exit 0 "";
     api_up := λ _, true;
     save_error := None;
     clock := "2024-01-01T00:00:00";
     trace := [] |}.

(** The content of the configuration file. *)
Definition conf_of (w : world) : option file :=
  files w !! ConfigManager.config_file.

(** Three peers added with automatic addresses. *)
Definition after_three : world :=
  let w1 := (ConfigManager.add_peer "r1" "KEY1" None (machine server_conf)).2 in
  let w2 := (ConfigManager.add_peer "r2" "KEY2" None w1).2 in
  (ConfigManager.add_peer "r3" "KEY3" None w2).2.

(** A configuration file in which every address of the pool is taken. *)
Definition full_conf : string :=
  Py.join ((λ i, "AllowedIPs = " +:+ Pool.candidate i +:+ "/32" +:+ Py.nl)
             <$> Pool.host_range).

(** The configuration file exists and cannot be opened. *)
Definition locked : world :=
  with_files {[ Service.wg_config := Denied ]} (machine "").

Definition router (name : string) (vpn_ip : option string)
    : Models.Router :=
  {| Models.name := name; Models.public_key := "";
     Models.ip_address := ""; Models.is_active := true;
     Models.vpn_ip := vpn_ip; Models.vpn_type := "";
     Models.is_vpn_connected := false; Models.last_vpn_check := None |}.

(** A database that holds one router, and a request to add a router of the
    same name with another key and address. *)
Definition db_with_r1 : Database.DatabaseManager :=
  {| Database.available := true; Database.server_up := true;
     Database.in_failed_txn := false;
     Database.table :=
       [ {| Database.id := 1; Database.name := "r1";
            Database.public_key := "OLDKEY";
            Database.ip_address := "10.10.0.2";
            Database.vpn_type := "wireguard";
            Database.is_active := true;
            Database.api_accessible := true;
            Database.notes := "first";
            Database.updated_at := None |} ];
     Database.next_id := 2;
     Database.now := "2024-01-01T00:00:00";
     Database.update_semantics := λ _ _ t, Some t;
     Database.executed := [];
     Database.commits := 0 |}.

Definition r1_again : Database.router_data :=
  {| Database.d_name := "r1";
     Database.d_public_key := "NEWKEY";
     Database.d_ip_address := "10.10.0.9";
     Database.d_vpn_type := "wireguard";
     Database.d_is_active := false;
     Database.d_api_accessible := false;
     Database.d_notes := "second" |}.

Definition r2_fresh : Database.router_data :=
  {| Database.d_name := "r2";
     Database.d_public_key := "KEY2";
     Database.d_ip_address := "10.10.0.3";
     Database.d_vpn_type := "wireguard";
     Database.d_is_active := true;
     Database.d_api_accessible := false;
     Database.d_notes := "Added via VPS menu" |}.

(** A machine on which the router answers the ping and its management API
    refuses the connection; and one on which the ping fails. *)
Definition api_down : world :=
  {| files := ∅; disk_room := None; spawn := λ _, Exit 0 "";
     api_up := λ _, false; save_error := None;
     clock := "2024-01-01T00:00:00"; trace := [] |}.

Definition ping_fails : world :=
  {| files := ∅; disk_room := None; spawn := λ _, Exit 1 "";
     api_up := λ _, true; save_error := None;
     clock := "2024-01-01T00:00:00"; trace := [] |}.

(** Records of four peers A, B, C, D as three sources hold them; the copies
    of B and C in the lower sources are stale: same name and key, another
    address. *)
Definition source_row (name key ip : string) : Menu.row :=
  {| Menu.r_name := Some name; Menu.r_public_key := Some key;
     Menu.r_ip_address := Some ip; Menu.r_is_active := Some true |}.

Definition primary : list Menu.row :=
  [source_row "A" "KEYA" "10.10.0.2"; source_row "B" "KEYB" "10.10.0.3"].

Definition secondary : list Menu.row :=
  [source_row "B" "KEYB" "10.10.0.33"; source_row "C" "KEYC" "10.10.0.4"].

Definition local_conf : string :=
  ConfigManager.peer_config "C" "KEYC" "10.10.0.44"
  +:+ ConfigManager.peer_config "D" "KEYD" "10.10.0.5".

Definition merged_entry (name key ip source : string) : Menu.entry :=
  {| Menu.name := name; Menu.public_key := key; Menu.ip := ip;
     Menu.status := "Active"; Menu.source := source |}.

(** A configuration file that holds one peer named "r1". *)
Definition conf_r1 : string :=
  server_conf +:+ ConfigManager.peer_config "r1" "KEY1" "10.10.0.2".

(** The machine with a disk that takes [n] more characters. *)
Definition small_disk (n : nat) (conf : string) : world :=
  with_room (Some n) (machine conf).

(** What remains of [conf_r1] when "r1" has been removed. *)
Definition conf_r1_removed : string := server_conf +:+ Py.nl.

(** The server's part with a comment line before it. *)
Definition commented_conf : string :=
  "# wg0 server" +:+ Py.nl +:+ server_conf.

(** [conf_r1] with one more setting in the block of "r1", as [wg-quick]
    accepts it. *)
Definition conf_r1_keepalive : string :=
  conf_r1 +:+ "PersistentKeepalive = 25" +:+ Py.nl.

(** The line ending ["\r\n"], and the block of "r1" after the server's
    part in a file whose block lines end with it. *)
Definition crlf : string := String Py.CR Py.nl.

Definition conf_r1_crlf : string :=
  server_conf +:+ crlf +:+ "# r1" +:+ crlf +:+ "[Peer]" +:+ crlf
  +:+ "PublicKey = KEY1" +:+ crlf +:+ "AllowedIPs = 10.10.0.2/32" +:+ crlf.

End Scenario.

(** ** Notions used in the statements of Part II *)

Module Notions.

(** Reading fails: the file exists and cannot be opened, or a line that
    mentions [AllowedIPs] has no [=] sign ([IndexError]). *)
Definition read_fails (w : Env.world) : Prop :=
  Env.files w !! Service.wg_config = Some Env.Denied
  ∨ ∃ raw, Env.files w !! Service.wg_config = Some (Env.File raw)
           ∧ Service.collect_used_ips
               (Py.readlines (Py.universal_newlines raw)) ∅ = None.

(** Every address of the pool is in use in the file. *)
Definition pool_exhausted (w : Env.world) : Prop :=
  ∃ raw used,
    Env.files w !! Service.wg_config = Some (Env.File raw)
    ∧ Service.collect_used_ips
        (Py.readlines (Py.universal_newlines raw)) ∅ = Some used
    ∧ ∀ i, 2 ≤ i ≤ 254 → Pool.candidate i ∈ used.

(** From position [n] on, no entry of the list carries the key of an entry
    before it. *)
Definition fresh_after (n : nat) (routers : list Menu.entry) : Prop :=
  ∀ i j e e', n ≤ i → j < i →
    routers !! i = Some e → routers !! j = Some e' →
    Menu.public_key e' ≠ Menu.public_key e.

(** The text is ASCII: every character code is below 128.  Such a text
    has one character per byte, and Python reads and writes it as the
    definitions of Part I do. *)
Fixpoint seven_bit (s : string) : bool :=
  match s with
  | "" => true
  | String (Ascii _ _ _ _ _ _ _ b7) s' => negb b7 && seven_bit s'
  end.

(** The character [c] occurs in [s]. *)
Fixpoint mem (c : ascii) (s : string) : bool :=
  match s with
  | "" => false
  | String d s' => Ascii.eqb d c || mem c s'
  end.

(** A line with its line feed: the line feed is its last character and its
    only one. *)
Fixpoint full_line (s : string) : bool :=
  match s with
  | "" => false
  | String c s' => if Ascii.eqb c Py.LF then String.eqb s' "" else full_line s'
  end.

(** The lines of a text: all with their line feed, except that the last one
    may lack it (and then is not empty). *)
Fixpoint proper (lines : list string) : Prop :=
  match lines with
  | [] => True
  | l :: rest =>
      (full_line l = true
       ∨ (rest = [] ∧ l ≠ "" ∧ mem Py.LF l = false))
      ∧ proper rest
  end.

(** No line of the file is the name marker of [name]. *)
Definition absent (name raw : string) : Prop :=
  Forall (λ line, Py.strip line ≠ "# " +:+ name)
         (Py.readlines (Py.universal_newlines raw)).

(** A peer as [add_peer] receives it: name, key and address; its block in
    the file; and the entry that lists it. *)
Definition block (p : string * string * string) : string :=
  ConfigManager.peer_config p.1.1 p.1.2 p.2.

Definition listed (p : string * string * string) : ConfigManager.peer :=
  {| ConfigManager.name := p.1.1;
     ConfigManager.public_key := p.1.2;
     ConfigManager.allowed_ips := p.2 +:+ "/32";
     ConfigManager.ip := p.2 |}.

(** What follows the server's part of a configuration file: blocks written
    by [add_peer], and the line feeds left where [remove_peer] took a block
    out. *)
Inductive item := Block (p : string * string * string) | Gap.

Definition item_text (i : item) : string :=
  match i with
  | Block p => block p
  | Gap => Py.nl
  end.

Definition layout (base : string) (items : list item) : string :=
  base +:+ Py.join (item_text <$> items).

Definition blocks (items : list item) : list (string * string * string) :=
  omap (λ i, match i with Block p => Some p | Gap => None end) items.

(** The item left in the place of [i] when [name] is removed. *)
Definition strike (name : string) (i : item) : item :=
  match i with
  | Block p => if String.eqb p.1.1 name then Gap else Block p
  | Gap => Gap
  end.

(** A field value that the file keeps as it is: not empty, on one line, and
    without blanks around it. *)
Definition tidy (s : string) : Prop :=
  s ≠ "" ∧ Py.strip s = s ∧ mem Py.LF s = false ∧ mem Py.CR s = false.

Definition tidy_peer (p : string * string * string) : Prop :=
  tidy p.1.1 ∧ tidy p.1.2 ∧ tidy p.2 ∧ mem "/" p.2 = false.

Definition tidy_item (i : item) : Prop :=
  match i with
  | Block p => tidy_peer p
  | Gap => True
  end.

(** The four lines of a block, and the lines of an item: its first line is
    the empty line that [add_peer] writes before the name. *)
Definition block_lines (p : string * string * string) : list string :=
  [ "# " +:+ p.1.1 +:+ Py.nl;
    "[Peer]" +:+ Py.nl;
    "PublicKey = " +:+ p.1.2 +:+ Py.nl;
    "AllowedIPs = " +:+ p.2 +:+ "/32" +:+ Py.nl ].

Definition body_lines (i : item) : list string :=
  match i with
  | Block p => block_lines p
  | Gap => []
  end.

Definition item_lines (i : item) : list string := Py.nl :: body_lines i.

(** The literal pieces of the pattern between the groups. *)
Definition after_name : string :=
  Py.nl +:+ "[Peer]" +:+ Py.nl +:+ "PublicKey = ".
Definition after_key : string := Py.nl +:+ "AllowedIPs = ".

(** The block of a peer without its first line feed, followed by [rest]. *)
Definition body (name public_key ip : string) (rest : string) : string :=
  "# " +:+ name +:+ after_name +:+ public_key +:+ after_key
  +:+ (ip +:+ "/32") +:+ rest.

(** Both [wg-quick] calls of a restart can be started. *)
Definition wg_quick_works (w : Env.world) : Prop :=
  Env.spawn w ["wg-quick"; "down"; ConfigManager.interface] ≠ Env.NotFound
  ∧ Env.spawn w ["wg-quick"; "up"; ConfigManager.interface] ≠ Env.NotFound.

(** The configuration file has the content [raw], and the disk takes any
    amount of data. *)
Definition conf_is (raw : string) (w : Env.world) : Prop :=
  Env.files w !! ConfigManager.config_file = Some (Env.File raw)
  ∧ Env.disk_room w = None.

(** The result of an operation once the file is written: the restart, and
    [True] when both [wg-quick] calls started. *)
Definition finish (w : Env.world) : bool * Env.world :=
  match ConfigManager.restart w with
  | (Env.Value _, w') => (true, w')
  | (Env.Raised _, w') => (false, w')
  end.

(** The address [add_peer] works with: the one given, or the first one no
    peer of the file has. *)
Definition chosen_ip (raw : string) (ip : option string) : option string :=
  if Py.truthy ip then ip
  else Pool.first_free
         (λ c, bool_decide
                 (c ∈ ConfigManager.ip
                      <$> (ConfigManager.peer_of_groups
                             <$> Re.findall (Py.universal_newlines raw))))
         Pool.host_range.

End Notions.

(** ** The other methods of [WireGuardMikroTikService] *)

Module RouterOps.
Import Env.

Definition clear_vpn (r : Models.Router) : Models.Router :=
  {| Models.name := Models.name r;
     Models.public_key := Models.public_key r;
     Models.ip_address := Models.ip_address r;
     Models.is_active := Models.is_active r;
     Models.vpn_ip := None;
     Models.vpn_type := Models.vpn_type r;
     Models.is_vpn_connected := false;
     Models.last_vpn_check := Models.last_vpn_check r |}.

Definition mark_synced (now : string) (r : Models.Router) : Models.Router :=
  {| Models.name := Models.name r;
     Models.public_key := Models.public_key r;
     Models.ip_address := Models.ip_address r;
     Models.is_active := Models.is_active r;
     Models.vpn_ip := Models.vpn_ip r;
     Models.vpn_type := Models.vpn_type r;
     Models.is_vpn_connected := true;
     Models.last_vpn_check := Some now |}.

(** [remove_router_from_wireguard(router)]: the returned pair, the router
    object as the call leaves it, and the world. *)
Definition remove_router_from_wireguard (router : Models.Router)
    : world → (bool * string) * Models.Router * world :=
  λ w,
    let cmd := [Service.management_script; "remove"; Models.name router] in
    match run_checked cmd w with
    | (Value _, w1) =>
        let router' := clear_vpn router in
        let w2 := record (Saved (Models.name router)) w1 in
        match save_error w2 with
        | None =>
            ((true, "Router '" +:+ Models.name router
                    +:+ "' removed from WireGuard"),
             router',
             Service._log_router_action "WIREGUARD_REMOVE"
               "Router removed from WireGuard VPN" w2)
        | Some text =>
            let error_msg := "Unexpected error removing router: " +:+ text in
            ((false, error_msg), router',
             Service._log_router_action "WIREGUARD_ERROR" error_msg w2)
        end
    | (Raised (CalledProcessError stderr), w1) =>
        let error_msg :=
          "Failed to remove router from WireGuard: " +:+ stderr in
        ((false, error_msg), router,
         Service._log_router_action "WIREGUARD_ERROR" error_msg w1)
    | (Raised (Error text), w1) =>
        let error_msg := "Unexpected error removing router: " +:+ text in
        ((false, error_msg), router,
         Service._log_router_action "WIREGUARD_ERROR" error_msg w1)
    end.

(** One entry of the list ["routers"] of [get_all_vpn_status]. *)
Record router_info := {
  id : Z;
  name : string;
  vpn_ip : option string;
  status : Service.vpn_status
}.

(** The dictionary returned by [get_all_vpn_status]. *)
Record all_status := {
  total_routers : nat;
  online_routers : nat;
  offline_routers : nat;
  routers : list router_info
}.

(** The loop of [get_all_vpn_status] over the routers, each with its
    [id]. *)
Fixpoint status_loop (rs : list (Z * Models.Router)) (status : all_status)
    (w : world) : all_status * world :=
  match rs with
  | [] => (status, w)
  | (router_id, router) :: rest =>
      let '(router_status, w1) := Service.get_router_vpn_status router w in
      let info := {| id := router_id; name := Models.name router;
                     vpn_ip := Models.vpn_ip router;
                     status := router_status |} in
      status_loop rest
        {| total_routers := total_routers status;
           online_routers :=
             if Service.is_connected router_status
             then online_routers status + 1 else online_routers status;
           offline_routers :=
             if Service.is_connected router_status
             then offline_routers status else offline_routers status + 1;
           routers := routers status ++ [info] |}
        w1
  end.

(** [get_all_vpn_status()].  [objects] is the table behind the model
    [Router], each row with its [id], or [None] when the model could not be
    imported; the result is then the dictionary [{"error": ...}], here
    [None]. *)
Definition get_all_vpn_status (objects : option (list (Z * Models.Router)))
    : world → option all_status * world :=
  λ w,
    match objects with
    | None => (None, w)
    | Some all =>
        let routers :=
          filter (λ r, Models.vpn_type r.2 = "wireguard") all in
        let '(status, w') :=
          status_loop routers
            {| total_routers := length routers; online_routers := 0;
               offline_routers := 0; routers := [] |} w in
        (Some status, w')
    end.

(** [sync_router_with_wireguard(router)] *)
Definition sync_router_with_wireguard (router : Models.Router)
    : world → (bool * string) * Models.Router * world :=
  λ w,
    if negb (Py.truthy (Models.vpn_ip router)) then
      ((false, "Router not configured for VPN"), router, w)
    else
      match read_text Service.wg_config w with
      | (Raised e, w1) =>
          let error_msg :=
            "Error syncing router with WireGuard: "
            +:+ match e with
                | Error text => text
                | CalledProcessError stderr => stderr
                end in
          ((false, error_msg), router,
           Service._log_router_action "WIREGUARD_ERROR" error_msg w1)
      | (Value config_content, w1) =>
          if negb (Py.contains (Models.name router) config_content) then
            ((false, "Router not found in WireGuard configuration"),
             router, w1)
          else
            let '(status, w2) := Service.get_router_vpn_status router w1 in
            if negb (Service.is_connected status) then
              ((false, "Router is not reachable via VPN: "
                       +:+ default "Unknown error" (Service.message status)),
               router, w2)
            else if negb (default false (Service.api_accessible status)) then
              ((false, "Router API is not accessible via VPN"), router, w2)
            else
              let router' := mark_synced (clock w2) router in
              let w3 := record (Saved (Models.name router)) w2 in
              match save_error w3 with
              | None =>
                  ((true, "Router '" +:+ Models.name router
                          +:+ "' synced successfully with WireGuard"),
                   router',
                   Service._log_router_action "WIREGUARD_SYNC"
                     "Router successfully synced with WireGuard" w3)
              | Some text =>
                  let error_msg :=
                    "Error syncing router with WireGuard: " +:+ text in
                  ((false, error_msg), router',
                   Service._log_router_action "WIREGUARD_ERROR" error_msg w3)
              end
      end.

End RouterOps.

(** ** The other methods of [DatabaseManager] *)

Module Store.
Import Database.

(** A statement that the server has run and that takes no value from the
    sequence of [id]s. *)
Definition after_statement (sql : string) (t : list row)
    (db : DatabaseManager) : DatabaseManager :=
  {| available := available db; server_up := server_up db;
     in_failed_txn := in_failed_txn db; table := t;
     next_id := next_id db; now := now db;
     update_semantics := update_semantics db;
     executed := executed db ++ [sql]; commits := commits db |}.

(** [delete_router(router_id)], with the statement
    [DELETE FROM routers WHERE id = %s]. *)
Definition delete_router (router_id : Z) (db : DatabaseManager)
    : bool * DatabaseManager :=
  if negb (available db) then (false, db)
  else if negb (server_up db) || in_failed_txn db then
    (false, after_error db)
  else
    (true,
     after_commit
       (after_statement "DELETE FROM routers WHERE id = %s"
          (filter (λ r, id r ≠ router_id) (table db)) db)).

(** [get_router_by_name(name)], with the statement
    [SELECT * FROM routers WHERE name = %s AND vpn_type = 'wireguard'];
    [fetchone()] gives the first row of the answer, here in the order of
    the table. *)
Definition get_router_by_name (name : string) (db : DatabaseManager)
    : option row * DatabaseManager :=
  if negb (available db) then (None, db)
  else if negb (server_up db) || in_failed_txn db then
    (None, after_error db)
  else
    (head (filter (λ r, Database.name r = name
                        ∧ vpn_type r = "wireguard") (table db)),
     after_statement
       (Py.nl +:+ indent 20 +:+ "SELECT * FROM routers " +:+ Py.nl
        +:+ indent 20 +:+ "WHERE name = %s AND vpn_type = 'wireguard'"
        +:+ Py.nl +:+ indent 16)
       (table db) db).

End Store.

(** ** [class SupabaseManager] and [WireGuardMenu.add_router],
       [WireGuardMenu.get_user_choice] of [menu/wireguard-menu.py] *)

Module MenuFlow.
Import Env.

(** The dictionary that [WireGuardMenu.add_router] gives to Supabase. *)
Record supabase_data := {
  s_name : string;
  s_public_key : string;
  s_ip_address : string;
  s_vpn_type : string;
  s_is_active : bool
}.

(** The Supabase client: whether it was set up, whether an insert goes
    through, and the dictionaries inserted so far, oldest first. *)
Record SupabaseManager := {
  available : bool;
  insert_ok : bool;
  inserted : list supabase_data
}.

(** [SupabaseManager.add_router(router_data)] *)
Definition supabase_add_router (router_data : supabase_data)
    (sb : SupabaseManager) : bool * SupabaseManager :=
  if negb (available sb) then (false, sb)
  else if insert_ok sb then
    (true, {| available := available sb; insert_ok := insert_ok sb;
              inserted := inserted sb ++ [router_data] |})
  else (false, sb).

(** [ip_address or 'Auto-assigned'] *)
Definition or_auto (ip_address : option string) : string :=
  if Py.truthy ip_address then default "" ip_address else "Auto-assigned".

(** [WireGuardMenu.add_router()], for the three lines typed in.  The
    database is [None] when [DatabaseManager] could not be imported.  The
    result is what the method changes: the world, the database and
    Supabase. *)
Definition add_router (router_name public_key ip_input : string)
    (database : option Database.DatabaseManager) (supabase : SupabaseManager)
    : world → world * option Database.DatabaseManager * SupabaseManager :=
  λ w,
    if negb (Py.truthy (Some router_name)) then (w, database, supabase)
    else if negb (Py.truthy (Some public_key)) then (w, database, supabase)
    else
      let ip_address :=
        if negb (Py.truthy (Some (Py.strip ip_input))) then None
        else Some ip_input in
      let '(success, w') :=
        ConfigManager.add_peer router_name public_key ip_address w in
      if success then
        let database_ready :=
          match database with
          | Some db => Database.available db
          | None => false
          end in
        if database_ready then
          let router_data :=
            {| Database.d_name := router_name;
               Database.d_public_key := public_key;
               Database.d_ip_address := or_auto ip_address;
               Database.d_vpn_type := "wireguard";
               Database.d_is_active := true;
               Database.d_api_accessible := false;
               Database.d_notes := "Added via VPS menu" |} in
          (w', (λ db, (Database.add_router router_data db).2) <$> database,
           supabase)
        else if available supabase then
          (w', database,
           (supabase_add_router
              {| s_name := router_name; s_public_key := public_key;
                 s_ip_address := or_auto ip_address;
                 s_vpn_type := "wireguard"; s_is_active := true |}
              supabase).2)
        else (w', database, supabase)
      else (w', database, supabase).

(** [get_user_choice(max_choice)] over the lines still to be typed in: the
    choice and the lines left, or [None] when the input ends first. *)
Fixpoint get_user_choice (max_choice : Z) (inputs : list string)
    : option (Z * list string) :=
  match inputs with
  | [] => None
  | line :: rest =>
      match Py.int line with
      | Some choice =>
          if bool_decide (1 ≤ choice ≤ max_choice)%Z then Some (choice, rest)
          else get_user_choice max_choice rest
      | None => get_user_choice max_choice rest        (* [ValueError] *)
      end
  end.

End MenuFlow.

(** ** [WireGuardConfigManager.get_peers_from_wg_command] *)

Module WgCommand.

(** What [subprocess.run(['wg', 'show', 'wg0', 'peers'], capture_output=True,
    text=True)] gives: the program cannot be started, or its return code
    and its output as raw text. *)
Inductive result := CannotStart | Completed (returncode : Z) (stdout : string).

(** [s[:n]] *)
Definition prefix (n : nat) (s : string) : string := String.substring 0 n s.

Definition peer_of_line (line : string) : ConfigManager.peer :=
  {| ConfigManager.name := "Peer_" +:+ prefix 8 (Py.strip line);
     ConfigManager.public_key := Py.strip line;
     ConfigManager.allowed_ips := "Unknown";
     ConfigManager.ip := "Unknown" |}.

(** [get_peers_from_wg_command()], for the outcome of the [wg] call; the
    output is read in text mode. *)
Definition get_peers_from_wg_command (r : result) : list ConfigManager.peer :=
  match r with
  | CannotStart => []
  | Completed returncode stdout =>
      if bool_decide (returncode = 0%Z) then
        peer_of_line
          <$> filter (λ line, Py.truthy (Some (Py.strip line)) = true)
                (Py.split Py.LF (Py.strip (Py.universal_newlines stdout)))
      else []
  end.

End WgCommand.

(** ** Further notions used in the statements of Part II *)

Module Terms.

(** The router has an address and the ping of it exits with 0. *)
Definition reachable (w : Env.world) (router : Models.Router) : bool :=
  Py.truthy (Models.vpn_ip router)
  && match Env.spawn w (Service.ping_cmd (default "" (Models.vpn_ip router)))
     with
     | Env.Exit code _ => bool_decide (code = 0%Z)
     | Env.NotFound => false
     end.

(** The events of a trace, without the file systems. *)
Definition events (w : Env.world) : list Env.event := fst <$> Env.trace w.

(** An item whose name and key do not contain the text "AllowedIPs" and
    whose address has no [=] sign. *)
Definition unmarked (i : Notions.item) : Prop :=
  match i with
  | Notions.Block p =>
      Py.contains "AllowedIPs" p.1.1 = false
      ∧ Py.contains "AllowedIPs" p.1.2 = false
      ∧ Notions.mem "=" p.2 = false
  | Notions.Gap => True
  end.

End Terms.

(* ===================================================================== *)
(** * Part II. Properties                                                  *)
(* ===================================================================== *)

(** ** Address allocation *)

Section Allocation.

Lemma first_free_spec (is_used : string → bool) (range : list nat) :
  match Pool.first_free is_used range with
  | Some a =>
      ∃ k i, range !! k = Some i ∧ a = Pool.candidate i
             ∧ is_used a = false
             ∧ (∀ k' j, k' < k → range !! k' = Some j →
                        is_used (Pool.candidate j) = true)
  | None => ∀ i, i ∈ range → is_used (Pool.candidate i) = true
  end.
Proof.
  induction range as [|i rest IH]; simpl.
  - intros i Hi. by apply elem_of_nil in Hi.
  - destruct (is_used (Pool.candidate i)) eqn:Hu.
    + destruct (Pool.first_free is_used rest) as [a|].
      * destruct IH as (k & i' & Hk & -> & Hfree & Hbefore).
        exists (S k), i'. repeat split; auto.
        intros [|k'] j Hlt Hj; simpl in Hj.
        -- by simplify_eq.
        -- apply (Hbefore k' j); [lia | done].
      * intros j [->|Hj]%elem_of_cons; auto.
    + exists 0, i. repeat split; auto. intros k' j Hlt. lia.
Qed.

Lemma host_range_lookup (k i : nat) :
  Pool.host_range !! k = Some i ↔ i = 2 + k ∧ k < 253.
Proof. unfold Pool.host_range. rewrite lookup_seq. naive_solver. Qed.

Lemma host_range_elem (i : nat) : i ∈ Pool.host_range ↔ 2 ≤ i ≤ 254.
Proof. unfold Pool.host_range. rewrite elem_of_seq. lia. Qed.

Lemma candidate_inj (i j : nat) : Pool.candidate i = Pool.candidate j → i = j.
Proof.
  unfold Pool.candidate. intros H.
  apply (inj (String.app "10.10.0.")) in H. by apply (inj pretty) in H.
Qed.

Lemma next_available_spec (used : gset string) :
  match Service.next_available used with
  | Some a =>
      ∃ i, (2 ≤ i ≤ 254) ∧ a = Pool.candidate i ∧ (a ∉ used)
           ∧ (∀ j, 2 ≤ j < i → Pool.candidate j ∈ used)
  | None => ∀ i, 2 ≤ i ≤ 254 → Pool.candidate i ∈ used
  end.
Proof.
  unfold Service.next_available.
  pose proof (first_free_spec (λ ip, bool_decide (ip ∈ used))
                Pool.host_range) as H.
  destruct (Pool.first_free _ _) as [a|].
  - destruct H as (k & i & [-> Hk]%host_range_lookup & -> & Hfree & Hbefore).
    exists (2 + k). repeat split; try lia.
    + by apply bool_decide_eq_false in Hfree.
    + intros j Hj. specialize (Hbefore (j - 2) j).
      rewrite bool_decide_eq_true in Hbefore. apply Hbefore; [lia|].
      apply host_range_lookup. lia.
  - intros i Hi%host_range_elem. specialize (H i Hi).
    by apply bool_decide_eq_true in H.
Qed.

(** The list of [add_peer] and the set of [_get_next_available_ip] give
    the same scan. *)
Lemma first_free_list_set (used_ips : list string) (range : list nat) :
  Pool.first_free (λ c, bool_decide (c ∈ used_ips)) range
  = Pool.first_free (λ ip, bool_decide (ip ∈ (list_to_set used_ips : gset string)))
      range.
Proof.
  induction range as [|i rest IH]; simpl; [done|].
  rewrite IH.
  rewrite (bool_decide_ext (Pool.candidate i ∈ used_ips)
             (Pool.candidate i ∈ (list_to_set used_ips : gset string)));
    [done|]. by rewrite elem_of_list_to_set.
Qed.

Lemma next_ip_readable (w : Env.world) (raw : string) (used : gset string) :
  Env.files w !! Service.wg_config = Some (Env.File raw) →
  Service.collect_used_ips (Py.readlines (Py.universal_newlines raw)) ∅
  = Some used →
  (Service._get_next_available_ip w).1 = Service.next_available used.
Proof.
  intros Hfile Hused.
  unfold Service._get_next_available_ip, Env.catch, Env.bind, Env.exists_,
    Env.read_text, Env.demand, Env.ret.
  rewrite Hfile. rewrite bool_decide_eq_true_2 by eauto.
  simpl. rewrite Hfile. simpl. by rewrite Hused.
Qed.

(** C1. For every set [used], the scan returns the first address of
    10.10.0.2 ... 10.10.0.254, in ascending order, that is not in [used]
    (so never the network address, the gateway or the broadcast address),
    and [None] exactly when all of them are used; the scan over the list
    of [add_peer] is the same scan.  With no peer the result is 10.10.0.2;
    after three automatic assignments the fourth is 10.10.0.5, for
    [_get_next_available_ip] and for [add_peer]. *)
Theorem allocation_first_free (used : gset string) :
  match Service.next_available used with
  | Some a =>
      ∃ i, (2 ≤ i ≤ 254) ∧ a = Pool.candidate i ∧ (a ∉ used)
           ∧ (∀ j, 2 ≤ j < i → Pool.candidate j ∈ used)
           ∧ a ≠ "10.10.0.0" ∧ a ≠ "10.10.0.1" ∧ a ≠ "10.10.0.255"
  | None => ∀ i, 2 ≤ i ≤ 254 → Pool.candidate i ∈ used
  end
  ∧ (Service.next_available used = None
     ↔ ∀ i, 2 ≤ i ≤ 254 → Pool.candidate i ∈ used)
  ∧ (∀ used_ips : list string,
       list_to_set used_ips = used →
       Pool.first_free (λ c, bool_decide (c ∈ used_ips)) Pool.host_range
       = Service.next_available used)
  ∧ (∀ w raw,
       Env.files w !! Service.wg_config = Some (Env.File raw) →
       Service.collect_used_ips (Py.readlines (Py.universal_newlines raw)) ∅
       = Some used →
       (Service._get_next_available_ip w).1 = Service.next_available used)
  ∧ Service.next_available ∅ = Some "10.10.0.2"
  ∧ (Service._get_next_available_ip (Scenario.machine Scenario.server_conf)).1
    = Some "10.10.0.2"
  ∧ (Service._get_next_available_ip Scenario.after_three).1
    = Some "10.10.0.5"
  ∧ ConfigManager.ip
      <$> (ConfigManager.get_peers_from_config
             (ConfigManager.add_peer "r4" "KEY4" None Scenario.after_three).2).1
    = ["10.10.0.2"; "10.10.0.3"; "10.10.0.4"; "10.10.0.5"].
Proof.
  refine (conj _ (conj _ (conj _ (conj _ (conj _ (conj _ (conj _ _))))))).
  - pose proof (next_available_spec used) as H.
    destruct (Service.next_available used) as [a|]; [|done].
    destruct H as (i & Hi & -> & Hfree & Hbefore).
    exists i. repeat split; try done; try lia.
    + change "10.10.0.0" with (Pool.candidate 0).
      intros ?%candidate_inj. lia.
    + change "10.10.0.1" with (Pool.candidate 1).
      intros ?%candidate_inj. lia.
    + change "10.10.0.255" with (Pool.candidate 255).
      intros ?%candidate_inj. lia.
  - pose proof (next_available_spec used) as H.
    destruct (Service.next_available used) as [a|]; [|done].
    destruct H as (i & Hi & -> & Hfree & _).
    split; [done|]. intros Hall. destruct Hfree. by apply Hall.
  - intros used_ips <-. apply first_free_list_set.
  - intros w raw. apply next_ip_readable.
  - by vm_compute.
  - by vm_compute.
  - by vm_compute.
  - by vm_compute.
Qed.

End Allocation.

(** ** Failures while the service reads the configuration file *)

Section ReadFailure.

Lemma next_ip_read_fails (w : Env.world) :
  Notions.read_fails w → (Service._get_next_available_ip w).1 = None.
Proof.
  intros [Hd | (raw & Hf & Hc)];
    unfold Service._get_next_available_ip, Env.catch, Env.bind, Env.exists_,
      Env.read_text, Env.demand, Env.ret, Env.raise.
  - rewrite Hd. rewrite bool_decide_eq_true_2 by eauto.
    simpl. by rewrite Hd.
  - rewrite Hf. rewrite bool_decide_eq_true_2 by eauto.
    simpl. rewrite Hf. simpl. by rewrite Hc.
Qed.

Lemma next_ip_exhausted (w : Env.world) :
  Notions.pool_exhausted w → (Service._get_next_available_ip w).1 = None.
Proof.
  intros (raw & used & Hf & Hc & Hall).
  rewrite (next_ip_readable w raw used Hf Hc).
  pose proof (next_available_spec used) as Hspec.
  destruct (Service.next_available used) as [a|]; [|done].
  destruct Hspec as (i & Hi & -> & Hfree & _).
  destruct Hfree. by apply Hall.
Qed.

Lemma add_router_no_address (w : Env.world) (router : Models.Router)
    (public_key : string) (ip_address : option string) :
  Py.truthy ip_address = false →
  (Service._get_next_available_ip w).1 = None →
  (Service.add_router_to_wireguard router public_key ip_address w).1
  = ((false, "No available IP addresses in VPN range"), router).
Proof.
  intros Hip Hnone. unfold Service.add_router_to_wireguard.
  rewrite Hip.
  destruct (Service._get_next_available_ip w) as [chosen w1].
  simpl in Hnone. by subst chosen.
Qed.

(** C10. When reading the configuration file fails during automatic address
    selection, [_get_next_available_ip] returns [None], the value it also
    returns when every address 10.10.0.2 ... 10.10.0.254 is in use;
    [add_router_to_wireguard] then returns, without raising, the failure
    "No available IP addresses in VPN range" in both cases, and leaves the
    router untouched. *)
Theorem unreadable_config_reported_as_exhaustion
    (w : Env.world) (router : Models.Router) (public_key : string)
    (ip_address : option string) :
  Notions.read_fails w →
  Py.truthy ip_address = false →
  (Service._get_next_available_ip w).1 = None
  ∧ (Service.add_router_to_wireguard router public_key ip_address w).1
    = ((false, "No available IP addresses in VPN range"), router)
  ∧ ∀ w', Notions.pool_exhausted w' →
      (Service._get_next_available_ip w').1
      = (Service._get_next_available_ip w).1
      ∧ (Service.add_router_to_wireguard router public_key ip_address w').1
        = (Service.add_router_to_wireguard router public_key ip_address w).1.
Proof.
  intros Hfail Hip.
  pose proof (next_ip_read_fails w Hfail) as Hnone.
  pose proof (add_router_no_address w router public_key ip_address Hip Hnone)
    as Hadd.
  split; [done|]. split; [done|].
  intros w' Hfull. pose proof (next_ip_exhausted w' Hfull) as Hnone'.
  rewrite Hnone, Hnone', Hadd. split; [done|].
  by apply add_router_no_address.
Qed.

Lemma unreadable_config_witness :
  (Service._get_next_available_ip Scenario.locked).1 = None
  ∧ (Service.add_router_to_wireguard (Scenario.router "r1" None) "KEY1" None
       Scenario.locked).1
    = ((false, "No available IP addresses in VPN range"),
       Scenario.router "r1" None).
Proof.
  destruct (unreadable_config_reported_as_exhaustion Scenario.locked
              (Scenario.router "r1" None) "KEY1" None) as (H1 & H2 & _).
  - left. vm_compute. reflexivity.
  - reflexivity.
  - split; assumption.
Defined.

(** The exhausted pool of C10 exists: a file that lists all 253 addresses. *)
Lemma collect_used_ips_all (line : nat → string) (l : list nat)
    (acc : gset string) :
  Forall (λ i, Py.contains "AllowedIPs" (line i) = true
               ∧ Service.allowed_ip_of (line i) = Some (Pool.candidate i)) l →
  ∃ used, Service.collect_used_ips (line <$> l) acc = Some used
          ∧ acc ⊆ used ∧ ∀ i, i ∈ l → Pool.candidate i ∈ used.
Proof.
  intros Hl. revert acc.
  induction Hl as [|i l [Hc Hip] _ IH]; intros acc; simpl.
  - exists acc. split; [done|]. split; [done|]. intros i Hi. by apply elem_of_nil in Hi.
  - rewrite Hc, Hip. simpl.
    destruct (IH ({[Pool.candidate i]} ∪ acc)) as (used & Heq & Hsub & Hin).
    exists used. split; [exact Heq|]. split; [set_solver|].
    intros j [->|Hj]%elem_of_cons; [set_solver | by apply Hin].
Qed.

Example full_conf_exhausted :
  Notions.pool_exhausted (Scenario.machine Scenario.full_conf).
Proof.
  set (line := λ i, "AllowedIPs = " +:+ Pool.candidate i +:+ "/32" +:+ Py.nl).
  destruct (collect_used_ips_all line Pool.host_range ∅)
    as (used & Hused & _ & Hall).
  { apply (bool_decide_unpack _). by vm_compute. }
  exists Scenario.full_conf, used. split; [by vm_compute|]. split.
  - rewrite <- Hused. f_equal; by vm_compute.
  - intros i Hi%host_range_elem. by apply Hall.
Qed.

(** A line that mentions [AllowedIPs] without [=] is a failed read too. *)
Example malformed_line_read_fails :
  Notions.read_fails (Scenario.machine ("# AllowedIPs" +:+ Py.nl))
  ∧ (Service._get_next_available_ip
       (Scenario.machine ("# AllowedIPs" +:+ Py.nl))).1 = None.
Proof.
  split; [|by vm_compute].
  right. eexists. split; by vm_compute.
Qed.

End ReadFailure.

(** ** The record store *)

Section RecordStore.

Lemma set_clauses_nil (updates : list (string * Database.sqlval)) :
  Database.set_clauses updates = [] ↔ updates = [].
Proof. unfold Database.set_clauses. by destruct updates. Qed.

(** C9. On an available connection, [update_router] with an empty [updates]
    runs no statement and no commit (the manager is unchanged) and returns
    [None], which is falsy and is neither [True] nor [False]; a non-empty
    [updates] whose statement the server executes returns [True], after one
    statement and one commit; a non-empty [updates] whose statement fails
    returns [False], which has the same truth value as [None]. *)
Theorem update_router_empty_returns_none (router_id : Z)
    (db : Database.DatabaseManager) :
  Database.available db = true →
  Database.update_router router_id [] db = (Database.PyNone, db)
  ∧ Database.truth Database.PyNone = false
  ∧ Database.PyNone ≠ Database.PyTrue
  ∧ Database.PyNone ≠ Database.PyFalse
  ∧ (∀ updates t,
       updates ≠ [] →
       Database.server_up db = true →
       Database.in_failed_txn db = false →
       Database.update_semantics db (Database.query updates)
         (Database.values router_id updates) (Database.table db) = Some t →
       ∃ db', Database.update_router router_id updates db
              = (Database.PyTrue, db')
              ∧ Database.executed db'
                = Database.executed db ++ [Database.query updates]
              ∧ Database.commits db' = S (Database.commits db)
              ∧ Database.table db' = t)
  ∧ (∀ updates,
       updates ≠ [] →
       Database.server_up db = false
       ∨ Database.in_failed_txn db = true
       ∨ Database.update_semantics db (Database.query updates)
           (Database.values router_id updates) (Database.table db) = None →
       ∃ db', Database.update_router router_id updates db
              = (Database.PyFalse, db')
              ∧ Database.executed db' = Database.executed db
              ∧ Database.commits db' = Database.commits db
              ∧ Database.truth Database.PyFalse
                = Database.truth (Database.update_router router_id [] db).1).
Proof.
  intros Hav.
  assert (Hempty : Database.update_router router_id [] db
                   = (Database.PyNone, db)).
  { unfold Database.update_router. by rewrite Hav. }
  split; [done|]. split; [done|]. split; [done|]. split; [done|]. split.
  - intros updates t Hne Hup Htx Hsem.
    unfold Database.update_router. rewrite Hav, Hup, Htx, Hsem. simpl.
    destruct (Database.set_clauses updates) eqn:Hsc.
    + by apply set_clauses_nil in Hsc.
    + eexists. split; [done|]. by simpl.
  - intros updates Hne Hfail. rewrite Hempty.
    unfold Database.update_router. rewrite Hav. simpl.
    destruct (Database.set_clauses updates) eqn:Hsc.
    { by apply set_clauses_nil in Hsc. }
    destruct Hfail as [Hup | [Htx | Hsem]].
    + rewrite Hup. simpl. eexists. split; [done|]. by simpl.
    + rewrite Htx, orb_true_r. eexists. split; [done|]. by simpl.
    + destruct (negb (Database.server_up db) || Database.in_failed_txn db).
      * eexists. split; [done|]. by simpl.
      * rewrite Hsem. eexists. split; [done|]. by simpl.
Qed.

Lemma update_router_empty_witness :
  Database.update_router 1 [] Scenario.db_with_r1
  = (Database.PyNone, Scenario.db_with_r1)
  ∧ (Database.update_router 1 [("is_active", Database.VBool false)]
       Scenario.db_with_r1).1 = Database.PyTrue.
Proof.
  destruct (update_router_empty_returns_none 1 Scenario.db_with_r1)
    as (H1 & _ & _ & _ & H2 & _).
  - reflexivity.
  - split; [exact H1|].
    destruct (H2 [("is_active", Database.VBool false)]
                (Database.table Scenario.db_with_r1))
      as (db' & Heq & _).
    + discriminate.
    + reflexivity.
    + reflexivity.
    + reflexivity.
    + rewrite Heq. reflexivity.
Defined.

Lemma insert_on_conflict_fresh (now : string) (new_id : Z)
    (d : Database.router_data) (t : list Database.row) :
  Forall (λ r, Database.name r ≠ Database.d_name d) t →
  Database.insert_on_conflict now new_id d t = t ++ [Database.inserted new_id d].
Proof.
  induction 1 as [|r t Hr _ IH]; simpl; [done|].
  apply String.eqb_neq in Hr. by rewrite Hr, IH.
Qed.

Lemma insert_on_conflict_present (now : string) (new_id : Z)
    (d : Database.router_data) (t1 t2 : list Database.row) (r : Database.row) :
  Forall (λ r', Database.name r' ≠ Database.d_name d) t1 →
  Database.name r = Database.d_name d →
  Database.insert_on_conflict now new_id d (t1 ++ r :: t2)
  = t1 ++ Database.on_conflict_update now d r :: t2.
Proof.
  intros Ht1 Hr. induction Ht1 as [|r1 t1 Hr1 _ IH]; simpl.
  - apply String.eqb_eq in Hr. by rewrite Hr.
  - apply String.eqb_neq in Hr1. by rewrite Hr1, IH.
Qed.

(** C8, as the code has it.  On a working connection [add_router] always
    returns [True].  When a row of that name exists, the statement
    overwrites its [public_key], [ip_address] and [is_active] with the new
    values and sets [updated_at]; the row keeps its [id], [name],
    [vpn_type], [api_accessible] and [notes], and all other rows are
    unchanged.  When no row has the name, one row with the given fields is
    added at the end. *)
Theorem add_router_overwrites_on_conflict (d : Database.router_data)
    (db : Database.DatabaseManager) :
  Database.available db = true →
  Database.server_up db = true →
  Database.in_failed_txn db = false →
  (Database.add_router d db).1 = true
  ∧ (∀ t1 r t2,
       Database.table db = t1 ++ r :: t2 →
       Forall (λ r', Database.name r' ≠ Database.d_name d) t1 →
       Database.name r = Database.d_name d →
       ∃ r', Database.table (Database.add_router d db).2 = t1 ++ r' :: t2
             ∧ Database.public_key r' = Database.d_public_key d
             ∧ Database.ip_address r' = Database.d_ip_address d
             ∧ Database.is_active r' = Database.d_is_active d
             ∧ Database.updated_at r' = Some (Database.now db)
             ∧ Database.id r' = Database.id r
             ∧ Database.name r' = Database.name r
             ∧ Database.vpn_type r' = Database.vpn_type r
             ∧ Database.api_accessible r' = Database.api_accessible r
             ∧ Database.notes r' = Database.notes r)
  ∧ (Forall (λ r, Database.name r ≠ Database.d_name d) (Database.table db) →
     Database.table (Database.add_router d db).2
     = Database.table db ++ [Database.inserted (Database.next_id db) d]).
Proof.
  intros Hav Hup Htx. unfold Database.add_router.
  rewrite Hav, Hup, Htx. simpl. split; [done|]. split.
  - intros t1 r t2 Ht Ht1 Hr. rewrite Ht.
    rewrite insert_on_conflict_present by done.
    eexists. split; [done|]. by simpl.
  - intros Hfresh. by apply insert_on_conflict_fresh.
Qed.

Lemma add_router_overwrites_witness :
  (Database.add_router Scenario.r1_again Scenario.db_with_r1).1 = true
  ∧ Database.public_key
      <$> Database.table
            (Database.add_router Scenario.r1_again Scenario.db_with_r1).2
    = ["NEWKEY"].
Proof.
  destruct (add_router_overwrites_on_conflict Scenario.r1_again
              Scenario.db_with_r1) as (H1 & H2 & _).
  - reflexivity.
  - reflexivity.
  - reflexivity.
  - split; [exact H1|].
    destruct (H2 [] (hd (Database.inserted 0 Scenario.r1_again)
                        (Database.table Scenario.db_with_r1)) [])
      as (r' & Ht & Hk & _).
    + reflexivity.
    + constructor.
    + reflexivity.
    + rewrite Ht. simpl. rewrite Hk. reflexivity.
Defined.

(** C8 as the specification states it fails: the store holds a record named
    "r1"; adding a router named "r1" with another key, address and activity
    flag returns [True], not a conflict, and the stored record now carries
    the new key, address and flag. *)
Lemma add_router_conflict_counterexample :
  Database.available Scenario.db_with_r1 = true
  ∧ (∃ r, r ∈ Database.table Scenario.db_with_r1
          ∧ Database.name r = Database.d_name Scenario.r1_again
          ∧ Database.public_key r ≠ Database.d_public_key Scenario.r1_again)
  ∧ (Database.add_router Scenario.r1_again Scenario.db_with_r1).1 = true
  ∧ (λ r, (Database.name r, Database.public_key r, Database.ip_address r,
           Database.is_active r))
      <$> Database.table
            (Database.add_router Scenario.r1_again Scenario.db_with_r1).2
    = [("r1", "NEWKEY", "10.10.0.9", false)]
  ∧ ¬ ((Database.add_router Scenario.r1_again Scenario.db_with_r1).1 = false
       ∧ Database.table
           (Database.add_router Scenario.r1_again Scenario.db_with_r1).2
         = Database.table Scenario.db_with_r1).
Proof.
  split; [reflexivity|]. split.
  - eexists. split; [apply list_elem_of_here|]. split; [reflexivity|].
    simpl. discriminate.
  - split; [reflexivity|]. split; [reflexivity|].
    intros [H _]. vm_compute in H. discriminate.
Qed.

End RecordStore.

(** ** The health probe *)

Section Probe.

(** C7, as the code has it.  [get_router_vpn_status] always returns.  The
    management API is tried only after a ping that exited with 0.  A router
    without address gives "not_configured" with a message; a ping that
    cannot be started gives [is_connected = False], status "error", the
    text of the exception as message, and no [api_accessible] key; a ping
    that exits with another code gives [is_connected = False],
    [api_accessible = False], status "offline" and no message; a ping that
    exits with 0 gives [is_connected = True], status "online", no message,
    and [api_accessible] as the API connection went. *)
Theorem vpn_status_outcomes (router : Models.Router) (w : Env.world) :
  let st := (Service.get_router_vpn_status router w).1 in
  let w' := (Service.get_router_vpn_status router w).2 in
  let ip := default "" (Models.vpn_ip router) in
  (Py.truthy (Models.vpn_ip router) = false →
     w' = w
     ∧ Service.is_connected st = false
     ∧ Service.api_accessible st = None
     ∧ Service.status st = "not_configured"
     ∧ Service.message st = Some "Router not configured for VPN")
  ∧ (Py.truthy (Models.vpn_ip router) = true →
     Env.spawn w (Service.ping_cmd ip) = Env.NotFound →
     w' = w
     ∧ Service.is_connected st = false
     ∧ Service.api_accessible st = None
     ∧ Service.status st = "error"
     ∧ Service.message st
       = Some "[Errno 2] No such file or directory: 'ping'")
  ∧ (∀ code err,
       Py.truthy (Models.vpn_ip router) = true →
       Env.spawn w (Service.ping_cmd ip) = Env.Exit code err →
       code ≠ 0%Z →
       Env.trace w'
       = Env.trace w ++ [(Env.Ran (Service.ping_cmd ip), Env.files w)]
       ∧ Service.is_connected st = false
       ∧ Service.api_accessible st = Some false
       ∧ Service.status st = "offline"
       ∧ Service.message st = None)
  ∧ (∀ err,
       Py.truthy (Models.vpn_ip router) = true →
       Env.spawn w (Service.ping_cmd ip) = Env.Exit 0 err →
       Env.trace w'
       = Env.trace w ++ [(Env.Ran (Service.ping_cmd ip), Env.files w);
                         (Env.ApiTried (Models.name router), Env.files w)]
       ∧ Service.is_connected st = true
       ∧ Service.api_accessible st = Some (Env.api_up w (Models.name router))
       ∧ Service.status st = "online"
       ∧ Service.message st = None)
  ∧ (∀ n fs,
       (Env.ApiTried n, fs) ∈ Env.trace w' →
       (Env.ApiTried n, fs) ∈ Env.trace w
       ∨ ∃ err, Env.spawn w (Service.ping_cmd ip) = Env.Exit 0 err).
Proof.
  unfold Service.get_router_vpn_status, Env.run.
  destruct (Py.truthy (Models.vpn_ip router)) eqn:Hip; simpl.
  - destruct (Env.spawn w _) as [|code err] eqn:Hsp; simpl.
    + split; [discriminate|]. split; [by intros; repeat split|].
      split; [discriminate|]. split; [discriminate|].
      intros n fs Hin. by left.
    + split; [discriminate|]. split; [discriminate|].
      destruct (decide (code = 0%Z)) as [->|Hne].
      * rewrite bool_decide_eq_true_2 by done. simpl.
        split; [by intros code' err' _ [= <- _] Hne|]. split.
        { intros err' _ _. rewrite <- app_assoc. by repeat split. }
        intros n fs Hin. right. by exists err.
      * rewrite bool_decide_eq_false_2 by done. simpl.
        split; [by intros code' err' _ _ _; repeat split|].
        split; [by intros err' _ [= -> _]|].
        intros n fs [Hin|Hin%list_elem_of_singleton]%elem_of_app;
          [by left | done].
  - split; [by intros; repeat split|].
    split; [discriminate|]. split; [discriminate|]. split; [discriminate|].
    intros n fs Hin. by left.
Qed.

(** C7 as the specification states it fails.  When the ping succeeds and
    the management API refuses the connection, the result has
    [is_connected = True] and no reason; when the ping fails, the result
    has no reason either. *)
Lemma vpn_status_counterexample :
  let r := Scenario.router "r1" (Some "10.10.0.2") in
  let api_failed := (Service.get_router_vpn_status r Scenario.api_down).1 in
  let offline := (Service.get_router_vpn_status r Scenario.ping_fails).1 in
  Service.api_accessible api_failed = Some false
  ∧ Service.is_connected api_failed = true
  ∧ Service.message api_failed = None
  ∧ Service.is_connected offline = false
  ∧ Service.message offline = None
  ∧ ¬ (Service.is_connected api_failed = false
       ∧ Service.api_accessible api_failed = Some false
       ∧ is_Some (Service.message api_failed))
  ∧ ¬ (Service.is_connected offline = false
       ∧ Service.api_accessible offline = Some false
       ∧ is_Some (Service.message offline)).
Proof.
  repeat (split; [reflexivity|]). split.
  - intros (H & _). vm_compute in H. discriminate.
  - intros (_ & _ & [m H]). vm_compute in H. discriminate.
Qed.

End Probe.

(** ** The merged router list *)

Section Merge.

Context {A : Type} (key : A → option string) (mk : A → Menu.entry).

Lemma seen_true (routers : list Menu.entry) (k : string) :
  Menu.seen routers (Some k) = true
  ↔ ∃ e, e ∈ routers ∧ Menu.public_key e = k.
Proof.
  simpl. rewrite existsb_exists. split.
  - intros (e & Hin & He). exists e. split; [by apply list_elem_of_In|].
    by apply String.eqb_eq.
  - intros (e & Hin & He). exists e. split; [by apply list_elem_of_In|].
    by apply String.eqb_eq.
Qed.

Lemma seen_false (routers : list Menu.entry) (k : string) :
  Menu.seen routers (Some k) = false
  ↔ ∀ e, e ∈ routers → Menu.public_key e ≠ k.
Proof.
  rewrite <- not_true_iff_false, seen_true. split.
  - intros H e He Hk. apply H. by exists e.
  - intros H (e & He & Hk). by apply (H e).
Qed.

Lemma seen_app_false (l1 l2 : list Menu.entry) (k : option string) :
  Menu.seen (l1 ++ l2) k = false → Menu.seen l1 k = false.
Proof.
  destruct k as [k|]; [|done]. rewrite !seen_false.
  intros H e He. apply H. apply elem_of_app. by left.
Qed.

Lemma extend_cons (routers : list Menu.entry) (x : A) (found : list A) :
  Menu.extend key mk routers (x :: found)
  = Menu.extend key mk
      (if Menu.seen routers (key x) then routers else routers ++ [mk x])
      found.
Proof. reflexivity. Qed.

(** What a loop adds: entries made from records of the source whose key no
    entry present before the loop carries. *)
Lemma extend_new (routers : list Menu.entry) (found : list A) :
  ∃ new, Menu.extend key mk routers found = routers ++ new
         ∧ ∀ e, e ∈ new →
             ∃ x, x ∈ found ∧ e = mk x ∧ Menu.seen routers (key x) = false.
Proof.
  revert routers. induction found as [|x found IH]; intros routers.
  - exists []. split; [by rewrite app_nil_r|]. intros e He.
    by apply elem_of_nil in He.
  - rewrite extend_cons. destruct (Menu.seen routers (key x)) eqn:Hseen.
    + destruct (IH routers) as (new & -> & Hnew). exists new.
      split; [done|]. intros e He.
      destruct (Hnew e He) as (y & Hy & -> & Hs).
      exists y. split; [by apply elem_of_cons; right | done].
    + destruct (IH (routers ++ [mk x])) as (new & -> & Hnew).
      exists (mk x :: new). split; [by rewrite <- app_assoc|].
      intros e [->|He]%elem_of_cons.
      * exists x. split; [apply list_elem_of_here | done].
      * destruct (Hnew e He) as (y & Hy & -> & Hs).
        exists y. split; [by apply elem_of_cons; right|].
        split; [done | by eapply seen_app_false].
Qed.

(** After a loop every key of its source is carried by some entry. *)
Lemma extend_represents (routers : list Menu.entry) (found : list A)
    (x : A) (k : string) :
  (∀ y k', key y = Some k' → Menu.public_key (mk y) = k') →
  x ∈ found → key x = Some k →
  ∃ e, e ∈ Menu.extend key mk routers found ∧ Menu.public_key e = k.
Proof.
  intros Hkey Hx Hk. revert routers.
  induction found as [|y found IH]; intros routers.
  - by apply elem_of_nil in Hx.
  - rewrite extend_cons. apply elem_of_cons in Hx as [<-|Hx].
    + destruct (extend_new
                  (if Menu.seen routers (key x) then routers
                   else routers ++ [mk x]) found) as (new & -> & _).
      rewrite Hk. destruct (Menu.seen routers (Some k)) eqn:Hseen.
      * apply seen_true in Hseen as (e & He & Hpk).
        exists e. split; [|done]. apply elem_of_app. by left.
      * exists (mk x). split; [|by apply Hkey].
        rewrite !elem_of_app, list_elem_of_singleton. auto.
    + by apply IH.
Qed.

(** A loop keeps the keys apart: an entry it adds carries the key of no
    entry before it. *)
Lemma extend_fresh (n : nat) (routers : list Menu.entry) (found : list A) :
  (∀ x, x ∈ found → key x = Some (Menu.public_key (mk x))) →
  n ≤ length routers →
  Notions.fresh_after n routers →
  Notions.fresh_after n (Menu.extend key mk routers found).
Proof.
  intros Hkey. revert routers.
  induction found as [|x found IH]; intros routers Hn Hfresh; [done|].
  rewrite extend_cons.
  assert (Hkey' : ∀ y, y ∈ found → key y = Some (Menu.public_key (mk y))).
  { intros y Hy. apply Hkey. apply elem_of_cons. by right. }
  rewrite (Hkey x) by apply list_elem_of_here.
  destruct (Menu.seen routers _) eqn:Hseen; [by apply IH|].
  apply IH; [done | rewrite length_app; lia |].
  intros i j e e' Hi Hj He He'.
  destruct (decide (i < length routers)) as [Hlt|Hge].
  - rewrite lookup_app_l in He by done.
    rewrite lookup_app_l in He' by lia.
    by apply (Hfresh i j).
  - rewrite lookup_app_r in He by lia.
    apply list_lookup_singleton_Some in He as [Hi0 <-].
    rewrite lookup_app_l in He' by lia.
    rewrite seen_false in Hseen. apply Hseen.
    by eapply list_elem_of_lookup_2.
Qed.

End Merge.

Section MergedList.

Lemma list_routers_stages (database : option (list Menu.row))
    (django : option (list Models.Router)) (supabase : option (list Menu.row))
    (w : Env.world) :
  (Menu.list_routers database django supabase w).1
  = Menu.extend (λ p, Some (ConfigManager.public_key p)) Menu.entry_of_peer
      (Menu.extend Menu.r_public_key (Menu.entry_of_row "Supabase")
         (Menu.extend (λ r, Some (Models.public_key r)) Menu.entry_of_django
            (Menu.entry_of_row "Database" <$> default [] database)
            (default [] django))
         (default [] supabase))
      (ConfigManager.get_peers_from_config w).1.
Proof.
  unfold Menu.list_routers.
  destruct (ConfigManager.get_peers_from_config w) as [peers w'].
  by destruct database, django, supabase.
Qed.

Lemma fresh_after_NoDup (n : nat) (routers : list Menu.entry) :
  n ≤ length routers →
  NoDup (Menu.public_key <$> take n routers) →
  Notions.fresh_after n routers →
  NoDup (Menu.public_key <$> routers).
Proof.
  intros Hn Hnd Hfresh. apply NoDup_alt. intros i j k Hi Hj.
  apply list_lookup_fmap_Some in Hi as (e & -> & He).
  apply list_lookup_fmap_Some in Hj as (e' & Hk & He').
  destruct (decide (i = j)) as [|Hne]; [done|]. exfalso.
  assert (Hcase : ∀ a b ea eb, a < b → routers !! a = Some ea →
            routers !! b = Some eb →
            Menu.public_key ea = Menu.public_key eb → False).
  { intros a b ea eb Hab Ha Hb Hkey.
    destruct (decide (n ≤ b)) as [Hnb|Hnb].
    - by apply (Hfresh b a eb ea).
    - rewrite NoDup_alt in Hnd. assert (a = b); [|lia].
      apply (Hnd a b (Menu.public_key ea)).
      + rewrite list_lookup_fmap, lookup_take_lt by lia. by rewrite Ha.
      + rewrite list_lookup_fmap, lookup_take_lt by lia. by rewrite Hb, Hkey. }
  destruct (decide (i < j)).
  - by apply (Hcase i j e e').
  - apply (Hcase j i e' e); [lia | done | done | done].
Qed.

(** C2, as the code has it.  The merged list is the primary records, all of
    them and in their order, followed by what the Django store, then
    Supabase, then the configuration file add: each adds, in its order, the
    records whose [public_key] no entry already in the list carries, with
    its own source name, and entries once in the list are never changed.
    So the first source that holds a key wins entirely, and every key of
    every source is in the list.  Two records are the same peer when their
    [public_key] is equal; names play no part.  When the Supabase rows all
    have a key, no added entry repeats a key; when moreover the primary
    records have distinct keys, every key is in the list exactly once.
    For PrimaryDB = {A, B}, SecondaryDB = {B stale, C}, LocalConfig =
    {C stale, D} the list is A, B from the primary store, C from the
    secondary store, D from the configuration file. *)
Theorem list_routers_first_key_wins
    (database : option (list Menu.row)) (django : option (list Models.Router))
    (supabase : option (list Menu.row)) (w : Env.world) :
  let routers := (Menu.list_routers database django supabase w).1 in
  let primary := Menu.entry_of_row "Database" <$> default [] database in
  let dj := default [] django in
  let sb := default [] supabase in
  let peers := (ConfigManager.get_peers_from_config w).1 in
  (∃ n2 n3 n4,
     routers = primary ++ n2 ++ n3 ++ n4
     ∧ (∀ e, e ∈ n2 →
          ∃ r, r ∈ dj ∧ e = Menu.entry_of_django r
               ∧ Menu.seen primary (Some (Models.public_key r)) = false)
     ∧ (∀ e, e ∈ n3 →
          ∃ r, r ∈ sb ∧ e = Menu.entry_of_row "Supabase" r
               ∧ Menu.seen (primary ++ n2) (Menu.r_public_key r) = false)
     ∧ (∀ e, e ∈ n4 →
          ∃ p, p ∈ peers ∧ e = Menu.entry_of_peer p
               ∧ Menu.seen (primary ++ n2 ++ n3)
                   (Some (ConfigManager.public_key p)) = false)
     ∧ (∀ r, r ∈ dj →
          ∃ e, e ∈ primary ++ n2 ∧ Menu.public_key e = Models.public_key r)
     ∧ (∀ r k, r ∈ sb → Menu.r_public_key r = Some k →
          ∃ e, e ∈ primary ++ n2 ++ n3 ∧ Menu.public_key e = k)
     ∧ (∀ p, p ∈ peers →
          ∃ e, e ∈ routers
               ∧ Menu.public_key e = ConfigManager.public_key p))
  ∧ (Forall (λ r, is_Some (Menu.r_public_key r)) sb →
     Notions.fresh_after (length primary) routers
     ∧ (NoDup (Menu.public_key <$> primary) →
        NoDup (Menu.public_key <$> routers)))
  ∧ (Menu.list_routers (Some Scenario.primary) None (Some Scenario.secondary)
       (Scenario.machine Scenario.local_conf)).1
    = [ Scenario.merged_entry "A" "KEYA" "10.10.0.2" "Database";
        Scenario.merged_entry "B" "KEYB" "10.10.0.3" "Database";
        Scenario.merged_entry "C" "KEYC" "10.10.0.4" "Supabase";
        Scenario.merged_entry "D" "KEYD" "10.10.0.5" "WireGuard Config" ].
Proof.
  intros routers primary dj sb peers.
  assert (Hr : routers
    = Menu.extend (λ p, Some (ConfigManager.public_key p)) Menu.entry_of_peer
        (Menu.extend Menu.r_public_key (Menu.entry_of_row "Supabase")
           (Menu.extend (λ r, Some (Models.public_key r)) Menu.entry_of_django
              primary dj) sb) peers)
    by apply list_routers_stages.
  clearbody routers. subst routers.
  split; [|split; [|by vm_compute]].
  - destruct (extend_new (λ r, Some (Models.public_key r))
                Menu.entry_of_django primary dj) as (n2 & H2 & Hn2).
    pose proof (extend_represents (λ r, Some (Models.public_key r))
                  Menu.entry_of_django primary dj) as Hrep2.
    rewrite H2 in *.
    destruct (extend_new Menu.r_public_key (Menu.entry_of_row "Supabase")
                (primary ++ n2) sb) as (n3 & H3 & Hn3).
    pose proof (extend_represents Menu.r_public_key
                  (Menu.entry_of_row "Supabase") (primary ++ n2) sb) as Hrep3.
    rewrite H3 in *.
    destruct (extend_new (λ p, Some (ConfigManager.public_key p))
                Menu.entry_of_peer ((primary ++ n2) ++ n3) peers)
      as (n4 & H4 & Hn4).
    pose proof (extend_represents (λ p, Some (ConfigManager.public_key p))
                  Menu.entry_of_peer ((primary ++ n2) ++ n3) peers) as Hrep4.
    rewrite H4 in *. rewrite <- !app_assoc in *.
    exists n2, n3, n4. split; [done|]. split; [done|]. split; [done|].
    split; [done|]. split; [|split].
    + intros r Hin. apply (Hrep2 r); [by intros y k' [= <-] | done | done].
    + intros r k Hin Hk.
      apply (Hrep3 r); [by intros y k' Hy; simpl; rewrite Hy | done | done].
    + intros p Hin. apply (Hrep4 p); [by intros y k' [= <-] | done | done].
  - intros Hsb.
    assert (Hfresh : Notions.fresh_after (length primary)
      (Menu.extend (λ p, Some (ConfigManager.public_key p)) Menu.entry_of_peer
        (Menu.extend Menu.r_public_key (Menu.entry_of_row "Supabase")
           (Menu.extend (λ r, Some (Models.public_key r)) Menu.entry_of_django
              primary dj) sb) peers)).
    { destruct (extend_new (λ r, Some (Models.public_key r))
                  Menu.entry_of_django primary dj) as (n2 & H2 & _).
      destruct (extend_new Menu.r_public_key (Menu.entry_of_row "Supabase")
                  (primary ++ n2) sb) as (n3 & H3 & _).
      apply extend_fresh; [done | |].
      { rewrite H2, H3, !length_app. lia. }
      apply extend_fresh.
      { intros r Hin. rewrite Forall_forall in Hsb.
        destruct (Hsb r Hin) as [k Hk]. simpl. by rewrite Hk. }
      { rewrite H2, length_app. lia. }
      apply extend_fresh; [done | done |].
      intros i j e e' Hi Hj He. apply lookup_lt_Some in He. lia. }
    split; [done|]. intros Hnd.
    apply (fresh_after_NoDup (length primary)); [| |done].
    + destruct (extend_new (λ r, Some (Models.public_key r))
                  Menu.entry_of_django primary dj) as (n2 & H2 & _).
      destruct (extend_new Menu.r_public_key (Menu.entry_of_row "Supabase")
                  (primary ++ n2) sb) as (n3 & H3 & _).
      destruct (extend_new (λ p, Some (ConfigManager.public_key p))
                  Menu.entry_of_peer ((primary ++ n2) ++ n3) peers)
        as (n4 & H4 & _).
      rewrite H2, H3, H4, !length_app. lia.
    + destruct (extend_new (λ r, Some (Models.public_key r))
                  Menu.entry_of_django primary dj) as (n2 & H2 & _).
      destruct (extend_new Menu.r_public_key (Menu.entry_of_row "Supabase")
                  (primary ++ n2) sb) as (n3 & H3 & _).
      destruct (extend_new (λ p, Some (ConfigManager.public_key p))
                  Menu.entry_of_peer ((primary ++ n2) ++ n3) peers)
        as (n4 & H4 & _).
      rewrite H2, H3, H4, <- !app_assoc.
      by rewrite take_app_length.
Qed.

(** C2 as the specification states it fails: a record named "r1" in the
    primary store and a peer named "r1" with another key in the
    configuration file are both in the merged list, although their names
    match. *)
Lemma list_routers_name_counterexample :
  let routers :=
    (Menu.list_routers (Some [Scenario.source_row "r1" "KEY1" "10.10.0.2"])
       None None
       (Scenario.machine (ConfigManager.peer_config "r1" "KEY2" "10.10.0.2"))).1
  in
  routers
  = [ Scenario.merged_entry "r1" "KEY1" "10.10.0.2" "Database";
      Scenario.merged_entry "r1" "KEY2" "10.10.0.2" "WireGuard Config" ]
  ∧ ¬ (∀ i j e e', routers !! i = Some e → routers !! j = Some e' → i ≠ j →
         Menu.name e ≠ Menu.name e'
         ∧ Menu.public_key e ≠ Menu.public_key e').
Proof.
  split; [by vm_compute|].
  intros H.
  destruct (H 0 1 (Scenario.merged_entry "r1" "KEY1" "10.10.0.2" "Database")
              (Scenario.merged_entry "r1" "KEY2" "10.10.0.2" "WireGuard Config"))
    as [Hname _]; [by vm_compute | by vm_compute | lia |].
  by apply Hname.
Qed.

End MergedList.

(** ** The configuration file: how it is written *)

Section ConfigWrites.

Import Env.

Ltac unfold_py :=
  unfold ConfigManager.add_peer, ConfigManager.remove_peer,
    ConfigManager.get_peers_from_config, ConfigManager.restart,
    catch, bind, call, ret, raise, read_text, append_text, rewrite_text,
    write_out, run.

Lemma get_peers_readable (w : world) (raw : string) :
  files w !! ConfigManager.config_file = Some (File raw) →
  ConfigManager.get_peers_from_config w
  = (ConfigManager.peer_of_groups <$> Re.findall (Py.universal_newlines raw),
     record (Opened ConfigManager.config_file "r") w).
Proof. intros Hf. unfold_py. by rewrite Hf. Qed.

(** The world after the two [wg-quick] calls, and whether both started. *)
Lemma restart_outcome (w : world) :
  ∃ w', (ConfigManager.restart w).2 = w'
        ∧ files w' = files w ∧ disk_room w' = disk_room w
        ∧ spawn w' = spawn w
        ∧ (Notions.wg_quick_works w →
           ConfigManager.restart w
           = (Value (),
              record (Ran ["wg-quick"; "up"; ConfigManager.interface])
                (record (Ran ["wg-quick"; "down"; ConfigManager.interface])
                   w))).
Proof.
  eexists. split; [done|]. unfold_py.
  destruct (spawn w ["wg-quick"; "down"; ConfigManager.interface])
    as [|c1 e1] eqn:H1; simpl.
  - repeat split; try done. by intros [? _].
  - destruct (spawn w ["wg-quick"; "up"; ConfigManager.interface])
      as [|c2 e2] eqn:H2; simpl.
    + repeat split; try done. by intros [_ ?].
    + by repeat split.
Qed.

Lemma finish_outcome (w : world) :
  files (Notions.finish w).2 = files w
  ∧ disk_room (Notions.finish w).2 = disk_room w
  ∧ spawn (Notions.finish w).2 = spawn w
  ∧ (Notions.wg_quick_works w →
     Notions.finish w
     = (true,
        record (Ran ["wg-quick"; "up"; ConfigManager.interface])
          (record (Ran ["wg-quick"; "down"; ConfigManager.interface]) w))).
Proof.
  destruct (restart_outcome w) as (w' & Hw' & Hf & Hd & Hs & Hok).
  unfold Notions.finish. destruct (ConfigManager.restart w) as [[e|[]] w''];
    simpl in *; subst w''; repeat split; try done.
  - intros Hw. by specialize (Hok Hw).
  - intros Hw. specialize (Hok Hw). by simplify_eq.
Qed.

Lemma append_text_ok (path data raw : string) (w : world) :
  files w !! path = Some (File raw) →
  disk_room w = None →
  append_text path data w
  = (Value (),
     record (Written path data)
       (with_files (<[path := File (raw +:+ data)]> (files w))
          (record (Opened path "a") w))).
Proof.
  intros Hf Hd. unfold append_text, write_out. rewrite Hf. simpl.
  by rewrite Hf, Hd.
Qed.

Lemma rewrite_text_ok (path raw : string) (lines : list string) (w : world) :
  files w !! path = Some (File raw) →
  disk_room w = None →
  rewrite_text path lines w
  = (Value (),
     record (Written path (Py.join lines))
       (with_files (<[path := File (Py.join lines)]> (files w))
          (record (Opened path "w")
             (with_files (<[path := File ""]> (files w)) w)))).
Proof.
  intros Hf Hd. unfold rewrite_text, write_out. rewrite Hf. simpl.
  by rewrite lookup_insert_eq, Hd, insert_insert_eq.
Qed.

Lemma add_peer_explicit (w : world) (raw name public_key : string)
    (ip : option string) :
  Notions.conf_is raw w →
  let w0 := if Py.truthy ip then w
            else record (Opened ConfigManager.config_file "r") w in
  ConfigManager.add_peer name public_key ip w
  = match Notions.chosen_ip raw ip with
    | None => (false, w0)
    | Some a =>
        let block := ConfigManager.peer_config name public_key a in
        Notions.finish
          (record (Written ConfigManager.config_file block)
             (with_files
                (<[ConfigManager.config_file := File (raw +:+ block)]>
                   (files w))
                (record (Opened ConfigManager.config_file "a") w0)))
    end.
Proof.
  intros [Hf Hd]. unfold Notions.chosen_ip, Notions.finish.
  unfold ConfigManager.add_peer, catch, bind, call, ret.
  destruct (Py.truthy ip) eqn:Hip.
  - destruct ip as [a|]; [|done]. cbv beta iota zeta.
    rewrite (append_text_ok _ _ raw) by done.
    by destruct (ConfigManager.restart _) as [[e|[]] w'].
  - rewrite (get_peers_readable w raw) by done. cbv beta iota zeta.
    destruct (Pool.first_free _ _) as [a|]; [|done].
    rewrite (append_text_ok _ _ raw) by done.
    by destruct (ConfigManager.restart _) as [[e|[]] w'].
Qed.

Lemma remove_peer_explicit (w : world) (raw name : string) :
  Notions.conf_is raw w →
  let new := Py.join (ConfigManager.remove_lines name false
                        (Py.readlines (Py.universal_newlines raw))) in
  ConfigManager.remove_peer name w
  = Notions.finish
      (record (Written ConfigManager.config_file new)
         (with_files (<[ConfigManager.config_file := File new]> (files w))
            (record (Opened ConfigManager.config_file "w")
               (with_files
                  (<[ConfigManager.config_file := File ""]> (files w))
                  (record (Opened ConfigManager.config_file "r") w))))).
Proof.
  intros [Hf Hd]. unfold Notions.finish.
  unfold ConfigManager.remove_peer, catch, bind, ret, read_text.
  rewrite Hf. cbv beta iota zeta.
  rewrite (rewrite_text_ok _ raw) by done.
  by destruct (ConfigManager.restart _) as [[e|[]] w'].
Qed.

Lemma append_text_full (path data raw : string) (n : nat) (w : world) :
  files w !! path = Some (File raw) →
  disk_room w = Some n →
  n < String.length data →
  ∃ w', append_text path data w = (Raised errno28, w')
        ∧ files w' = <[path := File (raw +:+ String.substring 0 n data)]>
                       (files w).
Proof.
  intros Hf Hd Hn. unfold append_text, write_out. rewrite Hf. simpl.
  rewrite Hf, Hd. rewrite decide_True by done. by eexists.
Qed.

Lemma rewrite_text_full (path raw : string) (lines : list string) (n : nat)
    (w : world) :
  files w !! path = Some (File raw) →
  disk_room w = Some n →
  n < String.length (Py.join lines) →
  ∃ w', rewrite_text path lines w = (Raised errno28, w')
        ∧ files w' = <[path := File (String.substring 0 n (Py.join lines))]>
                       (files w).
Proof.
  intros Hf Hd Hn. unfold rewrite_text, write_out. rewrite Hf. simpl.
  rewrite lookup_insert_eq, Hd. rewrite decide_True by done.
  eexists. split; [done|]. simpl. by rewrite insert_insert_eq.
Qed.

(** C4, as the code has it.  [add_peer] never looks for the name in the
    file.  Whatever the file holds, also a peer of the same name, when the
    file can be written and [wg-quick] starts, [add_peer] returns [True] and
    the file is its old content followed by one block for the peer, with the
    given address or the first free one; only when no address is given and
    none is free does it return [False], with the file unchanged. *)
Theorem add_peer_never_checks_names (w : world)
    (raw name public_key : string) (ip : option string) :
  Notions.conf_is raw w →
  Notions.wg_quick_works w →
  match Notions.chosen_ip raw ip with
  | Some a =>
      (ConfigManager.add_peer name public_key ip w).1 = true
      ∧ Notions.conf_is (raw +:+ ConfigManager.peer_config name public_key a)
          (ConfigManager.add_peer name public_key ip w).2
  | None =>
      (ConfigManager.add_peer name public_key ip w).1 = false
      ∧ Notions.conf_is raw (ConfigManager.add_peer name public_key ip w).2
  end.
Proof.
  intros Hc Hw. rewrite (add_peer_explicit w raw) by done.
  destruct Hc as [Hf Hd].
  destruct (Notions.chosen_ip raw ip) as [a|].
  - cbv zeta.
    match goal with |- context [Notions.finish ?x] =>
      destruct (finish_outcome x) as (Hf' & Hd' & _ & Hok) end.
    rewrite Hok by (by destruct (Py.truthy ip)).
    split; [done|]. split; simpl.
    + by rewrite lookup_insert_eq.
    + by destruct (Py.truthy ip).
  - split; [done|]. by destruct (Py.truthy ip).
Qed.

Lemma add_peer_never_checks_names_witness :
  (ConfigManager.add_peer "r1" "KEY9" (Some "10.10.0.9")
     (Scenario.machine Scenario.conf_r1)).1 = true
  ∧ Notions.conf_is
      (Scenario.conf_r1 +:+ ConfigManager.peer_config "r1" "KEY9" "10.10.0.9")
      (ConfigManager.add_peer "r1" "KEY9" (Some "10.10.0.9")
         (Scenario.machine Scenario.conf_r1)).2.
Proof.
  apply (add_peer_never_checks_names (Scenario.machine Scenario.conf_r1)
           Scenario.conf_r1 "r1" "KEY9" (Some "10.10.0.9")).
  - split; reflexivity.
  - split; discriminate.
Defined.

(** C4 as the specification states it fails: the file holds a peer named
    "r1"; adding a second peer named "r1" returns [True], the file grows by
    one block, and the list of peers then has the name twice. *)
Lemma add_peer_duplicate_counterexample :
  let w := Scenario.machine Scenario.conf_r1 in
  let w' := (ConfigManager.add_peer "r1" "KEY9" (Some "10.10.0.9") w).2 in
  ConfigManager.name <$> (ConfigManager.get_peers_from_config w).1 = ["r1"]
  ∧ (ConfigManager.add_peer "r1" "KEY9" (Some "10.10.0.9") w).1 = true
  ∧ Scenario.conf_of w'
    = Some (File (Scenario.conf_r1
                  +:+ ConfigManager.peer_config "r1" "KEY9" "10.10.0.9"))
  ∧ ConfigManager.name <$> (ConfigManager.get_peers_from_config w').1
    = ["r1"; "r1"]
  ∧ ¬ ((ConfigManager.add_peer "r1" "KEY9" (Some "10.10.0.9") w).1 = false
       ∧ Scenario.conf_of w' = Scenario.conf_of w).
Proof.
  split; [by vm_compute|]. split; [by vm_compute|]. split; [by vm_compute|].
  split; [by vm_compute|]. intros [H _]. vm_compute in H. discriminate.
Qed.

(** C3, as the code has it.  The configuration file is changed in place and
    no other path is opened or written.  [add_peer] opens the file for
    appending and writes the block at its end; [remove_peer] reads the
    file, opens it again for writing, which empties it, and writes the kept
    lines.  When the disk takes the data, the file then holds the new
    content.  When the disk is full after [n] characters, the operation
    returns [False] and the file is left with the first [n] characters of
    the data: after the old content for [add_peer], alone for
    [remove_peer]. *)
Theorem config_written_in_place (w : world) (raw name public_key ip : string) :
  files w !! ConfigManager.config_file = Some (File raw) →
  Notions.wg_quick_works w →
  Py.truthy (Some ip) = true →
  let block := ConfigManager.peer_config name public_key ip in
  let new := Py.join (ConfigManager.remove_lines name false
                        (Py.readlines (Py.universal_newlines raw))) in
  let cfg := ConfigManager.config_file in
  let down := Ran ["wg-quick"; "down"; ConfigManager.interface] in
  let up := Ran ["wg-quick"; "up"; ConfigManager.interface] in
  (disk_room w = None →
     ConfigManager.add_peer name public_key (Some ip) w
     = (true, (ConfigManager.add_peer name public_key (Some ip) w).2)
     ∧ trace (ConfigManager.add_peer name public_key (Some ip) w).2
       = trace w
         ++ [ (Opened cfg "a", files w);
              (Written cfg block, <[cfg := File (raw +:+ block)]> (files w));
              (down, <[cfg := File (raw +:+ block)]> (files w));
              (up, <[cfg := File (raw +:+ block)]> (files w)) ])
  ∧ (disk_room w = None →
     ConfigManager.remove_peer name w
     = (true, (ConfigManager.remove_peer name w).2)
     ∧ trace (ConfigManager.remove_peer name w).2
       = trace w
         ++ [ (Opened cfg "r", files w);
              (Opened cfg "w", <[cfg := File ""]> (files w));
              (Written cfg new, <[cfg := File new]> (files w));
              (down, <[cfg := File new]> (files w));
              (up, <[cfg := File new]> (files w)) ])
  ∧ (∀ n, disk_room w = Some n → n < String.length block →
     (ConfigManager.add_peer name public_key (Some ip) w).1 = false
     ∧ files (ConfigManager.add_peer name public_key (Some ip) w).2 !! cfg
       = Some (File (raw +:+ String.substring 0 n block)))
  ∧ (∀ n, disk_room w = Some n → n < String.length new →
     (ConfigManager.remove_peer name w).1 = false
     ∧ files (ConfigManager.remove_peer name w).2 !! cfg
       = Some (File (String.substring 0 n new))).
Proof.
  intros Hf Hw Hip block new cfg down up.
  subst block new cfg down up.
  split; [|split; [|split]].
  - intros Hd.
    pose proof (add_peer_explicit w raw name public_key (Some ip)
                  (conj Hf Hd)) as Hadd.
    unfold Notions.chosen_ip in Hadd. rewrite Hip in Hadd.
    cbv zeta in Hadd. rewrite Hadd.
    match goal with |- context [Notions.finish ?x] =>
      destruct (finish_outcome x) as (_ & _ & _ & Hok) end.
    rewrite Hok by done. split; [done|]. simpl.
    by rewrite <- !app_assoc.
  - intros Hd.
    rewrite (remove_peer_explicit w raw name (conj Hf Hd)). cbv zeta.
    match goal with |- context [Notions.finish ?x] =>
      destruct (finish_outcome x) as (_ & _ & _ & Hok) end.
    rewrite Hok by done. split; [done|]. simpl.
    by rewrite <- !app_assoc.
  - intros n Hd Hn.
    unfold ConfigManager.add_peer, catch, bind, ret. rewrite Hip.
    destruct (append_text_full _ _ raw n w Hf Hd Hn)
      as (w' & Happ & Hfiles). cbv beta iota zeta.
    rewrite Happ. simpl. split; [done|].
    by rewrite Hfiles, lookup_insert_eq.
  - intros n Hd Hn.
    unfold ConfigManager.remove_peer, catch, bind, ret, read_text.
    rewrite Hf. cbv beta iota zeta.
    destruct (rewrite_text_full ConfigManager.config_file raw
                (ConfigManager.remove_lines name false
                   (Py.readlines (Py.universal_newlines raw))) n
                (record (Opened ConfigManager.config_file "r") w))
      as (w' & Hrw & Hfiles);
      [done..|].
    rewrite Hrw. simpl. split; [done|].
    by rewrite Hfiles, lookup_insert_eq.
Qed.

Lemma config_written_in_place_witness :
  let w := Scenario.machine Scenario.conf_r1 in
  ConfigManager.remove_peer "r1" w
  = (true, (ConfigManager.remove_peer "r1" w).2)
  ∧ trace (ConfigManager.add_peer "r2" "KEY2" (Some "10.10.0.3") w).2
    = [ (Opened ConfigManager.config_file "a", files w);
        (Written ConfigManager.config_file
           (ConfigManager.peer_config "r2" "KEY2" "10.10.0.3"),
         <[ConfigManager.config_file :=
             File (Scenario.conf_r1
                   +:+ ConfigManager.peer_config "r2" "KEY2" "10.10.0.3")]>
           (files w));
        (Ran ["wg-quick"; "down"; ConfigManager.interface],
         <[ConfigManager.config_file :=
             File (Scenario.conf_r1
                   +:+ ConfigManager.peer_config "r2" "KEY2" "10.10.0.3")]>
           (files w));
        (Ran ["wg-quick"; "up"; ConfigManager.interface],
         <[ConfigManager.config_file :=
             File (Scenario.conf_r1
                   +:+ ConfigManager.peer_config "r2" "KEY2" "10.10.0.3")]>
           (files w)) ].
Proof.
  intros w.
  destruct (config_written_in_place w Scenario.conf_r1 "r1" "KEY2"
              "10.10.0.3") as (_ & Hrem & _).
  - reflexivity.
  - split; discriminate.
  - reflexivity.
  - destruct (config_written_in_place w Scenario.conf_r1 "r2" "KEY2"
                "10.10.0.3") as (Hadd & _).
    + reflexivity.
    + split; discriminate.
    + reflexivity.
    + split.
      * apply Hrem. reflexivity.
      * apply Hadd. reflexivity.
Defined.

(** C3 as the specification states it fails.  While "r1" is removed, the
    file is first emptied and then written: after the second event a reader
    finds an empty file, which is neither the old nor the new content, and
    every event is on the configuration file itself.  And on a disk that
    takes 10 more characters, adding "r2" returns [False] and leaves the
    first 10 characters of the block at the end of the file. *)
Lemma atomic_write_counterexample :
  let cfg := ConfigManager.config_file in
  let w := Scenario.machine Scenario.conf_r1 in
  let w' := (ConfigManager.remove_peer "r1" w).2 in
  let wd := Scenario.small_disk 10 Scenario.conf_r1 in
  let wd' := (ConfigManager.add_peer "r2" "KEY2" (Some "10.10.0.3") wd).2 in
  (λ x, (x.1, x.2 !! cfg)) <$> trace w'
  = [ (Opened cfg "r", Some (File Scenario.conf_r1));
      (Opened cfg "w", Some (File ""));
      (Written cfg (Scenario.server_conf +:+ Py.nl),
       Some (File (Scenario.server_conf +:+ Py.nl)));
      (Ran ["wg-quick"; "down"; "wg0"],
       Some (File (Scenario.server_conf +:+ Py.nl)));
      (Ran ["wg-quick"; "up"; "wg0"],
       Some (File (Scenario.server_conf +:+ Py.nl))) ]
  ∧ ¬ (∀ e fs, (e, fs) ∈ trace w' →
         fs !! cfg = Scenario.conf_of w ∨ fs !! cfg = Scenario.conf_of w')
  ∧ (ConfigManager.add_peer "r2" "KEY2" (Some "10.10.0.3") wd).1 = false
  ∧ Scenario.conf_of wd'
    = Some (File (Scenario.conf_r1 +:+ Py.nl +:+ "# r2" +:+ Py.nl +:+ "[Pee"))
  ∧ ¬ (Scenario.conf_of wd' = Scenario.conf_of wd
       ∨ Scenario.conf_of wd'
         = Some (File (Scenario.conf_r1
                       +:+ ConfigManager.peer_config "r2" "KEY2" "10.10.0.3"))).
Proof.
  split; [by vm_compute|]. split.
  - intros H.
    destruct (H (Opened ConfigManager.config_file "w")
                (<[ConfigManager.config_file := File ""]>
                   (files (Scenario.machine Scenario.conf_r1)))) as [E|E].
    + apply list_elem_of_In. vm_compute. right. left. reflexivity.
    + vm_compute in E. discriminate.
    + vm_compute in E. discriminate.
  - split; [by vm_compute|]. split; [by vm_compute|].
    intros [E|E]; vm_compute in E; discriminate.
Qed.

End ConfigWrites.

(** ** Strings and lines *)

Section Strings.

Lemma str_cons (c : ascii) (s t : string) :
  String c s +:+ t = String c (s +:+ t).
Proof. reflexivity. Qed.

Lemma str_nil_l (s : string) : "" +:+ s = s.
Proof. reflexivity. Qed.

Lemma str_nil_r (s : string) : s +:+ "" = s.
Proof. induction s as [|c s IH]; [done|]. by rewrite str_cons, IH. Qed.

Lemma str_assoc (a b c : string) : (a +:+ b) +:+ c = a +:+ (b +:+ c).
Proof. induction a as [|x a IH]; [done|]. by rewrite !str_cons, IH. Qed.

Lemma str_length_app (a b : string) :
  String.length (a +:+ b) = String.length a + String.length b.
Proof. induction a as [|x a IH]; [done|]. rewrite str_cons. simpl. by rewrite IH. Qed.

Lemma mem_app (c : ascii) (a b : string) :
  Notions.mem c (a +:+ b) = Notions.mem c a || Notions.mem c b.
Proof.
  induction a as [|x a IH]; [done|]. rewrite str_cons. simpl.
  by rewrite IH, orb_assoc.
Qed.

Lemma join_app (l1 l2 : list string) :
  Py.join (l1 ++ l2) = Py.join l1 +:+ Py.join l2.
Proof.
  induction l1 as [|l l1 IH]; [done|]. simpl. by rewrite IH, str_assoc.
Qed.

Lemma join_readlines (s : string) : Py.join (Py.readlines s) = s.
Proof.
  induction s as [|c s IH]; [done|]. simpl.
  destruct (Ascii.eqb_spec c Py.LF) as [->|Hc].
  - simpl. by rewrite IH.
  - destruct (Py.readlines s) as [|l ls] eqn:Hl; simpl in *.
    + by rewrite <- IH.
    + by rewrite ?str_cons, IH.
Qed.

Lemma readlines_nil (s : string) : Py.readlines s = [] → s = "".
Proof.
  destruct s as [|c s]; [done|]. simpl.
  destruct (Ascii.eqb c Py.LF); [done|]. by destruct (Py.readlines s).
Qed.

Lemma readlines_full (l t : string) :
  Notions.full_line l = true → Py.readlines (l +:+ t) = l :: Py.readlines t.
Proof.
  induction l as [|c l IH]; [done|]. simpl. rewrite ?str_cons. simpl.
  destruct (Ascii.eqb_spec c Py.LF) as [->|Hc].
  - intros ->%String.eqb_eq. done.
  - intros Hl. by rewrite IH.
Qed.

Lemma readlines_part (l : string) :
  l ≠ "" → Notions.mem Py.LF l = false → Py.readlines l = [l].
Proof.
  induction l as [|c l IH]; [done|]. intros _. simpl.
  destruct (Ascii.eqb c Py.LF); [done|]. simpl. intros Hl.
  destruct l as [|d l]; [done|]. by rewrite IH.
Qed.

Lemma readlines_proper (s : string) : Notions.proper (Py.readlines s).
Proof.
  induction s as [|c s IH]; [done|]. simpl.
  destruct (Ascii.eqb_spec c Py.LF) as [->|Hc].
  - split; [by left | done].
  - destruct (Py.readlines s) as [|l ls] eqn:Hl.
    + split; [|done]. right. split; [done|]. split; [done|]. simpl.
      by apply Ascii.eqb_neq in Hc as ->.
    + destruct IH as [Hhead Hrest]. split; [|done]. simpl.
      apply Ascii.eqb_neq in Hc as Hc'. rewrite Hc'.
      destruct Hhead as [Hfull | (-> & Hne & Hmem)]; [by left|].
      right. by rewrite Hmem.
Qed.

Lemma readlines_join (lines : list string) :
  Notions.proper lines → Py.readlines (Py.join lines) = lines.
Proof.
  induction lines as [|l rest IH]; [done|].
  intros [[Hfull | (-> & Hne & Hmem)] Hrest]; simpl.
  - by rewrite readlines_full, IH.
  - by rewrite str_nil_r, readlines_part.
Qed.

End Strings.

(** ** Removing a peer *)

Section Removal.

Import Env.

Lemma universal_newlines_id (s : string) :
  Notions.mem Py.CR s = false → Py.universal_newlines s = s.
Proof.
  induction s as [|c s IH]; [done|]. simpl.
  intros [Hc Hs]%orb_false_elim. rewrite Hc. by rewrite IH.
Qed.

Lemma universal_newlines_no_cr_aux (s : string) :
  Notions.mem Py.CR (Py.universal_newlines s) = false
  ∧ ∀ c, Notions.mem Py.CR (Py.universal_newlines (String c s)) = false.
Proof.
  induction s as [|d s [IH1 IH2]].
  - split; [done|]. intros c. simpl. by destruct (Ascii.eqb c Py.CR) eqn:Hc;
      simpl; rewrite ?Hc.
  - split; [apply IH2|]. intros c.
    change (Py.universal_newlines (String c (String d s)))
      with (if Ascii.eqb c Py.CR then
              if Ascii.eqb d Py.LF then String Py.LF (Py.universal_newlines s)
              else String Py.LF (Py.universal_newlines (String d s))
            else String c (Py.universal_newlines (String d s))).
    destruct (Ascii.eqb c Py.CR) eqn:Hc.
    + destruct (Ascii.eqb d Py.LF); simpl; [apply IH1 | apply IH2].
    + change (Notions.mem Py.CR (String c ?x))
        with (Ascii.eqb c Py.CR || Notions.mem Py.CR x).
      by rewrite Hc, IH2.
Qed.

Lemma universal_newlines_no_cr (s : string) :
  Notions.mem Py.CR (Py.universal_newlines s) = false.
Proof. apply universal_newlines_no_cr_aux. Qed.

Lemma remove_lines_cons (name : string) (skip : bool) (line : string)
    (rest : list string) :
  ConfigManager.remove_lines name skip (line :: rest)
  = if String.eqb (Py.strip line) ("# " +:+ name) then
      ConfigManager.remove_lines name true rest
    else if skip && String.eqb (Py.strip line) "[Peer]" then
      ConfigManager.remove_lines name skip rest
    else if skip && Py.startswith "PublicKey" line then
      ConfigManager.remove_lines name skip rest
    else if skip && Py.startswith "AllowedIPs" line then
      ConfigManager.remove_lines name false rest
    else if negb skip then
      line :: ConfigManager.remove_lines name skip rest
    else ConfigManager.remove_lines name skip rest.
Proof. reflexivity. Qed.

(** The cases of one step of the loop. *)
Ltac remove_step skip :=
  rewrite remove_lines_cons;
  destruct (String.eqb (Py.strip _) ("# " +:+ _)) eqn:?;
  [|destruct skip; cbn [andb negb];
    [destruct (String.eqb (Py.strip _) "[Peer]");
     [|destruct (Py.startswith "PublicKey" _);
       [|destruct (Py.startswith "AllowedIPs" _)]]|]].

Lemma remove_lines_marker_free (name : string) (skip : bool)
    (lines : list string) :
  Forall (λ line, Py.strip line ≠ "# " +:+ name)
         (ConfigManager.remove_lines name skip lines).
Proof.
  revert skip. induction lines as [|l rest IH]; intros skip; [constructor|].
  remove_step skip; try apply IH.
  constructor; [by apply String.eqb_neq | apply IH].
Qed.

Lemma remove_lines_absent (name : string) (lines : list string) :
  Forall (λ line, Py.strip line ≠ "# " +:+ name) lines →
  ConfigManager.remove_lines name false lines = lines.
Proof.
  induction 1 as [|l rest Hl _ IH]; [done|].
  rewrite remove_lines_cons.
  apply String.eqb_neq in Hl. rewrite Hl. cbn [andb negb]. by rewrite IH.
Qed.

Lemma remove_lines_proper (name : string) (skip : bool)
    (lines : list string) :
  Notions.proper lines →
  Notions.proper (ConfigManager.remove_lines name skip lines).
Proof.
  revert skip. induction lines as [|l rest IH]; intros skip; [done|].
  intros [Hl Hrest].
  remove_step skip; try by apply IH.
  split; [|by apply IH].
  destruct Hl as [Hfull | (-> & Hne & Hmem)]; [by left | by right].
Qed.

Lemma remove_lines_mem (c : ascii) (name : string) (skip : bool)
    (lines : list string) :
  Notions.mem c (Py.join lines) = false →
  Notions.mem c (Py.join (ConfigManager.remove_lines name skip lines)) = false.
Proof.
  revert skip. induction lines as [|l rest IH]; intros skip; [done|].
  cbn [Py.join]. rewrite mem_app. intros [Hl Hrest]%orb_false_elim.
  remove_step skip; try by apply IH.
  cbn [Py.join]. by rewrite mem_app, Hl, IH.
Qed.

(** What [remove_peer] leaves when the file can be read and written. *)
Lemma remove_peer_result (w : world) (raw name : string) :
  Notions.conf_is raw w →
  Notions.wg_quick_works w →
  (ConfigManager.remove_peer name w).1 = true
  ∧ Notions.conf_is
      (Py.join (ConfigManager.remove_lines name false
                  (Py.readlines (Py.universal_newlines raw))))
      (ConfigManager.remove_peer name w).2
  ∧ Notions.wg_quick_works (ConfigManager.remove_peer name w).2.
Proof.
  intros Hc Hw. rewrite (remove_peer_explicit w raw name Hc). cbv zeta.
  destruct Hc as [Hf Hd].
  match goal with |- context [Notions.finish ?x] =>
    destruct (finish_outcome x) as (Hf' & Hd' & Hs' & Hok) end.
  rewrite Hok by done. split; [done|].
  split; [split; simpl; [by rewrite lookup_insert_eq | done] | done].
Qed.

(** Removing a second time changes nothing. *)
Lemma remove_lines_twice (name raw : string) :
  let new := Py.join (ConfigManager.remove_lines name false
                        (Py.readlines (Py.universal_newlines raw))) in
  Py.join (ConfigManager.remove_lines name false
             (Py.readlines (Py.universal_newlines new))) = new.
Proof.
  intros new. subst new.
  rewrite universal_newlines_id.
  - rewrite readlines_join
      by apply remove_lines_proper, readlines_proper.
    by rewrite remove_lines_absent by apply remove_lines_marker_free.
  - apply remove_lines_mem. rewrite join_readlines.
    apply universal_newlines_no_cr.
Qed.

(** The loop only drops lines: what it keeps are lines of the file, in
    their order. *)
Lemma remove_lines_sublist (name : string) (skip : bool)
    (lines : list string) :
  sublist (ConfigManager.remove_lines name skip lines) lines.
Proof.
  revert skip. induction lines as [|l rest IH]; intros skip; [constructor|].
  remove_step skip; try (apply sublist_cons, IH).
  apply sublist_skip, IH.
Qed.

End Removal.

(** ** Blanks and separators *)

Section Blanks.

Lemma lstrip_length (s : string) :
  Py.lstrip s = s ∨ String.length (Py.lstrip s) < String.length s.
Proof.
  induction s as [|c s IH]; [by left|]. simpl.
  destruct (Py.isspace c); [|by left]. right. destruct IH as [->|]; lia.
Qed.

Lemma rstrip_length (s : string) :
  String.length (Py.rstrip s) ≤ String.length s.
Proof.
  induction s as [|c s IH]; [done|]. simpl.
  destruct (Py.rstrip s); [destruct (Py.isspace c)|]; simpl in *; lia.
Qed.

Lemma strip_fixed (s : string) :
  Py.strip s = s → Py.lstrip s = s ∧ Py.rstrip s = s.
Proof.
  unfold Py.strip. intros H.
  destruct (lstrip_length s) as [Hl|Hl].
  - by rewrite Hl in H.
  - pose proof (rstrip_length (Py.lstrip s)) as Hr. rewrite H in Hr. lia.
Qed.

Lemma lstrip_keep (c : ascii) (s : string) :
  Py.isspace c = false → Py.lstrip (String c s) = String c s.
Proof. intros H. simpl. by rewrite H. Qed.

Lemma lstrip_app (s t : string) :
  s ≠ "" → Py.lstrip s = s → Py.lstrip (s +:+ t) = s +:+ t.
Proof.
  destruct s as [|c s]; [done|]. intros _. simpl.
  destruct (Py.isspace c) eqn:Hc; [|done].
  intros H. pose proof (lstrip_length s) as [Hl|Hl]; rewrite H in Hl.
  - exfalso. assert (String.length (String c s) = String.length s)
      by by rewrite Hl. simpl in *. lia.
  - simpl in Hl. lia.
Qed.

(** A text that ends with a non-blank keeps its end. *)
Lemma rstrip_app_keep (s t : string) :
  t ≠ "" → Py.rstrip t = t → Py.rstrip (s +:+ t) = s +:+ t.
Proof.
  intros Ht Hr. induction s as [|c s IH]; [done|].
  rewrite str_cons. simpl. rewrite IH.
  destruct (s +:+ t) eqn:E; [|done].
  destruct s; [by rewrite str_nil_l in E | done].
Qed.

(** A final line feed is dropped. *)
Lemma rstrip_app_nl (s : string) : Py.rstrip (s +:+ Py.nl) = Py.rstrip s.
Proof.
  induction s as [|c s IH]; [done|]. rewrite str_cons. simpl. by rewrite IH.
Qed.

Lemma strip_tidy_app (s t : string) :
  s ≠ "" → Py.strip s = s → t ≠ "" → Py.rstrip t = t →
  Py.strip (s +:+ t) = s +:+ t.
Proof.
  intros Hs [Hl Hr]%strip_fixed Ht Hrt. unfold Py.strip.
  rewrite lstrip_app by done. by apply rstrip_app_keep.
Qed.

Lemma strip_tidy_app_nl (s t : string) :
  s ≠ "" → Py.strip s = s → t ≠ "" → Py.rstrip t = t →
  Py.strip (s +:+ t +:+ Py.nl) = s +:+ t.
Proof.
  intros Hs [Hl Hr]%strip_fixed Ht Hrt. unfold Py.strip.
  rewrite lstrip_app by done. rewrite <- str_assoc.
  rewrite rstrip_app_nl. by apply rstrip_app_keep.
Qed.

(** A line that starts with a non-blank keeps its first character. *)
Lemma strip_first (c : ascii) (s : string) :
  Py.isspace c = false → ∃ r, Py.strip (String c s) = String c r.
Proof.
  intros Hc. unfold Py.strip. rewrite lstrip_keep by done. simpl.
  destruct (Py.rstrip s); [rewrite Hc|]; by eexists.
Qed.

Lemma mem_lstrip (c : ascii) (s : string) :
  Notions.mem c s = false → Notions.mem c (Py.lstrip s) = false.
Proof.
  induction s as [|d s IH]; [done|]. simpl.
  intros [Hd Hs]%orb_false_elim. destruct (Py.isspace d); [by apply IH|].
  simpl. by rewrite Hd, Hs.
Qed.

Lemma mem_rstrip (c : ascii) (s : string) :
  Notions.mem c s = false → Notions.mem c (Py.rstrip s) = false.
Proof.
  induction s as [|d s IH]; [done|]. simpl.
  intros [Hd Hs]%orb_false_elim. specialize (IH Hs).
  destruct (Py.rstrip s) eqn:E.
  - destruct (Py.isspace d); [done|]. simpl. by rewrite Hd.
  - simpl in *. by rewrite Hd, IH.
Qed.

Lemma mem_strip (c : ascii) (s : string) :
  Notions.mem c s = false → Notions.mem c (Py.strip s) = false.
Proof. intros H. by apply mem_rstrip, mem_lstrip. Qed.

Lemma mem_readlines (c : ascii) (s : string) :
  Notions.mem c s = false →
  Forall (λ line, Notions.mem c line = false) (Py.readlines s).
Proof.
  intros H. rewrite <- (join_readlines s) in H.
  induction (Py.readlines s) as [|l ls IH]; [done|].
  simpl in H. rewrite mem_app in H. apply orb_false_elim in H as [Hl Hls].
  constructor; [done | by apply IH].
Qed.

(** The part before the first separator. *)
Lemma split_head (sep : ascii) (s t : string) :
  Notions.mem sep s = false →
  hd "" (Py.split sep (s +:+ String sep t)) = s.
Proof.
  induction s as [|c s IH].
  - intros _. rewrite str_nil_l. simpl. by rewrite Ascii.eqb_refl.
  - simpl. intros [Hc Hs]%orb_false_elim. rewrite ?str_cons. simpl.
    rewrite Hc. specialize (IH Hs).
    destruct (Py.split sep (s +:+ String sep t)); simpl in *; by subst.
Qed.

End Blanks.

(** ** The parser on files that [add_peer] and [remove_peer] wrote *)

Section Parser.

Lemma lit_app (pat s : string) : Re.lit pat (pat +:+ s) = Some s.
Proof.
  induction pat as [|c pat IH]; [done|]. rewrite str_cons. simpl.
  by rewrite Ascii.eqb_refl.
Qed.

(** A lazy group over a one-line value [g]: when what follows the group in
    the pattern must start with a line feed, no shorter prefix of [g] can be
    the group. *)
Lemma lazy_plus_run {R} (k : string → string → option R) (g rest : string) :
  g ≠ "" →
  Notions.mem Py.LF g = false →
  (∀ x c s, Ascii.eqb c Py.LF = false → k x (String c s) = None) →
  Re.lazy_plus k (g +:+ rest)
  = match k g rest with
    | Some r => Some r
    | None => Re.lazy_plus (λ x s, k (g +:+ x) s) rest
    end.
Proof.
  revert k. induction g as [|c g IH]; intros k Hne Hmem Hk; [done|].
  destruct g as [|d g]; [done|].
  simpl in Hmem. apply orb_false_elim in Hmem as [Hc Hg].
  apply orb_false_elim in Hg as Hd. destruct Hd as [Hd _].
  rewrite str_cons. cbn [Re.lazy_plus]. rewrite str_cons, Hk by done.
  rewrite <- str_cons.
  rewrite (IH (λ x s, k (String c x) s)); [done | done | done |].
  intros x c' s Hc'. by apply Hk.
Qed.

Lemma peer_config_body (name public_key ip rest : string) :
  ConfigManager.peer_config name public_key ip +:+ rest
  = Py.nl +:+ Notions.body name public_key ip (Py.nl +:+ rest).
Proof.
  unfold ConfigManager.peer_config, Notions.body, Notions.after_name,
    Notions.after_key.
  by rewrite !str_assoc.
Qed.

Lemma lookahead_other (c : ascii) (s : string) :
  Ascii.eqb c Py.LF = false → Re.lookahead (String c s) = false.
Proof.
  intros H. rewrite Ascii.eqb_sym in H. unfold Re.lookahead.
  change (Py.startswith (Py.nl +:+ Py.nl) (String c s))
    with (Ascii.eqb Py.LF c && Py.startswith Py.nl s).
  change (Py.startswith (Py.nl +:+ "#") (String c s))
    with (Ascii.eqb Py.LF c && Py.startswith "#" s).
  by rewrite H.
Qed.

Lemma lit_other (pat s : string) (c : ascii) :
  Ascii.eqb c Py.LF = false → Re.lit (Py.nl +:+ pat) (String c s) = None.
Proof.
  intros H. rewrite Ascii.eqb_sym in H.
  change (Re.lit (Py.nl +:+ pat) (String c s))
    with (if Ascii.eqb Py.LF c then Re.lit pat s else None).
  by rewrite H.
Qed.

(** The match of the pattern at the head of a block: the first two groups
    are the name and the key, and the third is found by the search [found]
    from the address on. *)
Lemma peer_block_body (name public_key ip rest : string)
    (r : string * string * string * string) :
  Notions.tidy_peer (name, public_key, ip) →
  match (if Re.lookahead (Py.nl +:+ rest)
         then Some (name, public_key, ip +:+ "/32", Py.nl +:+ rest)
         else None) with
  | Some r => Some r
  | None =>
      Re.lazy_plus
        (λ x s, if Re.lookahead s
                then Some (name, public_key, (ip +:+ "/32") +:+ x, s)
                else None)
        (Py.nl +:+ rest)
  end = Some r →
  Re.peer_block (Notions.body name public_key ip (Py.nl +:+ rest)) = Some r.
Proof.
  intros Ht Hfound. unfold Notions.tidy_peer, Notions.tidy in Ht.
  cbn [fst snd] in Ht.
  destruct Ht
    as ((Hn & _ & Hnl & _) & (Hk & _ & Hkl & _) & (Hi & _ & Hil & _) & _).
  unfold Re.peer_block, Notions.body.
  change (Re.lit "# " ("# " +:+ ?x)) with (Some x). cbn [mbind option_bind].
  rewrite lazy_plus_run; [|done|done|].
  2:{ intros x c s Hc. unfold Notions.after_name.
      by rewrite (lit_other _ _ _ Hc). }
  fold Notions.after_name. rewrite lit_app. cbn [mbind option_bind].
  rewrite lazy_plus_run; [|done|done|].
  2:{ intros x c s Hc. unfold Notions.after_key.
      by rewrite (lit_other _ _ _ Hc). }
  fold Notions.after_key. rewrite lit_app. cbn [mbind option_bind].
  rewrite lazy_plus_run.
  - by rewrite Hfound.
  - by destruct ip.
  - rewrite mem_app, Hil. done.
  - intros x c s Hc. by rewrite lookahead_other.
Qed.

Lemma peer_block_last (name public_key ip : string) :
  Notions.tidy_peer (name, public_key, ip) →
  Re.peer_block (Notions.body name public_key ip Py.nl)
  = Some (name, public_key, ip +:+ "/32" +:+ Py.nl, "").
Proof.
  intros Ht. rewrite <- (str_nil_r Py.nl) at 1.
  apply peer_block_body; [done|]. simpl. by rewrite str_assoc.
Qed.

Lemma peer_block_next (name public_key ip rest : string) :
  Notions.tidy_peer (name, public_key, ip) →
  Re.peer_block (Notions.body name public_key ip (Py.nl +:+ Py.nl +:+ rest))
  = Some (name, public_key, ip +:+ "/32", Py.nl +:+ Py.nl +:+ rest).
Proof. intros Ht. by apply peer_block_body. Qed.

Lemma findall_cons (c : ascii) (s : string) :
  Re.findall_from 0 (String c s)
  = match Re.peer_block (String c s) with
    | Some (groups, rest) =>
        groups :: Re.findall_from (String.length s - String.length rest) s
    | None => Re.findall_from 0 s
    end.
Proof. reflexivity. Qed.

Lemma peer_block_other (c : ascii) (s : string) :
  Ascii.eqb c "#" = false → Re.peer_block (String c s) = None.
Proof.
  intros H. rewrite Ascii.eqb_sym in H. unfold Re.peer_block.
  change (Re.lit "# " (String c s))
    with (if Ascii.eqb "#" c then Re.lit " " s else None).
  by rewrite H.
Qed.

(** Text without [#] holds no match. *)
Lemma findall_pass (pre t : string) :
  Notions.mem "#" pre = false →
  Re.findall_from 0 (pre +:+ t) = Re.findall_from 0 t.
Proof.
  induction pre as [|c pre IH]; [done|]. cbn [Notions.mem].
  intros [Hc Hpre]%orb_false_elim.
  rewrite str_cons, findall_cons, peer_block_other by done. by apply IH.
Qed.

Lemma findall_skip (m t : string) :
  Re.findall_from (String.length m) (m +:+ t) = Re.findall_from 0 t.
Proof. induction m as [|c m IH]; [done|]. rewrite str_cons. by simpl. Qed.

(** After a match the scan goes on behind it. *)
Lemma findall_hit (s m rest : string) (g : string * string * string) :
  s = m +:+ rest → m ≠ "" →
  Re.peer_block s = Some (g, rest) →
  Re.findall_from 0 s = g :: Re.findall_from 0 rest.
Proof.
  intros -> Hm Hmatch. destruct m as [|c m]; [done|].
  rewrite str_cons in *. rewrite findall_cons, Hmatch.
  rewrite str_length_app. replace (_ + _ - _) with (String.length m) by lia.
  by rewrite findall_skip.
Qed.

Lemma body_app (name public_key ip a b : string) :
  Notions.body name public_key ip (a +:+ b)
  = Notions.body name public_key ip a +:+ b.
Proof. unfold Notions.body. by rewrite !str_assoc. Qed.

Lemma items_text_cases (items : list Notions.item) :
  items = [] ∨ ∃ rest, Py.join (Notions.item_text <$> items) = Py.nl +:+ rest.
Proof.
  destruct items as [|[p|] items]; [by left|right..].
  - eexists. simpl. unfold Notions.block. by rewrite peer_config_body.
  - by eexists.
Qed.

Lemma groups_listed (p : string * string * string) :
  Notions.tidy_peer p →
  ConfigManager.peer_of_groups (p.1.1, p.1.2, p.2 +:+ "/32")
  = Notions.listed p
  ∧ ConfigManager.peer_of_groups (p.1.1, p.1.2, p.2 +:+ "/32" +:+ Py.nl)
    = Notions.listed p.
Proof.
  destruct p as [[name key] ip].
  intros ((_ & Hn & _) & (_ & Hk & _) & (Hi & His & _) & Hslash).
  simpl in *. unfold ConfigManager.peer_of_groups, Notions.listed. simpl.
  rewrite Hn, Hk.
  rewrite (strip_tidy_app ip "/32"), (strip_tidy_app_nl ip "/32") by done.
  by rewrite (split_head "/" ip "32").
Qed.

(** The list of peers of a file written by [add_peer] and [remove_peer]:
    one entry for every block, in the order of the blocks. *)
Lemma findall_items (items : list Notions.item) :
  Forall Notions.tidy_item items →
  ConfigManager.peer_of_groups
    <$> Re.findall_from 0 (Py.join (Notions.item_text <$> items))
  = Notions.listed <$> Notions.blocks items.
Proof.
  induction 1 as [|i items Hi _ IH]; [done|].
  destruct i as [[[name key] ip]|].
  - change (Py.join (Notions.item_text <$> Notions.Block (name, key, ip) :: items))
      with (ConfigManager.peer_config name key ip
            +:+ Py.join (Notions.item_text <$> items)).
    change (Notions.blocks (Notions.Block (name, key, ip) :: items))
      with ((name, key, ip) :: Notions.blocks items).
    rewrite peer_config_body, findall_pass by done.
    destruct (groups_listed (name, key, ip) Hi) as [Hg1 Hg2].
    cbn [fst snd] in Hg1, Hg2.
    destruct (items_text_cases items) as [->|[rest Hrest]].
    + rewrite (findall_hit _ (Notions.body name key ip Py.nl) ""
                 (name, key, ip +:+ "/32" +:+ Py.nl)).
      * by rewrite fmap_cons, Hg2.
      * rewrite (str_nil_r (Notions.body _ _ _ _)). reflexivity.
      * done.
      * by apply peer_block_last.
    + rewrite Hrest in *.
      rewrite (findall_hit _ (Notions.body name key ip "")
                 (Py.nl +:+ Py.nl +:+ rest) (name, key, ip +:+ "/32")).
      * rewrite (findall_pass Py.nl) by done.
        rewrite fmap_cons, Hg1, IH. done.
      * by rewrite <- body_app.
      * done.
      * by apply peer_block_next.
  - change (Py.join (Notions.item_text <$> Notions.Gap :: items))
      with (Py.nl +:+ Py.join (Notions.item_text <$> items)).
    by rewrite findall_pass.
Qed.

End Parser.

(** ** The lines of files that [add_peer] and [remove_peer] wrote *)

Section Lines.

Lemma readlines_app_closed (s t : string) :
  Py.readlines (s +:+ Py.nl +:+ t)
  = Py.readlines (s +:+ Py.nl) ++ Py.readlines t.
Proof.
  induction s as [|c s IH]; [done|].
  rewrite !str_cons. cbn [Py.readlines]. rewrite IH.
  destruct (Ascii.eqb c Py.LF); [done|].
  destruct (Py.readlines (s +:+ Py.nl)) as [|l ls] eqn:E; [|done].
  apply readlines_nil in E. by destruct s.
Qed.

Lemma full_line_app (s : string) :
  Notions.mem Py.LF s = false → Notions.full_line (s +:+ Py.nl) = true.
Proof.
  induction s as [|c s IH]; [done|]. cbn [Notions.mem].
  intros [Hc Hs]%orb_false_elim. rewrite str_cons. cbn [Notions.full_line].
  rewrite Hc. by apply IH.
Qed.

Lemma item_text_lines (i : Notions.item) :
  Notions.item_text i = Py.join (Notions.item_lines i).
Proof.
  destruct i as [[[name key] ip]|]; [|done].
  unfold Notions.item_lines, Notions.body_lines, Notions.block_lines,
    Notions.item_text, Notions.block, ConfigManager.peer_config.
  cbn [Py.join fst snd]. by rewrite !str_assoc, str_nil_r.
Qed.

Lemma items_text_lines (items : list Notions.item) :
  Py.join (Notions.item_text <$> items)
  = Py.join (concat (Notions.item_lines <$> items)).
Proof.
  induction items as [|i items IH]; [done|].
  rewrite !fmap_cons. cbn [Py.join concat].
  by rewrite join_app, item_text_lines, IH.
Qed.

Lemma body_lines_full (i : Notions.item) :
  Notions.tidy_item i →
  Forall (λ l, Notions.full_line l = true) (Notions.body_lines i).
Proof.
  destruct i as [[[name key] ip]|]; [|by constructor].
  intros ((_ & _ & Hn & _) & (_ & _ & Hk & _) & (_ & _ & Hi & _) & _).
  cbn [fst snd] in *.
  unfold Notions.body_lines, Notions.block_lines. cbn [fst snd].
  repeat constructor.
  - rewrite <- str_assoc. apply full_line_app. by rewrite mem_app, Hn.
  - rewrite <- str_assoc. apply full_line_app. by rewrite mem_app, Hk.
  - rewrite <- !str_assoc. apply full_line_app. by rewrite !mem_app, Hi.
Qed.

Lemma readlines_full_lines (lines : list string) (t : string) :
  Forall (λ l, Notions.full_line l = true) lines →
  Py.readlines (Py.join lines +:+ t) = lines ++ Py.readlines t.
Proof.
  induction 1 as [|l lines Hl _ IH]; [done|].
  cbn [Py.join]. by rewrite str_assoc, readlines_full, IH.
Qed.

Lemma items_lines_full (items : list Notions.item) :
  Forall Notions.tidy_item items →
  Forall (λ l, Notions.full_line l = true)
         (concat (Notions.item_lines <$> items)).
Proof.
  induction 1 as [|i items Hi _ IH]; [constructor|].
  rewrite fmap_cons. cbn [concat]. apply Forall_app. split; [|done].
  constructor; [done | by apply body_lines_full].
Qed.

(** The lines of a file: those of its first part, closed by the line feed
    that starts the first item, and then those of the items. *)
Lemma layout_lines (base : string) (i : Notions.item)
    (items : list Notions.item) :
  Forall Notions.tidy_item (i :: items) →
  Py.readlines (Notions.layout base (i :: items))
  = Py.readlines (base +:+ Py.nl)
    ++ Notions.body_lines i ++ concat (Notions.item_lines <$> items).
Proof.
  intros Ht. unfold Notions.layout. rewrite items_text_lines.
  rewrite fmap_cons. cbn [concat]. unfold Notions.item_lines at 1.
  cbn [Py.join app]. rewrite readlines_app_closed. f_equal.
  apply Forall_cons in Ht as [Hi Hitems].
  rewrite <- (str_nil_r (Py.join _)).
  rewrite readlines_full_lines, app_nil_r; [done|].
  apply Forall_app. split; [by apply body_lines_full|].
  by apply items_lines_full.
Qed.

Lemma remove_keep (name line : string) (rest : list string) :
  String.eqb (Py.strip line) ("# " +:+ name) = false →
  ConfigManager.remove_lines name false (line :: rest)
  = line :: ConfigManager.remove_lines name false rest.
Proof. intros H. rewrite remove_lines_cons, H. done. Qed.

Lemma remove_drop (name line : string) (rest : list string) :
  String.eqb (Py.strip line) ("# " +:+ name) = false →
  String.eqb (Py.strip line) "[Peer]" = true
  ∨ Py.startswith "PublicKey" line = true →
  ConfigManager.remove_lines name true (line :: rest)
  = ConfigManager.remove_lines name true rest.
Proof.
  intros H [H'|H']; rewrite remove_lines_cons, H, H'; cbn [andb]; [done|].
  by destruct (String.eqb _ "[Peer]").
Qed.

Lemma remove_last (name line : string) (rest : list string) :
  String.eqb (Py.strip line) ("# " +:+ name) = false →
  String.eqb (Py.strip line) "[Peer]" = false →
  Py.startswith "PublicKey" line = false →
  Py.startswith "AllowedIPs" line = true →
  ConfigManager.remove_lines name true (line :: rest)
  = ConfigManager.remove_lines name false rest.
Proof. intros H1 H2 H3 H4. by rewrite remove_lines_cons, H1, H2, H3, H4. Qed.

(** A line that starts with a non-blank other than [d] is not a text that
    starts with [d]. *)
Lemma strip_other_first (c d : ascii) (s t : string) :
  Py.isspace c = false → Ascii.eqb c d = false →
  String.eqb (Py.strip (String c s)) (String d t) = false.
Proof.
  intros Hc Hd. destruct (strip_first c s Hc) as [r ->].
  simpl. by rewrite Hd.
Qed.

Lemma strip_no_hash (name line : string) :
  Notions.mem "#" line = false →
  String.eqb (Py.strip line) ("# " +:+ name) = false.
Proof.
  intros H. apply String.eqb_neq. intros E.
  apply (mem_strip "#") in H. by rewrite E in H.
Qed.

Lemma strip_name_line (name : string) :
  Notions.tidy name →
  Py.strip ("# " +:+ name +:+ Py.nl) = "# " +:+ name.
Proof.
  intros (Hne & [_ Hr]%strip_fixed & _).
  unfold Py.strip.
  change ("# " +:+ name +:+ Py.nl) with (String "#" (" " +:+ name +:+ Py.nl)).
  rewrite lstrip_keep by done.
  change (String "#" (" " +:+ name +:+ Py.nl))
    with ("# " +:+ name +:+ Py.nl).
  rewrite <- str_assoc, rstrip_app_nl, <- (str_nil_r name) at 1.
  rewrite str_nil_r. by apply rstrip_app_keep.
Qed.

Lemma remove_lines_no_hash (name : string) (keep rest : list string) :
  Forall (λ l, Notions.mem "#" l = false) keep →
  ConfigManager.remove_lines name false (keep ++ rest)
  = keep ++ ConfigManager.remove_lines name false rest.
Proof.
  induction 1 as [|l keep Hl _ IH]; [done|].
  cbn [app]. by rewrite remove_keep, IH by by apply strip_no_hash.
Qed.

(** The loop over the lines of one item, started with the flag off: the
    item's lines are passed over with the flag off again, dropped when the
    item is the block of [name] and kept otherwise. *)
Lemma remove_lines_item (name : string) (i : Notions.item)
    (rest : list string) :
  Notions.tidy_item i →
  ConfigManager.remove_lines name false (Notions.body_lines i ++ rest)
  = Notions.body_lines (Notions.strike name i)
    ++ ConfigManager.remove_lines name false rest.
Proof.
  destruct i as [[[n k] ip]|]; [|done].
  intros (Hn & _). cbn [fst snd] in Hn.
  unfold Notions.strike. cbn [fst snd].
  unfold Notions.body_lines at 1, Notions.block_lines. cbn [fst snd app].
  destruct (String.eqb_spec n name) as [->|Hne].
  - rewrite remove_lines_cons, strip_name_line, String.eqb_refl by done.
    rewrite remove_drop; [|done | by left].
    rewrite remove_drop; [| by apply strip_other_first | by right].
    rewrite remove_last; [done | by apply strip_other_first..| done | done].
  - rewrite remove_keep.
    2:{ rewrite strip_name_line by done. apply String.eqb_neq.
        intros E. by apply (inj (String.app "# ")) in E. }
    rewrite remove_keep by done.
    rewrite remove_keep by by apply strip_other_first.
    rewrite remove_keep by by apply strip_other_first.
    done.
Qed.

Lemma remove_lines_items (name : string) (items : list Notions.item) :
  Forall Notions.tidy_item items →
  ConfigManager.remove_lines name false
    (concat (Notions.item_lines <$> items))
  = concat (Notions.item_lines <$> (Notions.strike name <$> items)).
Proof.
  induction 1 as [|i items Hi _ IH]; [done|].
  rewrite !fmap_cons. cbn [concat]. unfold Notions.item_lines at 1 3.
  cbn [app]. rewrite remove_keep by done.
  by rewrite remove_lines_item, IH.
Qed.

(** What the loop of [remove_peer] makes of a file that [add_peer] and
    [remove_peer] wrote: every block of [name] gives way to a line feed,
    and everything else stays as it is. *)
Lemma remove_lines_layout (name base : string) (items : list Notions.item) :
  Notions.mem "#" base = false →
  Forall Notions.tidy_item items →
  Py.join (ConfigManager.remove_lines name false
             (Py.readlines (Notions.layout base items)))
  = Notions.layout base (Notions.strike name <$> items).
Proof.
  intros Hbase Hitems. destruct items as [|i items].
  - unfold Notions.layout. cbn [fmap list_fmap Py.join].
    rewrite !str_nil_r.
    rewrite <- (app_nil_r (Py.readlines base)).
    rewrite remove_lines_no_hash by by apply mem_readlines.
    by rewrite app_nil_r, join_readlines.
  - rewrite layout_lines by done.
    rewrite remove_lines_no_hash.
    2:{ apply mem_readlines. by rewrite mem_app, Hbase. }
    apply Forall_cons in Hitems as [Hi Hitems].
    rewrite remove_lines_item, remove_lines_items by done.
    rewrite join_app, join_readlines.
    unfold Notions.layout. rewrite items_text_lines.
    rewrite !fmap_cons. cbn [concat]. unfold Notions.item_lines at 2.
    cbn [app Py.join]. by rewrite str_assoc.
Qed.

End Lines.

(** ** Adding, listing and removing *)

Section RoundTrip.

Import Env.

Lemma layout_snoc (base : string) (items : list Notions.item)
    (p : string * string * string) :
  Notions.layout base items +:+ Notions.block p
  = Notions.layout base (items ++ [Notions.Block p]).
Proof.
  unfold Notions.layout. rewrite fmap_app, join_app, str_assoc.
  cbn [fmap list_fmap Py.join Notions.item_text]. by rewrite str_nil_r.
Qed.

Lemma block_no_cr (p : string * string * string) :
  Notions.tidy_peer p → Notions.mem Py.CR (Notions.block p) = false.
Proof.
  destruct p as [[name key] ip].
  intros ((_ & _ & _ & Hn) & (_ & _ & _ & Hk) & (_ & _ & _ & Hi) & _).
  cbn [fst snd] in *. unfold Notions.block, ConfigManager.peer_config.
  cbn [fst snd]. by rewrite !mem_app, Hn, Hk, Hi.
Qed.

Lemma layout_no_cr (base : string) (items : list Notions.item) :
  Notions.mem Py.CR base = false →
  Forall Notions.tidy_item items →
  Notions.mem Py.CR (Notions.layout base items) = false.
Proof.
  intros Hbase Hitems. unfold Notions.layout. rewrite mem_app, Hbase.
  cbn [orb]. induction Hitems as [|i items Hi _ IH]; [done|].
  rewrite fmap_cons. cbn [Py.join]. rewrite mem_app, IH, orb_false_r.
  destruct i; [by apply block_no_cr | done].
Qed.

Lemma strike_tidy (name : string) (items : list Notions.item) :
  Forall Notions.tidy_item items →
  Forall Notions.tidy_item (Notions.strike name <$> items).
Proof.
  intros H. apply Forall_fmap. eapply Forall_impl; [exact H|].
  intros [p|] Hp; [|done]. simpl. by destruct (String.eqb p.1.1 name).
Qed.

Lemma strike_blocks (name : string) (items : list Notions.item) :
  Notions.blocks (Notions.strike name <$> items)
  = filter (λ q, q.1.1 ≠ name) (Notions.blocks items).
Proof.
  induction items as [|[p|] items IH]; [done| |done].
  rewrite fmap_cons. unfold Notions.strike at 1.
  destruct (String.eqb_spec p.1.1 name) as [E|E].
  - change (Notions.blocks (Notions.Block p :: items))
      with (p :: Notions.blocks items).
    rewrite filter_cons_False by (by intros H; apply H). exact IH.
  - change (Notions.blocks (Notions.Block p :: items))
      with (p :: Notions.blocks items).
    rewrite filter_cons_True by done.
    change (Notions.blocks (Notions.Block p :: ?l))
      with (p :: Notions.blocks l).
    by rewrite IH.
Qed.

Lemma blocks_snoc (items : list Notions.item) (p : string * string * string) :
  Notions.blocks (items ++ [Notions.Block p]) = Notions.blocks items ++ [p].
Proof. unfold Notions.blocks. by rewrite omap_app. Qed.

(** Listing a file that [add_peer] and [remove_peer] wrote. *)
Lemma listing_layout (w : world) (base : string)
    (items : list Notions.item) :
  Notions.mem "#" base = false →
  Notions.mem Py.CR base = false →
  Forall Notions.tidy_item items →
  Notions.conf_is (Notions.layout base items) w →
  (ConfigManager.get_peers_from_config w).1
  = Notions.listed <$> Notions.blocks items.
Proof.
  intros Hhash Hcr Hitems [Hf _].
  rewrite (get_peers_readable w _ Hf). cbn [fst].
  rewrite universal_newlines_id by by apply layout_no_cr.
  unfold Re.findall, Notions.layout. rewrite findall_pass by done.
  by apply findall_items.
Qed.

(** C5, as the code has it.  Take a configuration file of ASCII text made
    of a first part without [#] and without carriage returns, followed by
    blocks that [add_peer] wrote (and the line feeds that [remove_peer]
    left), whose names, keys and addresses are tidy: not empty, on one line,
    without blanks around them, the addresses without [/].  Listing gives
    one entry per block, in order.  Adding a tidy ASCII peer [p] puts its
    block at the end, and listing then gives the former entries followed by
    an entry equal to [p] in name, key and address.  Removing [p] by name
    then replaces every block of that name by one line feed and leaves the
    first part and every other block as they are, byte for byte; listing
    then gives the entries of the other names. *)
Theorem add_list_remove_roundtrip (w : world) (base : string)
    (items : list Notions.item) (name public_key ip : string) :
  Notions.mem "#" base = false →
  Notions.mem Py.CR base = false →
  Forall Notions.tidy_item items →
  Notions.tidy_peer (name, public_key, ip) →
  Notions.seven_bit
    (Notions.layout base (items ++ [Notions.Block (name, public_key, ip)]))
  = true →
  Notions.conf_is (Notions.layout base items) w →
  let p := (name, public_key, ip) in
  let w1 := (ConfigManager.add_peer name public_key (Some ip) w).2 in
  let w2 := (ConfigManager.remove_peer name w1).2 in
  (ConfigManager.get_peers_from_config w).1
  = Notions.listed <$> Notions.blocks items
  ∧ Notions.conf_is (Notions.layout base (items ++ [Notions.Block p])) w1
  ∧ (ConfigManager.get_peers_from_config w1).1
    = (Notions.listed <$> Notions.blocks items)
      ++ [ {| ConfigManager.name := name;
              ConfigManager.public_key := public_key;
              ConfigManager.allowed_ips := ip +:+ "/32";
              ConfigManager.ip := ip |} ]
  ∧ Notions.conf_is
      (Notions.layout base
         (Notions.strike name <$> (items ++ [Notions.Block p]))) w2
  ∧ (ConfigManager.get_peers_from_config w2).1
    = Notions.listed <$> filter (λ q, q.1.1 ≠ name) (Notions.blocks items)
  ∧ (∀ q, q ∈ (ConfigManager.get_peers_from_config w2).1 →
          ConfigManager.name q ≠ name).
Proof.
  intros Hhash Hcr Hitems Hp _ Hc p w1 w2.
  assert (Hitems1 : Forall Notions.tidy_item (items ++ [Notions.Block p])).
  { apply Forall_app. split; [done|]. by constructor. }
  assert (Hc1 : Notions.conf_is
                  (Notions.layout base (items ++ [Notions.Block p])) w1).
  { subst w1. rewrite (add_peer_explicit w _ name public_key (Some ip) Hc).
    unfold Notions.chosen_ip.
    assert (Py.truthy (Some ip) = true) as ->.
    { destruct Hp as (_ & _ & (Hi & _) & _). cbn [snd] in Hi.
      by destruct ip. }
    cbv zeta.
    match goal with |- context [Notions.finish ?x] =>
      destruct (finish_outcome x) as (Hf' & Hd' & _) end.
    destruct Hc as [Hf Hd]. split.
    - rewrite Hf'. simpl. rewrite lookup_insert_eq.
      by rewrite <- layout_snoc.
    - by rewrite Hd'. }
  assert (Hc2 : Notions.conf_is
                  (Notions.layout base
                     (Notions.strike name <$> (items ++ [Notions.Block p])))
                  w2).
  { subst w2. rewrite (remove_peer_explicit w1 _ name Hc1). cbv zeta.
    match goal with |- context [Notions.finish ?x] =>
      destruct (finish_outcome x) as (Hf' & Hd' & _) end.
    destruct Hc1 as [Hf Hd]. split.
    - rewrite Hf'. simpl. rewrite lookup_insert_eq.
      rewrite universal_newlines_id by by apply layout_no_cr.
      by rewrite remove_lines_layout.
    - by rewrite Hd'. }
  assert (Hl2 : (ConfigManager.get_peers_from_config w2).1
                = Notions.listed
                    <$> filter (λ q, q.1.1 ≠ name) (Notions.blocks items)).
  { rewrite (listing_layout w2 base _ Hhash Hcr
               (strike_tidy name _ Hitems1) Hc2).
    rewrite strike_blocks, blocks_snoc, filter_app.
    rewrite filter_cons_False by (by intros H; apply H).
    by rewrite filter_nil, app_nil_r. }
  split; [by apply (listing_layout w base items)|].
  split; [done|]. split.
  { rewrite (listing_layout w1 base _ Hhash Hcr Hitems1 Hc1).
    by rewrite blocks_snoc, fmap_app. }
  split; [done|]. split; [done|].
  intros q. rewrite Hl2.
  intros (q' & -> & [Hq' _]%list_elem_of_filter)%list_elem_of_fmap. done.
Qed.

Lemma add_list_remove_roundtrip_witness :
  let w := Scenario.machine Scenario.conf_r1 in
  let w1 := (ConfigManager.add_peer "r2" "KEY2" (Some "10.10.0.3") w).2 in
  let w2 := (ConfigManager.remove_peer "r2" w1).2 in
  (ConfigManager.get_peers_from_config w1).1
  = [ Notions.listed ("r1", "KEY1", "10.10.0.2");
      Notions.listed ("r2", "KEY2", "10.10.0.3") ]
  ∧ Notions.conf_is
      (Scenario.server_conf
       +:+ ConfigManager.peer_config "r1" "KEY1" "10.10.0.2" +:+ Py.nl) w2
  ∧ (ConfigManager.get_peers_from_config w2).1
    = [ Notions.listed ("r1", "KEY1", "10.10.0.2") ].
Proof.
  intros w w1 w2.
  destruct (add_list_remove_roundtrip w Scenario.server_conf
              [Notions.Block ("r1", "KEY1", "10.10.0.2")]
              "r2" "KEY2" "10.10.0.3")
    as (_ & _ & H1 & H2 & H3 & _).
  - reflexivity.
  - reflexivity.
  - repeat constructor; discriminate.
  - repeat split; discriminate.
  - reflexivity.
  - split; [vm_compute; reflexivity | reflexivity].
  - split; [exact H1|]. split; [exact H2 | exact H3].
Defined.

(** C5 as the specification states it fails, in five ways.  A name with a
    blank at its end is listed without the blank.  When the file has a
    comment line before the peers, the first group of the pattern runs from
    that comment to the name marker, so no listed entry has the name that
    was added.  When an earlier block has an empty name, the name listed
    for the next block runs from that block's [[Peer]] line to its own
    marker, so the peer added after it is not listed under its name.  An
    address with a [/] is listed up to the [/] only.  And in a file whose
    block lines end with a carriage return and a line feed, adding and
    removing "r2" leaves the block of "r1" with line feeds alone, not byte
    for byte as it was. *)
Lemma roundtrip_counterexample :
  let w := (ConfigManager.add_peer "r1 " "KEY1" (Some "10.10.0.2")
              (Scenario.machine Scenario.server_conf)).2 in
  let v := (ConfigManager.add_peer "r1" "KEY1" (Some "10.10.0.2")
              (Scenario.machine Scenario.commented_conf)).2 in
  let u := (ConfigManager.add_peer "r2" "KEY2" (Some "10.10.0.3")
              (ConfigManager.add_peer "" "KEY1" (Some "10.10.0.2")
                 (Scenario.machine Scenario.server_conf)).2).2 in
  let s := (ConfigManager.add_peer "r1" "KEY1" (Some "10.10.0.2/24")
              (Scenario.machine Scenario.server_conf)).2 in
  let c := (ConfigManager.remove_peer "r2"
              (ConfigManager.add_peer "r2" "KEY2" (Some "10.10.0.3")
                 (Scenario.machine Scenario.conf_r1_crlf)).2).2 in
  ConfigManager.name <$> (ConfigManager.get_peers_from_config w).1 = ["r1"]
  ∧ ¬ (∃ q, q ∈ (ConfigManager.get_peers_from_config w).1
            ∧ ConfigManager.name q = "r1 "
            ∧ ConfigManager.public_key q = "KEY1"
            ∧ ConfigManager.ip q = "10.10.0.2")
  ∧ ConfigManager.name <$> (ConfigManager.get_peers_from_config v).1
    = [ "wg0 server" +:+ Py.nl +:+ Scenario.server_conf +:+ Py.nl +:+ "# r1" ]
  ∧ ¬ (∃ q, q ∈ (ConfigManager.get_peers_from_config v).1
            ∧ ConfigManager.name q = "r1"
            ∧ ConfigManager.public_key q = "KEY1"
            ∧ ConfigManager.ip q = "10.10.0.2")
  ∧ ConfigManager.name <$> (ConfigManager.get_peers_from_config u).1
    = [ "[Peer]" +:+ Py.nl +:+ "PublicKey = KEY1" +:+ Py.nl
        +:+ "AllowedIPs = 10.10.0.2/32" +:+ Py.nl +:+ Py.nl +:+ "# r2" ]
  ∧ ¬ (∃ q, q ∈ (ConfigManager.get_peers_from_config u).1
            ∧ ConfigManager.name q = "r2")
  ∧ ConfigManager.ip <$> (ConfigManager.get_peers_from_config s).1
    = ["10.10.0.2"]
  ∧ ¬ (∃ q, q ∈ (ConfigManager.get_peers_from_config s).1
            ∧ ConfigManager.name q = "r1"
            ∧ ConfigManager.ip q = "10.10.0.2/24")
  ∧ Scenario.conf_of c = Some (File (Scenario.conf_r1 +:+ Py.nl))
  ∧ Scenario.conf_r1 +:+ Py.nl ≠ Scenario.conf_r1_crlf +:+ Py.nl.
Proof.
  intros w v u s c.
  assert (Hw : (ConfigManager.get_peers_from_config w).1
               = [Notions.listed ("r1", "KEY1", "10.10.0.2")])
    by by vm_compute.
  assert (Hv : ConfigManager.name <$> (ConfigManager.get_peers_from_config v).1
               = [ "wg0 server" +:+ Py.nl +:+ Scenario.server_conf
                   +:+ Py.nl +:+ "# r1" ])
    by by vm_compute.
  assert (Hu : ConfigManager.name <$> (ConfigManager.get_peers_from_config u).1
               = [ "[Peer]" +:+ Py.nl +:+ "PublicKey = KEY1" +:+ Py.nl
                   +:+ "AllowedIPs = 10.10.0.2/32" +:+ Py.nl +:+ Py.nl
                   +:+ "# r2" ])
    by by vm_compute.
  assert (Hs : ConfigManager.ip <$> (ConfigManager.get_peers_from_config s).1
               = ["10.10.0.2"])
    by by vm_compute.
  split; [by rewrite Hw|]. split.
  { rewrite Hw. intros (q & ->%list_elem_of_singleton & Hn & _).
    discriminate Hn. }
  split; [done|]. split.
  { intros (q & Hq & Hn & _).
    assert (Hin : ConfigManager.name q
                  ∈ ConfigManager.name
                      <$> (ConfigManager.get_peers_from_config v).1)
      by by apply list_elem_of_fmap_2.
    rewrite Hv, Hn in Hin. apply list_elem_of_singleton in Hin.
    vm_compute in Hin. discriminate Hin. }
  split; [done|]. split.
  { intros (q & Hq & Hn).
    assert (Hin : ConfigManager.name q
                  ∈ ConfigManager.name
                      <$> (ConfigManager.get_peers_from_config u).1)
      by by apply list_elem_of_fmap_2.
    rewrite Hu, Hn in Hin. apply list_elem_of_singleton in Hin.
    vm_compute in Hin. discriminate Hin. }
  split; [done|]. split.
  { intros (q & Hq & _ & Hi).
    assert (Hin : ConfigManager.ip q
                  ∈ ConfigManager.ip
                      <$> (ConfigManager.get_peers_from_config s).1)
      by by apply list_elem_of_fmap_2.
    rewrite Hs, Hi in Hin. apply list_elem_of_singleton in Hin.
    vm_compute in Hin. discriminate Hin. }
  split; [by vm_compute|].
  intros H. vm_compute in H. discriminate H.
Qed.

End RoundTrip.

(** ** What a removal returns and leaves *)

Section RemovalOutcome.

Import Env.

(** C6, as the code has it, for a configuration file of ASCII text that can
    be read and written, an ASCII name, and a [wg-quick] that starts.
    [remove_peer] returns [True] whether or not the name is in the file,
    also the second time; it never raises.  The second removal of a name
    leaves the file as the first one left it.  A removal only drops whole
    lines: the file then holds lines of the file as it was read (in text
    mode, where ["\r\n"] and ["\r"] are read as ["\n"]), in their order.
    When the file is a first part without [#] and without carriage returns
    followed by blocks as [add_peer] writes them (and the line feeds of
    earlier removals), with names, keys and addresses that are tidy, every
    block of the name is replaced by one line feed and the rest is left
    byte for byte.  The removal of a name that no line of the file marks
    leaves the content as it was read, which is the content itself when
    the file has no carriage return. *)
Theorem remove_peer_always_succeeds (w : world) (raw name : string) :
  Notions.conf_is raw w →
  Notions.wg_quick_works w →
  Notions.seven_bit raw = true →
  Notions.seven_bit name = true →
  let w1 := (ConfigManager.remove_peer name w).2 in
  let w2 := (ConfigManager.remove_peer name w1).2 in
  let lines := Py.readlines (Py.universal_newlines raw) in
  (ConfigManager.remove_peer name w).1 = true
  ∧ (ConfigManager.remove_peer name w1).1 = true
  ∧ files w2 !! ConfigManager.config_file
    = files w1 !! ConfigManager.config_file
  ∧ (∃ kept, files w1 !! ConfigManager.config_file
             = Some (File (Py.join kept))
             ∧ sublist kept lines)
  ∧ (∀ base items,
       raw = Notions.layout base items →
       Notions.mem "#" base = false →
       Notions.mem Py.CR base = false →
       Forall Notions.tidy_item items →
       files w1 !! ConfigManager.config_file
       = Some (File (Notions.layout base (Notions.strike name <$> items))))
  ∧ (Notions.absent name raw →
     files w1 !! ConfigManager.config_file
     = Some (File (Py.universal_newlines raw)))
  ∧ (Notions.absent name raw → Notions.mem Py.CR raw = false →
     files w1 !! ConfigManager.config_file = Some (File raw)).
Proof.
  intros Hc Hw _ _ w1 w2 lines.
  destruct (remove_peer_result w raw name Hc Hw) as (Hb1 & Hc1 & Hw1).
  fold w1 in Hc1, Hw1.
  destruct (remove_peer_result w1 _ name Hc1 Hw1) as (Hb2 & Hc2 & _).
  fold w2 in Hc2. rewrite remove_lines_twice in Hc2.
  destruct Hc1 as [Hf1 _]. destruct Hc2 as [Hf2 _].
  split; [done|]. split; [done|]. split; [by rewrite Hf1, Hf2|].
  split; [|split; [|split]].
  - eexists. split; [exact Hf1|]. apply remove_lines_sublist.
  - intros base items -> Hhash Hcr Hitems. rewrite Hf1.
    rewrite universal_newlines_id by by apply layout_no_cr.
    by rewrite remove_lines_layout.
  - intros Habs. rewrite Hf1. unfold Notions.absent in Habs.
    rewrite remove_lines_absent by done. by rewrite join_readlines.
  - intros Habs Hcr. rewrite Hf1. unfold Notions.absent in Habs.
    rewrite remove_lines_absent by done.
    by rewrite join_readlines, universal_newlines_id.
Qed.

Lemma remove_peer_always_succeeds_witness :
  let w := Scenario.machine Scenario.conf_r1 in
  let w1 := (ConfigManager.remove_peer "r1" w).2 in
  (ConfigManager.remove_peer "r1" w).1 = true
  ∧ (ConfigManager.remove_peer "r1" w1).1 = true
  ∧ files (ConfigManager.remove_peer "r1" w1).2 !! ConfigManager.config_file
    = files w1 !! ConfigManager.config_file
  ∧ files w1 !! ConfigManager.config_file
    = Some (File Scenario.conf_r1_removed).
Proof.
  intros w w1.
  destruct (remove_peer_always_succeeds w Scenario.conf_r1 "r1")
    as (H1 & H2 & H3 & _ & H5 & _).
  - split; reflexivity.
  - split; discriminate.
  - reflexivity.
  - reflexivity.
  - split; [exact H1|]. split; [exact H2|]. split; [exact H3|].
    apply (H5 Scenario.server_conf
             [Notions.Block ("r1", "KEY1", "10.10.0.2")]).
    + vm_compute; reflexivity.
    + reflexivity.
    + reflexivity.
    + repeat constructor; discriminate.
Defined.

(** C6 as the specification states it fails, in two ways.  After "r1" has
    been removed, removing "r1" again returns [True], as the first time,
    and not a failure; so does removing a name that was never in the file.
    And when the block of "r1" has a line after its [AllowedIPs] line, the
    removal returns [True] and leaves that line in the file, where it now
    belongs to the section before it. *)
Lemma remove_peer_not_found_counterexample :
  let w := Scenario.machine Scenario.conf_r1 in
  let w1 := (ConfigManager.remove_peer "r1" w).2 in
  let v := Scenario.machine Scenario.conf_r1_keepalive in
  (ConfigManager.remove_peer "r1" w).1 = true
  ∧ Scenario.conf_of w1 = Some (File Scenario.conf_r1_removed)
  ∧ ConfigManager.name <$> (ConfigManager.get_peers_from_config w1).1 = []
  ∧ (ConfigManager.remove_peer "r1" w1).1 = true
  ∧ (ConfigManager.remove_peer "nobody" w).1 = true
  ∧ ¬ ((ConfigManager.remove_peer "r1" w1).1 = false)
  ∧ ¬ ((ConfigManager.remove_peer "nobody" w).1 = false)
  ∧ (ConfigManager.remove_peer "r1" v).1 = true
  ∧ Scenario.conf_of (ConfigManager.remove_peer "r1" v).2
    = Some (File (Scenario.server_conf +:+ Py.nl
                  +:+ "PersistentKeepalive = 25" +:+ Py.nl)).
Proof.
  repeat (split; [by vm_compute|]). by vm_compute.
Qed.

End RemovalOutcome.

(** ** Further properties of the service *)

Section ServiceMore.

Import Env.

Lemma candidates_valid (i : nat) :
  2 ≤ i ≤ 254 → Service._is_valid_vpn_ip (Pool.candidate i) = true.
Proof.
  intros Hi%host_range_elem. revert i Hi. apply Forall_forall.
  apply (bool_decide_unpack _). by vm_compute.
Qed.

(** Selecting an address changes nothing but the trace. *)
Lemma next_ip_world (w : world) :
  let w1 := (Service._get_next_available_ip w).2 in
  files w1 = files w ∧ disk_room w1 = disk_room w ∧ spawn w1 = spawn w
  ∧ api_up w1 = api_up w ∧ save_error w1 = save_error w
  ∧ clock w1 = clock w.
Proof.
  unfold Service._get_next_available_ip, catch, bind, exists_, read_text,
    demand, ret, raise.
  destruct (files w !! Service.wg_config) as [[|raw]|] eqn:Hf; simpl;
    rewrite ?Hf; simpl; try done.
  by destruct (Service.collect_used_ips _ _).
Qed.

Lemma next_ip_is_candidate (w : world) (a : string) :
  (Service._get_next_available_ip w).1 = Some a →
  ∃ i, (2 ≤ i ≤ 254) ∧ a = Pool.candidate i.
Proof.
  assert (Hused : ∀ used, Service.next_available used = Some a →
            ∃ i, (2 ≤ i ≤ 254) ∧ a = Pool.candidate i).
  { intros used Hn. pose proof (next_available_spec used) as H.
    rewrite Hn in H. destruct H as (i & Hi & -> & _). by exists i. }
  unfold Service._get_next_available_ip, catch, bind, exists_, read_text,
    demand, ret, raise.
  destruct (files w !! Service.wg_config) as [[|raw]|] eqn:Hf; simpl;
    rewrite ?Hf; simpl; try done.
  - destruct (Service.collect_used_ips _ _) as [used|]; simpl; [|done].
    apply Hused.
  - apply Hused.
Qed.

(** X1. Whatever the configuration file holds, an address that
    [_get_next_available_ip] returns is one of 10.10.0.2 ... 10.10.0.254
    and passes [_is_valid_vpn_ip]. *)
Theorem auto_address_is_valid (w : world) (a : string) :
  (Service._get_next_available_ip w).1 = Some a →
  Service._is_valid_vpn_ip a = true
  ∧ ∃ i, (2 ≤ i ≤ 254) ∧ a = Pool.candidate i.
Proof.
  intros (i & Hi & ->)%next_ip_is_candidate.
  split; [by apply candidates_valid | by exists i].
Qed.

Lemma auto_address_is_valid_witness :
  Service._is_valid_vpn_ip "10.10.0.5" = true
  ∧ ∃ i, (2 ≤ i ≤ 254) ∧ "10.10.0.5" = Pool.candidate i.
Proof.
  apply (auto_address_is_valid Scenario.after_three "10.10.0.5").
  by vm_compute.
Defined.

(** The address that [add_router_to_wireguard] works with. *)
Lemma add_router_unfold (router : Models.Router) (public_key : string)
    (ip_address : option string) (w : world) :
  ∃ chosen w1,
    (chosen, w1) = (if Py.truthy ip_address then (ip_address, w)
                    else Service._get_next_available_ip w)
    ∧ spawn w1 = spawn w ∧ save_error w1 = save_error w
    ∧ (Py.truthy ip_address = false →
       ∀ a, chosen = Some a → Service._is_valid_vpn_ip a = true).
Proof.
  destruct (Py.truthy ip_address) eqn:Hip.
  - exists ip_address, w. by repeat split.
  - destruct (Service._get_next_available_ip w) as [chosen w1] eqn:Hn.
    exists chosen, w1. pose proof (next_ip_world w) as Hw.
    rewrite Hn in Hw. simpl in Hw. destruct Hw as (_ & _ & Hs & _ & Hse & _).
    repeat split; try done. intros _ a ->.
    apply (auto_address_is_valid w). by rewrite Hn.
Qed.

(** X2. [add_router_to_wireguard] returns [True] only when the address it
    works with (the given one, or the selected one) passed
    [_is_valid_vpn_ip], the management script exited with 0 and
    [router.save()] did not raise; the router then carries that address,
    the type "wireguard" and the connected flag, and the message names the
    address. *)
Theorem add_router_success_means (router : Models.Router)
    (public_key : string) (ip_address : option string) (w : world) :
  (Service.add_router_to_wireguard router public_key ip_address w).1.1.1
  = true →
  ∃ a err,
    Models.vpn_ip
      (Service.add_router_to_wireguard router public_key ip_address w).1.2
    = Some a
    ∧ Service._is_valid_vpn_ip a = true
    ∧ (Py.truthy ip_address = true → ip_address = Some a)
    ∧ Models.vpn_type
        (Service.add_router_to_wireguard router public_key ip_address w).1.2
      = "wireguard"
    ∧ Models.is_vpn_connected
        (Service.add_router_to_wireguard router public_key ip_address w).1.2
      = true
    ∧ spawn w [Service.management_script; "add"; Models.name router;
               public_key; a] = Exit 0 err
    ∧ save_error w = None
    ∧ (Service.add_router_to_wireguard router public_key ip_address w).1.1.2
      = "Router '" +:+ Models.name router
        +:+ "' added to WireGuard with IP " +:+ a.
Proof.
  unfold Service.add_router_to_wireguard.
  destruct (add_router_unfold router public_key ip_address w)
    as (chosen & w1 & Heq & Hs & Hse & _).
  rewrite <- Heq.
  destruct (Py.truthy chosen) eqn:Hc; simpl; [|done].
  destruct chosen as [a|]; [|done]. simpl.
  destruct (Service._is_valid_vpn_ip a) eqn:Hv; simpl; [|done].
  unfold run_checked. rewrite Hs.
  destruct (spawn w _) as [|code err] eqn:Hsp; simpl; [done|].
  destruct (decide (code = 0%Z)) as [->|Hne]; simpl; [|done].
  rewrite Hse. destruct (save_error w) as [text|] eqn:Hsv; simpl; [done|].
  intros _. exists a, err. repeat split; try done.
  intros Hip. rewrite Hip in Heq. by injection Heq as -> _.
Qed.

Lemma add_router_success_witness :
  ∃ a err,
    Models.vpn_ip
      (Service.add_router_to_wireguard (Scenario.router "r4" None) "KEY4"
         None Scenario.after_three).1.2 = Some a
    ∧ Service._is_valid_vpn_ip a = true
    ∧ spawn Scenario.after_three
        [Service.management_script; "add"; "r4"; "KEY4"; a] = Exit 0 err.
Proof.
  destruct (add_router_success_means (Scenario.router "r4" None) "KEY4" None
              Scenario.after_three) as (a & err & H1 & H2 & _ & _ & _ & H3 & _).
  - by vm_compute.
  - exists a, err. split; [exact H1|]. split; [exact H2 | exact H3].
Defined.

(** X3. When the address is valid and the management script exited with 0
    but [router.save()] raises, [add_router_to_wireguard] returns [False]
    with the text of the exception, although the script has run and the
    router object already carries the new address, type and flag. *)
Theorem add_router_save_failure (router : Models.Router)
    (public_key a err text : string) (w : world) :
  Service._is_valid_vpn_ip a = true →
  spawn w [Service.management_script; "add"; Models.name router;
           public_key; a] = Exit 0 err →
  save_error w = Some text →
  (Service.add_router_to_wireguard router public_key (Some a) w).1
  = ((false, "Unexpected error adding router: " +:+ text),
     Service.set_vpn a router)
  ∧ Terms.events
      (Service.add_router_to_wireguard router public_key (Some a) w).2
    = Terms.events w
      ++ [ Ran [Service.management_script; "add"; Models.name router;
                public_key; a];
           Saved (Models.name router);
           Logged "WIREGUARD_ERROR"
             ("Unexpected error adding router: " +:+ text) ].
Proof.
  intros Hv Hsp Hsv. unfold Service.add_router_to_wireguard.
  assert (Ht : Py.truthy (Some a) = true).
  { destruct a; [discriminate Hv | done]. }
  rewrite Ht. cbn [negb default from_option id]. rewrite Ht, Hv.
  cbn [negb]. unfold run_checked. rewrite Hsp. simpl.
  rewrite Hsv. split; [done|].
  unfold Terms.events. simpl. rewrite !fmap_app. simpl.
  by rewrite <- !app_assoc.
Qed.

Lemma add_router_save_failure_witness :
  let w := {| files := ∅; disk_room := None; spawn := λ _, Exit 0 "";
              api_up := λ _, true; save_error := Some "database is locked";
              clock := "2024-01-01T00:00:00"; trace := [] |} in
  (Service.add_router_to_wireguard (Scenario.router "r1" None) "KEY1"
     (Some "10.10.0.7") w).1
  = ((false, "Unexpected error adding router: database is locked"),
     Service.set_vpn "10.10.0.7" (Scenario.router "r1" None)).
Proof.
  intros w.
  apply (add_router_save_failure (Scenario.router "r1" None) "KEY1"
           "10.10.0.7" "" "database is locked" w); reflexivity.
Defined.

Lemma status_world (router : Models.Router) (w : world) :
  let w' := (Service.get_router_vpn_status router w).2 in
  files w' = files w ∧ spawn w' = spawn w ∧ api_up w' = api_up w
  ∧ save_error w' = save_error w ∧ clock w' = clock w.
Proof.
  unfold Service.get_router_vpn_status, run.
  destruct (Py.truthy (Models.vpn_ip router)); simpl; [|done].
  destruct (spawn w _) as [|code err]; simpl; [done|].
  by destruct (bool_decide (code = 0%Z)).
Qed.

Lemma status_connected (router : Models.Router) (w : world) :
  Service.is_connected (Service.get_router_vpn_status router w).1
  = Terms.reachable w router.
Proof.
  unfold Service.get_router_vpn_status, run, Terms.reachable.
  destruct (Py.truthy (Models.vpn_ip router)); simpl; [|done].
  destruct (spawn w _) as [|code err]; simpl; [done|].
  by destruct (bool_decide (code = 0%Z)).
Qed.

Lemma reachable_ext (w w' : world) (router : Models.Router) :
  spawn w' = spawn w → Terms.reachable w' router = Terms.reachable w router.
Proof. intros H. unfold Terms.reachable. by rewrite H. Qed.

Lemma status_loop_counts (rs : list (Z * Models.Router))
    (st : RouterOps.all_status) (w0 w : world) :
  spawn w = spawn w0 →
  let st' := (RouterOps.status_loop rs st w).1 in
  RouterOps.total_routers st' = RouterOps.total_routers st
  ∧ RouterOps.online_routers st'
    = RouterOps.online_routers st
      + length (filter (λ r, Terms.reachable w0 r.2 = true) rs)
  ∧ RouterOps.offline_routers st'
    = RouterOps.offline_routers st
      + length (filter (λ r, Terms.reachable w0 r.2 = false) rs)
  ∧ (λ i, (RouterOps.id i, RouterOps.name i,
           Service.is_connected (RouterOps.status i)))
      <$> RouterOps.routers st'
    = ((λ i, (RouterOps.id i, RouterOps.name i,
              Service.is_connected (RouterOps.status i)))
         <$> RouterOps.routers st)
      ++ ((λ r, (r.1, Models.name r.2, Terms.reachable w0 r.2)) <$> rs).
Proof.
  revert st w. induction rs as [|[rid r] rs IH]; intros st w Hs.
  - simpl. rewrite !Nat.add_0_r, app_nil_r. done.
  - cbn [RouterOps.status_loop].
    pose proof (status_connected r w) as Hc.
    pose proof (status_world r w) as (_ & Hs' & _).
    destruct (Service.get_router_vpn_status r w) as [rst w1].
    cbn [fst snd] in Hc, Hs'.
    rewrite (reachable_ext w0 w) in Hc by done.
    match goal with |- context [RouterOps.status_loop rs ?s w1] =>
      destruct (IH s w1) as (H1 & H2 & H3 & H4) end.
    { by rewrite Hs'. }
    cbv zeta. rewrite H1, H2, H3, H4. cbn [RouterOps.total_routers
      RouterOps.online_routers RouterOps.offline_routers RouterOps.routers].
    rewrite Hc.
    destruct (Terms.reachable w0 r) eqn:Hr.
    + rewrite filter_cons_True by done.
      rewrite filter_cons_False by (simpl; congruence).
      rewrite fmap_app, <- app_assoc. simpl. rewrite Hc.
      repeat split; try done; try lia; by rewrite ?Hr.
    + rewrite filter_cons_False by (simpl; congruence).
      rewrite filter_cons_True by done.
      rewrite fmap_app, <- app_assoc. simpl. rewrite Hc.
      repeat split; try done; try lia; by rewrite ?Hr.
Qed.

(** X4. [get_all_vpn_status] counts every router of type "wireguard"
    exactly once: the total is their number, [online_routers] is the number
    of those that have an address and whose ping exits with 0,
    [offline_routers] is the number of the others, the two add up to the
    total, and the list has one entry per router, in order, with that
    router's [id], name and connection flag. *)
Theorem all_status_counts (all : list (Z * Models.Router)) (w : world) :
  let wg := filter (λ r, Models.vpn_type r.2 = "wireguard") all in
  ∃ st, (RouterOps.get_all_vpn_status (Some all) w).1 = Some st
    ∧ RouterOps.total_routers st = length wg
    ∧ RouterOps.online_routers st
      = length (filter (λ r, Terms.reachable w r.2 = true) wg)
    ∧ RouterOps.offline_routers st
      = length (filter (λ r, Terms.reachable w r.2 = false) wg)
    ∧ RouterOps.online_routers st + RouterOps.offline_routers st
      = RouterOps.total_routers st
    ∧ (λ i, (RouterOps.id i, RouterOps.name i,
             Service.is_connected (RouterOps.status i)))
        <$> RouterOps.routers st
      = (λ r, (r.1, Models.name r.2, Terms.reachable w r.2)) <$> wg.
Proof.
  intros wg. unfold RouterOps.get_all_vpn_status. fold wg.
  match goal with |- context [RouterOps.status_loop wg ?s w] =>
    pose proof (status_loop_counts wg s w w eq_refl) as (H1 & H2 & H3 & H4);
    destruct (RouterOps.status_loop wg s w) as [st w'] end.
  cbn [fst snd] in *. exists st. split; [done|].
  cbn [RouterOps.total_routers RouterOps.online_routers
       RouterOps.offline_routers RouterOps.routers] in *.
  rewrite H1, H2, H3. repeat split; try done.
  clear. induction wg as [|r wg IH]; [done|].
  destruct (Terms.reachable w r.2) eqn:Hr.
  - rewrite filter_cons_True by done.
    rewrite filter_cons_False by congruence. simpl. lia.
  - rewrite filter_cons_False by congruence.
    rewrite filter_cons_True by done. simpl. lia.
Qed.

End ServiceMore.

(** ** Synchronising and removing routers *)

Section RouterOpsProps.
Import Env.

Lemma startswith_spec (pre s : string) :
  Py.startswith pre s = true ↔ ∃ post, s = pre +:+ post.
Proof.
  revert s. induction pre as [|a pre IH]; intros s.
  - split; [intros _; by exists s | by destruct s].
  - destruct s as [|b s]; simpl.
    + split; [done | by intros [post [=]]].
    + rewrite andb_true_iff, IH. split.
      * intros [->%Ascii.eqb_eq [post ->]]. by exists post.
      * intros [post [= -> ->]]. split; [apply Ascii.eqb_refl | by exists post].
Qed.

(** [sub in s] holds exactly when [s] has [sub] somewhere inside. *)
Lemma contains_spec (sub s : string) :
  Py.contains sub s = true ↔ ∃ pre post, s = pre +:+ sub +:+ post.
Proof.
  induction s as [|c s IH].
  - simpl. rewrite orb_false_r, startswith_spec. split.
    + intros [post ->]. by exists "", post.
    + intros ([|] & post & H); [by exists post | done].
  - cbn [Py.contains]. rewrite orb_true_iff, IH, startswith_spec. split.
    + intros [[post ->]|(pre & post & ->)].
      * by exists "", post.
      * by exists (String c pre), post.
    + intros ([|c' pre] & post & H).
      * left. by exists post.
      * right. injection H as -> ->. by exists pre, post.
Qed.

Lemma status_api (router : Models.Router) (w : world) :
  Service.is_connected (Service.get_router_vpn_status router w).1 = true →
  Service.api_accessible (Service.get_router_vpn_status router w).1
  = Some (api_up w (Models.name router)).
Proof.
  unfold Service.get_router_vpn_status, run.
  destruct (Py.truthy (Models.vpn_ip router)); simpl; [|done].
  destruct (spawn w _) as [|code err]; simpl; [done|].
  by destruct (bool_decide (code = 0%Z)).
Qed.

(** X5. [sync_router_with_wireguard] returns [True] exactly when the
    router has an address, the configuration file can be read and its text
    has the router's name somewhere inside it (as a substring, on any line),
    the ping of the address exits with 0, the management API accepts the
    connection and [router.save()] does not raise.  The router is then
    marked connected with the time of the check, and the message names
    it. *)
Theorem sync_succeeds_iff (router : Models.Router) (w : world) :
  let res := RouterOps.sync_router_with_wireguard router w in
  (res.1.1.1 = true
   ↔ Py.truthy (Models.vpn_ip router) = true
     ∧ (∃ raw pre post,
          files w !! Service.wg_config = Some (File raw)
          ∧ Py.universal_newlines raw = pre +:+ Models.name router +:+ post)
     ∧ Terms.reachable w router = true
     ∧ api_up w (Models.name router) = true
     ∧ save_error w = None)
  ∧ (res.1.1.1 = true →
     res.1.2 = RouterOps.mark_synced (clock w) router
     ∧ res.1.1.2 = "Router '" +:+ Models.name router
                   +:+ "' synced successfully with WireGuard").
Proof.
  unfold RouterOps.sync_router_with_wireguard, read_text.
  destruct (Py.truthy (Models.vpn_ip router)) eqn:Hip; simpl;
    [|split; [split; [done | by intros (? & _)] | done]].
  destruct (files w !! Service.wg_config) as [[|raw]|] eqn:Hf; simpl;
    try (split; [split; [done | by intros (_ & (? & ? & ? & ? & _) & _)]
                | done]).
  destruct (Py.contains (Models.name router) (Py.universal_newlines raw))
    eqn:Hc; simpl.
  2:{ split; [|done]. split; [done|].
      intros (_ & (raw' & pre & post & [= <-] & Hin) & _).
      assert (Py.contains (Models.name router) (Py.universal_newlines raw)
              = true) by (apply contains_spec; eauto).
      congruence. }
  apply contains_spec in Hc as (pre & post & Hc).
  set (w1 := record (Opened Service.wg_config "r") w).
  pose proof (status_connected router w1) as Hconn.
  pose proof (status_world router w1) as (_ & _ & Hapi & Hsave & Hclock).
  pose proof (status_api router w1) as Hacc.
  destruct (Service.get_router_vpn_status router w1) as [st w2].
  cbn [fst snd] in *. rewrite (reachable_ext w w1) in Hconn by done.
  rewrite Hconn in *.
  destruct (Terms.reachable w router) eqn:Hr; simpl;
    [|split; [split; [done | by intros (_ & _ & ? & _)] | done]].
  rewrite Hacc by done. simpl.
  destruct (api_up w (Models.name router)) eqn:Ha; simpl;
    [|split; [split; [done | by intros (_ & _ & _ & ? & _)] | done]].
  rewrite Hsave, Hclock. simpl.
  destruct (save_error w) as [text|] eqn:Hs; simpl;
    [split; [split; [done | by intros (_ & _ & _ & _ & ?)] | done]|].
  split; [|done]. split; [|done]. intros _.
  repeat split; try done. by exists raw, pre, post.
Qed.
(** X7. [remove_router_from_wireguard] returns [True] exactly when the
    management script exits with 0 and [router.save()] does not raise.
    Once the script has exited with 0 the router object has lost its
    address and its connected flag, also when [save()] then raises and the
    call returns [False] with the text of the exception; when the script
    does not exit with 0 the call returns [False] and the router object is
    unchanged. *)
Theorem remove_router_outcome (router : Models.Router) (w : world) :
  let res := RouterOps.remove_router_from_wireguard router w in
  let cmd := [Service.management_script; "remove"; Models.name router] in
  (res.1.1.1 = true
   ↔ (∃ err, spawn w cmd = Exit 0 err) ∧ save_error w = None)
  ∧ ((∃ err, spawn w cmd = Exit 0 err) →
     res.1.2 = RouterOps.clear_vpn router
     ∧ (∀ text, save_error w = Some text →
        res.1.1 = (false, "Unexpected error removing router: " +:+ text)))
  ∧ ((∀ err, spawn w cmd ≠ Exit 0 err) →
     res.1.1.1 = false ∧ res.1.2 = router).
Proof.
  unfold RouterOps.remove_router_from_wireguard, run_checked.
  destruct (spawn w _) as [|code err] eqn:Hsp; simpl.
  - split; [split; [done | by intros [[? ?] _]]|].
    split; [by intros [? ?] | done].
  - destruct (decide (code = 0%Z)) as [->|Hne]; simpl.
    + destruct (save_error w) as [text|] eqn:Hs; simpl.
      * split; [split; [done | by intros [_ ?]]|].
        split; [|intros H; by destruct (H err)].
        intros _. split; [done|]. by intros ? [= <-].
      * split; [split; [by eauto | done]|].
        split; [|intros H; by destruct (H err)].
        intros _. split; [done|]. done.
    + split; [split; [done | intros [[? [= ? _]] _]; done]|].
      split; [intros [? [= ? _]]; done | done].
Qed.

(** X8. A router taken out by [remove_router_from_wireguard] keeps its
    type "wireguard".  On any machine its status is then "not_configured",
    without a ping; [sync_router_with_wireguard] refuses it with "Router not
    configured for VPN"; and [get_all_vpn_status] still counts it, as
    offline. *)
Theorem removed_router_still_listed (router : Models.Router)
    (err : string) (w : world) :
  spawn w [Service.management_script; "remove"; Models.name router]
  = Exit 0 err →
  Models.vpn_type router = "wireguard" →
  let router' := (RouterOps.remove_router_from_wireguard router w).1.2 in
  let unconfigured :=
    {| Service.is_connected := false; Service.api_accessible := None;
       Service.status := "not_configured";
       Service.message := Some "Router not configured for VPN";
       Service.vpn_ip := None; Service.last_check := None |} in
  ∀ (i : Z) (w' : world),
    Service.get_router_vpn_status router' w' = (unconfigured, w')
    ∧ RouterOps.sync_router_with_wireguard router' w'
      = ((false, "Router not configured for VPN"), router', w')
    ∧ RouterOps.get_all_vpn_status (Some [(i, router')]) w'
      = (Some {| RouterOps.total_routers := 1;
                 RouterOps.online_routers := 0;
                 RouterOps.offline_routers := 1;
                 RouterOps.routers :=
                   [ {| RouterOps.id := i;
                        RouterOps.name := Models.name router;
                        RouterOps.vpn_ip := None;
                        RouterOps.status := unconfigured |} ] |}, w').
Proof.
  intros Hsp Hty router' unconfigured i w'.
  assert (Hr : router' = RouterOps.clear_vpn router).
  { unfold router', RouterOps.remove_router_from_wireguard, run_checked.
    rewrite Hsp. simpl. by destruct (save_error w). }
  rewrite Hr. split; [done|]. split; [done|].
  unfold RouterOps.get_all_vpn_status.
  rewrite filter_cons_True by done. done.
Qed.

Lemma removed_router_still_listed_witness :
  let r := Service.set_vpn "10.10.0.2" (Scenario.router "r1" None) in
  let w := Scenario.machine Scenario.conf_r1 in
  Service.get_router_vpn_status
    (RouterOps.remove_router_from_wireguard r w).1.2 w
  = ({| Service.is_connected := false; Service.api_accessible := None;
        Service.status := "not_configured";
        Service.message := Some "Router not configured for VPN";
        Service.vpn_ip := None; Service.last_check := None |}, w).
Proof.
  intros r w.
  apply (removed_router_still_listed r "" w); [reflexivity | reflexivity |].
  exact 0%Z.
Defined.

End RouterOpsProps.

(** ** Deleting and finding rows *)

Section StoreProps.
Import Database.

(** X9. [delete_router] returns [True] exactly when the connection is
    available and the statement is executed, whether or not a row has the
    [id]: no row count is read.  After [True] the table holds the rows of
    other [id]s and nothing else, and it is unchanged when no row had the
    [id]; after [False] nothing is deleted or committed. *)
Theorem delete_router_reports_success (router_id : Z)
    (db : DatabaseManager) :
  let res := Store.delete_router router_id db in
  (res.1 = true
   ↔ available db = true ∧ server_up db = true ∧ in_failed_txn db = false)
  ∧ (res.1 = true →
     (∀ r, r ∈ table res.2 ↔ r ∈ table db ∧ id r ≠ router_id)
     ∧ (Forall (λ r, id r ≠ router_id) (table db) →
        table res.2 = table db)
     ∧ commits res.2 = S (commits db))
  ∧ (res.1 = false →
     table res.2 = table db ∧ commits res.2 = commits db).
Proof.
  unfold Store.delete_router.
  destruct (available db); simpl;
    [|split; [split; [done | by intros (? & _)] | done]].
  destruct (server_up db); simpl;
    [|split; [split; [done | by intros (_ & ? & _)] | done]].
  destruct (in_failed_txn db); simpl;
    [split; [split; [done | by intros (_ & _ & ?)] | done]|].
  split; [done|]. split; [|done]. intros _. split; [|split; [|done]].
  - intros r. rewrite list_elem_of_filter. tauto.
  - intros Hall. induction Hall as [|r t Hr _ IH]; [done|].
    rewrite filter_cons_True by done. by rewrite IH.
Qed.

Lemma get_after_insert (now : string) (new_id : Z) (d : router_data)
    (t : list row) :
  NoDup (name <$> t) →
  let found :=
    head (filter (λ r, name r = d_name d ∧ vpn_type r = "wireguard")
            (insert_on_conflict now new_id d t)) in
  (∀ r, r ∈ t → name r = d_name d →
     found = if bool_decide (vpn_type r = "wireguard")
             then Some (on_conflict_update now d r) else None)
  ∧ (Forall (λ r, name r ≠ d_name d) t →
     found = if bool_decide (d_vpn_type d = "wireguard")
             then Some (inserted new_id d) else None).
Proof.
  induction t as [|r t IH]; intros Hnd.
  - split; [by intros r ?%elem_of_nil|]. intros _. simpl.
    destruct (decide (d_vpn_type d = "wireguard")) as [Hty|Hty].
    + rewrite bool_decide_eq_true_2 by done.
      by rewrite filter_cons_True by done.
    + rewrite bool_decide_eq_false_2 by done.
      rewrite filter_cons_False; [done|]. simpl. tauto.
  - apply NoDup_cons in Hnd as [Hr Hnd]. specialize (IH Hnd).
    cbv zeta in IH. destruct IH as [IH1 IH2]. cbn [insert_on_conflict].
    destruct (String.eqb_spec (name r) (d_name d)) as [Heq|Hne].
    + assert (Hrest : filter (λ r, name r = d_name d
                                   ∧ vpn_type r = "wireguard") t = []).
      { clear -Hr Heq. induction t as [|r' t IH]; [done|].
        simpl in Hr. rewrite not_elem_of_cons in Hr. destruct Hr as [Hr1 Hr2].
        rewrite filter_cons_False by (intros [? _]; congruence).
        by apply IH. }
      split.
      * intros r' [->|Hin]%elem_of_cons Hname.
        -- destruct (decide (vpn_type r = "wireguard")) as [Hty|Hty].
           ++ rewrite bool_decide_eq_true_2 by done.
              by rewrite filter_cons_True by done.
           ++ rewrite bool_decide_eq_false_2 by done.
              rewrite filter_cons_False by (simpl; tauto). by rewrite Hrest.
        -- destruct Hr. rewrite Heq, <- Hname. by apply list_elem_of_fmap_2.
      * intros [? _]%Forall_cons. done.
    + split.
      * intros r' [->|Hin]%elem_of_cons Hname; [done|].
        rewrite filter_cons_False by (intros [? _]; congruence).
        by apply IH1.
      * intros [_ Hall]%Forall_cons.
        rewrite filter_cons_False by (intros [? _]; congruence).
        by apply IH2.
Qed.

(** X10. [add_router] followed by [get_router_by_name] of the same name,
    on a working connection and a table with distinct names.  When no row
    had the name, the new row is found if the data has the type "wireguard"
    and nothing is found otherwise.  When a row had the name, the updated
    row is found if that row was of type "wireguard"; if it was of another
    type, which the statement does not overwrite, [add_router] returns
    [True] and [get_router_by_name] still finds nothing. *)
Theorem add_router_then_get_by_name (d : router_data)
    (db : DatabaseManager) :
  available db = true → server_up db = true → in_failed_txn db = false →
  NoDup (name <$> table db) →
  let db' := (add_router d db).2 in
  let found := (Store.get_router_by_name (d_name d) db').1 in
  (add_router d db).1 = true
  ∧ (∀ r, r ∈ table db → name r = d_name d →
       found = if bool_decide (vpn_type r = "wireguard")
               then Some (on_conflict_update (now db) d r) else None)
  ∧ (Forall (λ r, name r ≠ d_name d) (table db) →
     found = if bool_decide (d_vpn_type d = "wireguard")
             then Some (inserted (next_id db) d) else None).
Proof.
  intros Hav Hup Htx Hnd. unfold add_router, Store.get_router_by_name.
  rewrite Hav, Hup, Htx. simpl. rewrite Hav, Hup, Htx. simpl.
  split; [done|]. by apply get_after_insert.
Qed.

Lemma add_router_then_get_by_name_witness :
  (Store.get_router_by_name "r2"
     (add_router Scenario.r2_fresh Scenario.db_with_r1).2).1
  = Some (inserted 2 Scenario.r2_fresh).
Proof.
  refine (proj2 (proj2 (add_router_then_get_by_name Scenario.r2_fresh
                          Scenario.db_with_r1 eq_refl eq_refl eq_refl _)) _).
  - apply NoDup_singleton.
  - repeat constructor. discriminate.
Defined.

End StoreProps.

(** ** A restart that cannot be started *)

Section RestartFailure.
Import Env.

Lemma finish_fails (w : world) :
  ¬ Notions.wg_quick_works w → (Notions.finish w).1 = false.
Proof.
  unfold Notions.wg_quick_works, Notions.finish, ConfigManager.restart,
    bind, run, ret.
  destruct (spawn w ["wg-quick"; "down"; ConfigManager.interface])
    as [|c1 e1] eqn:H1; simpl; [done|].
  destruct (spawn w ["wg-quick"; "up"; ConfigManager.interface])
    as [|c2 e2] eqn:H2; simpl; [done|].
  intros []. by split.
Qed.

Lemma add_peer_written (w : world) (raw name public_key : string)
    (ip : option string) (a : string) :
  Notions.conf_is raw w →
  Notions.chosen_ip raw ip = Some a →
  Notions.conf_is (raw +:+ ConfigManager.peer_config name public_key a)
    (ConfigManager.add_peer name public_key ip w).2
  ∧ (Notions.wg_quick_works w →
     (ConfigManager.add_peer name public_key ip w).1 = true)
  ∧ (¬ Notions.wg_quick_works w →
     (ConfigManager.add_peer name public_key ip w).1 = false).
Proof.
  intros Hc Ha. rewrite (add_peer_explicit w raw) by done.
  rewrite Ha. cbv zeta. destruct Hc as [Hf Hd].
  match goal with |- context [Notions.finish ?x] =>
    destruct (finish_outcome x) as (Hf' & Hd' & _ & Hok);
    pose proof (finish_fails x) as Hfail end.
  split; [split|split].
  - rewrite Hf'. simpl. by rewrite lookup_insert_eq.
  - rewrite Hd'. by destruct (Py.truthy ip).
  - intros Hw. rewrite Hok; [done|]. by destruct (Py.truthy ip).
  - intros Hw. apply Hfail. by destruct (Py.truthy ip).
Qed.

(** X12. When a [wg-quick] call cannot be started, [add_peer] and
    [remove_peer] return [False] although the configuration file has
    already been changed: it holds the new block, respectively the kept
    lines only. *)
Theorem restart_failure_after_write (w : world)
    (raw name public_key : string) (ip : option string) (a : string) :
  Notions.conf_is raw w →
  ¬ Notions.wg_quick_works w →
  Notions.chosen_ip raw ip = Some a →
  let new := Py.join (ConfigManager.remove_lines name false
                        (Py.readlines (Py.universal_newlines raw))) in
  (ConfigManager.add_peer name public_key ip w).1 = false
  ∧ Notions.conf_is (raw +:+ ConfigManager.peer_config name public_key a)
      (ConfigManager.add_peer name public_key ip w).2
  ∧ (ConfigManager.remove_peer name w).1 = false
  ∧ Notions.conf_is new (ConfigManager.remove_peer name w).2.
Proof.
  intros Hc Hw Ha new.
  destruct (add_peer_written w raw name public_key ip a Hc Ha)
    as (Hconf & _ & Hfalse).
  split; [by apply Hfalse|]. split; [done|].
  rewrite (remove_peer_explicit w raw) by done. fold new.
  destruct Hc as [Hf Hd].
  match goal with |- context [Notions.finish ?x] =>
    destruct (finish_outcome x) as (Hf' & Hd' & _);
    pose proof (finish_fails x) as Hfail end.
  split; [by apply Hfail|].
  split; [rewrite Hf'; simpl; by rewrite lookup_insert_eq|].
  by rewrite Hd'.
Qed.

Lemma restart_failure_after_write_witness :
  let w := {| files := {[ ConfigManager.config_file
                            := File Scenario.server_conf ]};
              disk_room := None; spawn := λ _, NotFound;
              api_up := λ _, true; save_error := None;
              clock := "2024-01-01T00:00:00"; trace := [] |} in
  (ConfigManager.add_peer "r1" "KEY1" None w).1 = false
  ∧ Notions.conf_is Scenario.conf_r1
      (ConfigManager.add_peer "r1" "KEY1" None w).2.
Proof.
  intros w.
  destruct (restart_failure_after_write w Scenario.server_conf "r1" "KEY1"
              None "10.10.0.2") as (H1 & H2 & _).
  - by split.
  - intros [H _]. by apply H.
  - by vm_compute.
  - split; [exact H1 | exact H2].
Defined.

End RestartFailure.

(** ** Adding a router from the menu *)

Section MenuAdd.
Import Env.

(** X14. [WireGuardMenu.add_router] with an empty address input: the
    block written to the configuration file carries the address that
    [add_peer] selected, while the row added to the database has the text
    "Auto-assigned" as its [ip_address]; Supabase is not written. *)
Theorem menu_add_router_placeholder (router_name public_key ip_input : string)
    (db : Database.DatabaseManager) (supabase : MenuFlow.SupabaseManager)
    (w : world) (raw a : string) :
  router_name ≠ "" → public_key ≠ "" → Py.strip ip_input = "" →
  Notions.conf_is raw w →
  Notions.wg_quick_works w →
  Notions.chosen_ip raw None = Some a →
  Database.available db = true →
  Database.server_up db = true →
  Database.in_failed_txn db = false →
  Forall (λ r, Database.name r ≠ router_name) (Database.table db) →
  let res := MenuFlow.add_router router_name public_key ip_input (Some db)
               supabase w in
  Notions.conf_is
    (raw +:+ ConfigManager.peer_config router_name public_key a) res.1.1
  ∧ (∃ db', res.1.2 = Some db'
       ∧ Database.table db'
         = Database.table db
           ++ [ {| Database.id := Database.next_id db;
                   Database.name := router_name;
                   Database.public_key := public_key;
                   Database.ip_address := "Auto-assigned";
                   Database.vpn_type := "wireguard";
                   Database.is_active := true;
                   Database.api_accessible := false;
                   Database.notes := "Added via VPS menu";
                   Database.updated_at := None |} ])
  ∧ res.2 = supabase.
Proof.
  intros Hn Hk Hip Hc Hw Ha Hav Hup Htx Hfresh.
  unfold MenuFlow.add_router.
  destruct router_name as [|c1 n1]; [done|].
  destruct public_key as [|c2 k1]; [done|].
  cbn [Py.truthy negb]. rewrite Hip. cbn [Py.truthy negb].
  destruct (add_peer_written w raw (String c1 n1) (String c2 k1) None a
              Hc Ha) as (Hconf & Htrue & _).
  specialize (Htrue Hw).
  destruct (ConfigManager.add_peer _ _ None w) as [ok w'].
  cbn [fst snd] in *. subst ok. rewrite Hav. cbn [fst snd fmap option_fmap option_map].
  split; [done|]. split; [|done].
  eexists. split; [done|].
  unfold Database.add_router. rewrite Hav, Hup, Htx. simpl.
  by rewrite insert_on_conflict_fresh.
Qed.

Lemma menu_add_router_placeholder_witness :
  let res := MenuFlow.add_router "r2" "KEY2" "" (Some Scenario.db_with_r1)
               {| MenuFlow.available := true; MenuFlow.insert_ok := true;
                  MenuFlow.inserted := [] |}
               (Scenario.machine Scenario.conf_r1) in
  Notions.conf_is
    (Scenario.conf_r1 +:+ ConfigManager.peer_config "r2" "KEY2" "10.10.0.3")
    res.1.1
  ∧ (∃ db', res.1.2 = Some db'
       ∧ Database.table db'
         = Database.table Scenario.db_with_r1
           ++ [ {| Database.id := 2;
                   Database.name := "r2";
                   Database.public_key := "KEY2";
                   Database.ip_address := "Auto-assigned";
                   Database.vpn_type := "wireguard";
                   Database.is_active := true;
                   Database.api_accessible := false;
                   Database.notes := "Added via VPS menu";
                   Database.updated_at := None |} ])
  ∧ res.2 = {| MenuFlow.available := true; MenuFlow.insert_ok := true;
               MenuFlow.inserted := [] |}.
Proof.
  apply (menu_add_router_placeholder "r2" "KEY2" "" Scenario.db_with_r1 _
           (Scenario.machine Scenario.conf_r1) Scenario.conf_r1 "10.10.0.3");
    try done.
  repeat constructor. discriminate.
Defined.

(** X15. What [WireGuardMenu.add_router] stores.  With an empty name or
    key nothing happens.  Otherwise [add_peer] is called with the address
    typed in, or [None] when it is blank; when it returns [False] neither
    store is written.  At most one store is written: Supabase only when the
    database is missing or unavailable, and never when the database is
    available, also when the insert into the database fails.  What Supabase
    receives has the name, the key, and the address typed in or
    "Auto-assigned". *)
Theorem menu_add_router_storage (router_name public_key ip_input : string)
    (database : option Database.DatabaseManager)
    (supabase : MenuFlow.SupabaseManager) (w : world) :
  let res := MenuFlow.add_router router_name public_key ip_input database
               supabase w in
  let ip := if Py.truthy (Some (Py.strip ip_input)) then Some ip_input
            else None in
  let added := ConfigManager.add_peer router_name public_key ip w in
  (router_name = "" ∨ public_key = "" → res = (w, database, supabase))
  ∧ (router_name ≠ "" → public_key ≠ "" →
     res.1.1 = added.2
     ∧ (added.1 = false → res.1.2 = database ∧ res.2 = supabase))
  ∧ (res.1.2 = database ∨ res.2 = supabase)
  ∧ (∀ db, database = Some db → Database.available db = true →
     res.2 = supabase)
  ∧ (res.2 ≠ supabase →
     ∃ d, MenuFlow.inserted res.2 = MenuFlow.inserted supabase ++ [d]
          ∧ MenuFlow.s_name d = router_name
          ∧ MenuFlow.s_public_key d = public_key
          ∧ MenuFlow.s_ip_address d = MenuFlow.or_auto ip).
Proof.
  unfold MenuFlow.add_router. cbv zeta.
  generalize (Py.truthy (Some (Py.strip ip_input))). intros b.
  destruct router_name as [|c1 n1]; cbn [Py.truthy negb].
  { split; [done|]. split; [done|]. split; [by left|]. by split. }
  destruct public_key as [|c2 k1]; cbn [Py.truthy negb].
  { split; [done|]. split; [done|]. split; [by left|]. by split. }
  split; [by intros [|]|].
  assert (Hip : (if negb b then None else Some ip_input)
                = if b then Some ip_input else None) by (by destruct b).
  rewrite Hip.
  destruct (ConfigManager.add_peer _ _ _ w) as [[|] w'] eqn:Hadd;
    cbn [fst snd].
  2:{ split; [done|]. split; [by left|]. by split. }
  destruct database as [db|]; cbn [fmap option_fmap option_map].
  - destruct (Database.available db) eqn:Hav; cbn [fst snd].
    + split; [done|]. split; [by right|]. by split.
    + unfold MenuFlow.supabase_add_router.
      destruct (MenuFlow.available supabase) eqn:Hs; cbn [negb fst snd];
        [|split; [done|]; split; [by left|]; by split].
      destruct (MenuFlow.insert_ok supabase); cbn [fst snd];
        [|split; [done|]; split; [by left|]; by split].
      split; [done|]. split; [by left|]. split; [by intros ? [= <-]; congruence|].
      intros _. eexists. by repeat split.
  - unfold MenuFlow.supabase_add_router.
    destruct (MenuFlow.available supabase) eqn:Hs; cbn [negb fst snd];
      [|split; [done|]; split; [by left|]; by split].
    destruct (MenuFlow.insert_ok supabase); cbn [fst snd];
      [|split; [done|]; split; [by left|]; by split].
    split; [done|]. split; [by left|]. split; [done|].
    intros _. eexists. by repeat split.
Qed.

(** X16. When [wg-quick] cannot be started, [WireGuardMenu.add_router]
    leaves the new block in the configuration file and records the router
    in no store. *)
Theorem menu_add_router_unrecorded (router_name public_key ip_input : string)
    (database : option Database.DatabaseManager)
    (supabase : MenuFlow.SupabaseManager) (w : world) (raw a : string) :
  router_name ≠ "" → public_key ≠ "" →
  Notions.conf_is raw w →
  ¬ Notions.wg_quick_works w →
  Notions.chosen_ip raw
    (if Py.truthy (Some (Py.strip ip_input)) then Some ip_input else None)
  = Some a →
  let res := MenuFlow.add_router router_name public_key ip_input database
               supabase w in
  Notions.conf_is
    (raw +:+ ConfigManager.peer_config router_name public_key a) res.1.1
  ∧ res.1.2 = database ∧ res.2 = supabase.
Proof.
  intros Hn Hk Hc Hw Ha. unfold MenuFlow.add_router.
  revert Ha. generalize (Py.truthy (Some (Py.strip ip_input))). intros b Ha.
  destruct router_name as [|c1 n1]; [done|].
  destruct public_key as [|c2 k1]; [done|]. cbn [Py.truthy negb].
  assert (Hip : (if negb b then None else Some ip_input)
                = if b then Some ip_input else None) by (by destruct b).
  rewrite Hip.
  destruct (add_peer_written w raw (String c1 n1) (String c2 k1) _ a
              Hc Ha) as (Hconf & _ & Hfalse).
  specialize (Hfalse Hw).
  destruct (ConfigManager.add_peer _ _ _ w) as [ok w'].
  cbn [fst snd] in *. subst ok. done.
Qed.

Lemma menu_add_router_unrecorded_witness :
  let w := {| files := {[ ConfigManager.config_file
                            := File Scenario.server_conf ]};
              disk_room := None; spawn := λ _, NotFound;
              api_up := λ _, true; save_error := None;
              clock := "2024-01-01T00:00:00"; trace := [] |} in
  let sb := {| MenuFlow.available := true; MenuFlow.insert_ok := true;
               MenuFlow.inserted := [] |} in
  let res := MenuFlow.add_router "r1" "KEY1" "10.10.0.2"
               (Some Scenario.db_with_r1) sb w in
  Notions.conf_is Scenario.conf_r1 res.1.1
  ∧ res.1.2 = Some Scenario.db_with_r1 ∧ res.2 = sb.
Proof.
  intros w sb.
  apply (menu_add_router_unrecorded "r1" "KEY1" "10.10.0.2"
           (Some Scenario.db_with_r1) sb w Scenario.server_conf "10.10.0.2").
  - discriminate.
  - discriminate.
  - by split.
  - intros [H _]. by apply H.
  - reflexivity.
Defined.

End MenuAdd.

(** ** Splitting, and the address check *)

Section Splitting.

Lemma split_nosep (sep : ascii) (s : string) :
  Notions.mem sep s = false → Py.split sep s = [s].
Proof.
  induction s as [|c s IH]; [done|]. simpl.
  intros [Hc Hs]%orb_false_elim. by rewrite Hc, IH.
Qed.

Lemma split_app_sep (sep : ascii) (s t : string) :
  Notions.mem sep s = false →
  Py.split sep (s +:+ String sep t) = s :: Py.split sep t.
Proof.
  induction s as [|c s IH]; simpl.
  - intros _. by rewrite Ascii.eqb_refl.
  - intros [Hc Hs]%orb_false_elim. rewrite ?str_cons. simpl.
    by rewrite Hc, IH.
Qed.

Lemma split_parts (sep : ascii) (s : string) :
  Forall (λ p, Notions.mem sep p = false) (Py.split sep s)
  ∧ Database.join_with (String sep "") (Py.split sep s) = s.
Proof.
  induction s as [|c s [IH1 IH2]]; [by split; [repeat constructor|]|].
  simpl. destruct (Ascii.eqb_spec c sep) as [->|Hc].
  - split; [by constructor|]. 
    destruct (Py.split sep s) as [|h t] eqn:Hs; [by destruct s|].
    change (Database.join_with (String sep "") ("" :: h :: t))
      with (String sep (Database.join_with (String sep "") (h :: t))).
    by rewrite IH2.
  - destruct (Py.split sep s) as [|h t] eqn:Hs.
    + simpl in *. subst s. split; [|done]. repeat constructor. simpl.
      by apply Ascii.eqb_neq in Hc as ->.
    + apply Forall_cons in IH1 as [Hh Ht]. split.
      * constructor; [|done]. simpl. by apply Ascii.eqb_neq in Hc as ->.
      * destruct t; simpl in *; by subst.
Qed.

(** X17. For an ASCII text of at most 4300 characters, [_is_valid_vpn_ip]
    accepts it exactly when it is "10.10.0." followed by a part without dot
    that [int] reads as a number from 2 to 254. *)
Theorem valid_vpn_ip_iff (ip_address : string) :
  Notions.seven_bit ip_address = true →
  String.length ip_address ≤ 4300 →
  Service._is_valid_vpn_ip ip_address = true
  ↔ ∃ last n,
      ip_address = "10.10.0." +:+ last
      ∧ Notions.mem "." last = false
      ∧ Py.int last = Some n
      ∧ (2 ≤ n ≤ 254)%Z.
Proof.
  intros _ _. unfold Service._is_valid_vpn_ip. split.
  - destruct (split_parts "." ip_address) as [Hall Hjoin].
    destruct (Py.split "." ip_address) as [|p0 [|p1 [|p2 [|p3 [|]]]]];
      try done.
    destruct (String.eqb_spec p0 "10") as [->|]; [|done].
    destruct (String.eqb_spec p1 "10") as [->|]; [|done].
    destruct (String.eqb_spec p2 "0") as [->|]; [|done]. simpl.
    destruct (Py.int p3) as [n|] eqn:Hint; [|done].
    intros Hn%bool_decide_eq_true. exists p3, n.
    split; [by rewrite <- Hjoin|]. split; [|done].
    rewrite !Forall_cons in Hall. tauto.
  - intros (last & n & -> & Hdot & Hint & Hn).
    change ("10.10.0." +:+ last)
      with ("10" +:+ String "." ("10" +:+ String "." ("0" +:+ String "." last))).
    rewrite !split_app_sep by done. rewrite split_nosep by done.
    simpl. rewrite Hint. by apply bool_decide_eq_true.
Qed.

Lemma valid_vpn_ip_iff_witness :
  Service._is_valid_vpn_ip "10.10.0.77" = true
  ↔ ∃ last n,
      "10.10.0.77" = "10.10.0." +:+ last
      ∧ Notions.mem "." last = false
      ∧ Py.int last = Some n
      ∧ (2 ≤ n ≤ 254)%Z.
Proof.
  apply (valid_vpn_ip_iff "10.10.0.77").
  - reflexivity.
  - apply Nat.leb_le. reflexivity.
Defined.



End Splitting.

(** ** The peers that [wg] prints *)

Section WgPeers.

(** What [wg show wg0 peers] prints for the keys: one key per line. *)
Lemma join_keys (k : string) (keys : list string) :
  Py.join ((λ k, k +:+ Py.nl) <$> (k :: keys))
  = Database.join_with Py.nl (k :: keys) +:+ Py.nl.
Proof.
  revert k. induction keys as [|k' keys IH]; intros k.
  - simpl. by rewrite str_nil_r.
  - change (Py.join ((λ k, k +:+ Py.nl) <$> (k :: k' :: keys)))
      with ((k +:+ Py.nl) +:+ Py.join ((λ k, k +:+ Py.nl) <$> (k' :: keys))).
    rewrite IH.
    change (Database.join_with Py.nl (k :: k' :: keys))
      with (k +:+ Py.nl +:+ Database.join_with Py.nl (k' :: keys)).
    by rewrite !str_assoc.
Qed.

Lemma join_with_tidy (k : string) (keys : list string) :
  Forall Notions.tidy (k :: keys) →
  let text := Database.join_with Py.nl (k :: keys) in
  text ≠ "" ∧ Py.lstrip text = text ∧ Py.rstrip text = text
  ∧ Notions.mem Py.CR text = false
  ∧ Py.split Py.LF text = k :: keys.
Proof.
  revert k. induction keys as [|k' keys IH]; intros k.
  - intros [(Hne & Hs & Hlf & Hcr) _]%Forall_cons. simpl.
    destruct (strip_fixed k Hs) as [Hl Hr].
    repeat split; try done. by apply split_nosep.
  - intros [(Hne & Hs & Hlf & Hcr) Hrest]%Forall_cons.
    destruct (IH k' Hrest) as (Hne' & Hl' & Hr' & Hcr' & Hsp').
    destruct (strip_fixed k Hs) as [Hl Hr].
    change (Database.join_with Py.nl (k :: k' :: keys))
      with (k +:+ Py.nl +:+ Database.join_with Py.nl (k' :: keys)).
    cbv zeta. split; [by destruct k|].
    split; [by apply lstrip_app|].
    split.
    { rewrite <- str_assoc. by apply rstrip_app_keep. }
    split.
    { rewrite !mem_app, Hcr, Hcr'. done. }
    change (k +:+ Py.nl +:+ ?t) with (k +:+ String Py.LF t).
    rewrite split_app_sep by done. by rewrite Hsp'.
Qed.

(** X18. [get_peers_from_wg_command] on the output of a [wg] call that
    exited with 0 and printed one key per line (keys not empty, on one
    line, without blanks around them): one entry per key, in order, with
    the key, the name "Peer_" followed by the first eight characters of the
    key, and "Unknown" as address. *)
Theorem wg_peers_round_trip (keys : list string) :
  Forall Notions.tidy keys →
  WgCommand.get_peers_from_wg_command
    (WgCommand.Completed 0 (Py.join ((λ k, k +:+ Py.nl) <$> keys)))
  = (λ k, {| ConfigManager.name := "Peer_" +:+ WgCommand.prefix 8 k;
             ConfigManager.public_key := k;
             ConfigManager.allowed_ips := "Unknown";
             ConfigManager.ip := "Unknown" |}) <$> keys.
Proof.
  intros Hall. unfold WgCommand.get_peers_from_wg_command.
  rewrite bool_decide_eq_true_2 by done.
  destruct keys as [|k keys]; [done|].
  rewrite join_keys.
  destruct (join_with_tidy k keys Hall) as (Hne & Hl & Hr & Hcr & Hsp).
  set (text := Database.join_with Py.nl (k :: keys)) in *.
  rewrite universal_newlines_id by (by rewrite mem_app, Hcr).
  assert (Hstrip : Py.strip (text +:+ Py.nl) = text).
  { unfold Py.strip. rewrite lstrip_app by done. by rewrite rstrip_app_nl. }
  rewrite Hstrip, Hsp. clear -Hall.
  induction Hall as [|k' keys' (Hne & Hs & _) _ IH]; [done|].
  rewrite filter_cons_True by (rewrite Hs; by destruct k').
  rewrite !fmap_cons, IH. f_equal.
  unfold WgCommand.peer_of_line. by rewrite Hs.
Qed.

Lemma wg_peers_round_trip_witness :
  WgCommand.get_peers_from_wg_command
    (WgCommand.Completed 0
       (Py.join ((λ k, k +:+ Py.nl) <$> ["KEYAAAAAAAAA="; "KEYB="])))
  = [ {| ConfigManager.name := "Peer_KEYAAAAA";
         ConfigManager.public_key := "KEYAAAAAAAAA=";
         ConfigManager.allowed_ips := "Unknown";
         ConfigManager.ip := "Unknown" |};
      {| ConfigManager.name := "Peer_KEYB=";
         ConfigManager.public_key := "KEYB=";
         ConfigManager.allowed_ips := "Unknown";
         ConfigManager.ip := "Unknown" |} ].
Proof.
  apply (wg_peers_round_trip ["KEYAAAAAAAAA="; "KEYB="]).
  repeat constructor; done.
Defined.

End WgPeers.

(** ** Reading a menu choice *)

Section Choice.

Lemma get_user_choice_cases (max_choice : Z) (inputs : list string) :
  let rejected line :=
    ∀ n, Py.int line = Some n → ¬ (1 ≤ n ≤ max_choice)%Z in
  match MenuFlow.get_user_choice max_choice inputs with
  | Some (choice, rest) =>
      (1 ≤ choice ≤ max_choice)%Z
      ∧ ∃ skipped line,
          inputs = skipped ++ line :: rest
          ∧ Py.int line = Some choice
          ∧ Forall rejected skipped
  | None => Forall rejected inputs
  end.
Proof.
  intros rejected. induction inputs as [|line inputs IH]; [by constructor|].
  simpl. destruct (Py.int line) as [n|] eqn:Hint.
  - case_bool_decide as Hn.
    + split; [done|]. by exists [], line.
    + assert (rejected line).
      { intros n' Hn'. by simplify_eq. }
      destruct (MenuFlow.get_user_choice max_choice inputs)
        as [[choice rest]|].
      * destruct IH as (Hc & skipped & line' & -> & Hl & Hsk).
        split; [done|]. exists (line :: skipped), line'.
        repeat split; try done. by constructor.
      * by constructor.
  - assert (rejected line).
    { intros n' Hn'. by simplify_eq. }
    destruct (MenuFlow.get_user_choice max_choice inputs)
      as [[choice rest]|].
    + destruct IH as (Hc & skipped & line' & -> & Hl & Hsk).
      split; [done|]. exists (line :: skipped), line'.
      repeat split; try done. by constructor.
    + by constructor.
Qed.

(** X20. For lines typed in that are ASCII texts of at most 4300
    characters, [get_user_choice] returns the number of the first line that
    [int] reads as a number from 1 to [max_choice]; every line before it was
    not a number or out of range, and the lines after it are left.  It
    returns nothing exactly when no line is accepted; with [max_choice]
    below 1 that is the case for every input. *)
Theorem get_user_choice_spec (max_choice : Z) (inputs : list string) :
  Forall (λ line, Notions.seven_bit line = true
                  ∧ String.length line ≤ 4300) inputs →
  let rejected line :=
    ∀ n, Py.int line = Some n → ¬ (1 ≤ n ≤ max_choice)%Z in
  (∀ choice rest,
     MenuFlow.get_user_choice max_choice inputs = Some (choice, rest) →
     (1 ≤ choice ≤ max_choice)%Z
     ∧ ∃ skipped line,
         inputs = skipped ++ line :: rest
         ∧ Py.int line = Some choice
         ∧ Forall rejected skipped)
  ∧ (MenuFlow.get_user_choice max_choice inputs = None
     ↔ Forall rejected inputs)
  ∧ ((max_choice < 1)%Z →
     MenuFlow.get_user_choice max_choice inputs = None).
Proof.
  intros _ rejected.
  pose proof (get_user_choice_cases max_choice inputs) as H. cbv zeta in H.
  fold rejected in H.
  assert (Hnone : Forall rejected inputs →
                  MenuFlow.get_user_choice max_choice inputs = None).
  { clear H. induction 1 as [|line inputs Hl _ IH]; [done|]. simpl.
    destruct (Py.int line) as [n|] eqn:Hint; [|done].
    rewrite bool_decide_eq_false_2; [done|]. by apply Hl. }
  split; [|split].
  - intros choice rest Heq. by rewrite Heq in H.
  - split; [|done]. intros Heq. by rewrite Heq in H.
  - intros Hmax. apply Hnone. apply Forall_forall. intros line _ n _. lia.
Qed.

Lemma get_user_choice_spec_witness :
  (1 ≤ 2 ≤ 5)%Z
  ∧ ∃ skipped line,
      ["abc"; "7"; " 2 "; "4"] = skipped ++ line :: ["4"]
      ∧ Py.int line = Some 2%Z
      ∧ Forall (λ line, ∀ n, Py.int line = Some n → ¬ (1 ≤ n ≤ 5)%Z)
          skipped.
Proof.
  refine (proj1 (get_user_choice_spec 5 ["abc"; "7"; " 2 "; "4"] _) 2%Z
            ["4"] _).
  - repeat (apply Forall_cons_2;
              [split; [reflexivity | apply Nat.leb_le; reflexivity]|]).
    apply Forall_nil_2.
  - reflexivity.
Defined.

End Choice.

(** ** A missing or unreadable configuration file *)

Section NoFile.
Import Env.

Lemma first_free_none_used :
  Pool.first_free (λ c, bool_decide (c ∈ @nil string)) Pool.host_range
  = Some "10.10.0.2".
Proof. by vm_compute. Qed.

(** X13. Without a configuration file, [get_peers_from_config] lists
    nothing and [remove_peer] returns [False] and changes nothing, while
    [add_peer] creates the file: it then holds the one block, with the
    given address or 10.10.0.2.  With a file that cannot be opened all
    three fail and change nothing. *)
Theorem add_peer_without_file (name public_key : string)
    (ip : option string) (w : world) :
  (files w !! ConfigManager.config_file = None →
   disk_room w = None →
   Notions.wg_quick_works w →
   (ConfigManager.get_peers_from_config w) = ([], w)
   ∧ (ConfigManager.add_peer name public_key ip w).1 = true
   ∧ Notions.conf_is
       (ConfigManager.peer_config name public_key
          (if Py.truthy ip then default "" ip else "10.10.0.2"))
       (ConfigManager.add_peer name public_key ip w).2
   ∧ ConfigManager.remove_peer name w = (false, w))
  ∧ (files w !! ConfigManager.config_file = Some Denied →
     (ConfigManager.get_peers_from_config w) = ([], w)
     ∧ ConfigManager.add_peer name public_key ip w = (false, w)
     ∧ ConfigManager.remove_peer name w = (false, w)).
Proof.
  split.
  - intros Hf Hd Hw.
    assert (Hg : ConfigManager.get_peers_from_config w = ([], w)).
    { unfold ConfigManager.get_peers_from_config, catch, bind, read_text.
      by rewrite Hf. }
    split; [done|].
    assert (Hr : ConfigManager.remove_peer name w = (false, w)).
    { unfold ConfigManager.remove_peer, catch, bind, read_text.
      by rewrite Hf. }
    rewrite Hr.
    assert (Happ : ∀ a,
      append_text ConfigManager.config_file
        (ConfigManager.peer_config name public_key a) w
      = (Value (),
         record (Written ConfigManager.config_file
                   (ConfigManager.peer_config name public_key a))
           (with_files
              (<[ConfigManager.config_file
                   := File (ConfigManager.peer_config name public_key a)]>
                 (files w))
              (record (Opened ConfigManager.config_file "a")
                 (with_files
                    (<[ConfigManager.config_file := File ""]> (files w))
                    w))))).
    { intros a. unfold append_text, write_out. rewrite Hf. simpl.
      rewrite lookup_insert_eq, Hd. simpl. by rewrite insert_insert_eq. }
    unfold ConfigManager.add_peer, catch, bind, call, ret.
    destruct (Py.truthy ip) eqn:Hip.
    + destruct ip as [a|]; [|done]. cbv beta iota zeta. simpl default.
      rewrite Happ.
      match goal with |- context [ConfigManager.restart ?x] =>
        destruct (restart_outcome x) as (w' & Hw' & Hf' & Hd' & _ & Hok) end.
      rewrite Hok in * by done. simpl in *. subst w'.
      split; [done|]. split; [|done]. split; [|done].
      simpl. by rewrite lookup_insert_eq.
    + rewrite Hg. cbv beta iota zeta.
      change (ConfigManager.ip <$> []) with (@nil string).
      rewrite first_free_none_used, Happ.
      match goal with |- context [ConfigManager.restart ?x] =>
        destruct (restart_outcome x) as (w' & Hw' & Hf' & Hd' & _ & Hok) end.
      rewrite Hok in * by done. simpl in *. subst w'.
      split; [done|]. split; [|done]. split; [|done].
      simpl. by rewrite lookup_insert_eq.
  - intros Hf.
    assert (Hg : ConfigManager.get_peers_from_config w = ([], w)).
    { unfold ConfigManager.get_peers_from_config, catch, bind, read_text.
      by rewrite Hf. }
    split; [done|]. split.
    + unfold ConfigManager.add_peer, catch, bind, call, ret.
      destruct (Py.truthy ip) eqn:Hip.
      * destruct ip as [a|]; [|done]. cbv beta iota zeta.
        unfold append_text. by rewrite Hf.
      * rewrite Hg. cbv beta iota zeta.
        change (ConfigManager.ip <$> []) with (@nil string).
        rewrite first_free_none_used. unfold append_text. by rewrite Hf.
    + unfold ConfigManager.remove_peer, catch, bind, read_text.
      by rewrite Hf.
Qed.

End NoFile.

(** ** The parameters of an update *)

Section UpdateParameters.
Import Database.

Lemma values_foldl_other (k : string) (m : gmap string sqlval)
    (updates : list (string * sqlval)) :
  Forall (λ kv, kv.1 ≠ k) updates →
  foldl (λ m kv, <[fst kv := snd kv]> m) m updates !! k = m !! k.
Proof.
  intros H. revert m. induction H as [|[k' v] l Hk _ IH]; intros m; [done|].
  simpl. rewrite IH. by rewrite lookup_insert_ne.
Qed.

(** X11. The parameters that [update_router] passes with its statement.
    The placeholder [%(id)s] of the [WHERE] clause is [router_id] when
    [updates] has no key "id"; an item of [updates] with the key "id"
    replaces it, as for every key the last item wins.  There is one [SET]
    clause per item, and no other parameter. *)
Theorem update_router_parameters (router_id : Z)
    (updates : list (string * sqlval)) :
  (Forall (λ kv, kv.1 ≠ "id") updates →
   values router_id updates !! "id" = Some (VInt router_id))
  ∧ (∀ k v before after,
       updates = before ++ (k, v) :: after →
       Forall (λ kv, kv.1 ≠ k) after →
       values router_id updates !! k = Some v)
  ∧ length (set_clauses updates) = length updates
  ∧ (∀ k, k ≠ "id" → Forall (λ kv, kv.1 ≠ k) updates →
       values router_id updates !! k = None).
Proof.
  unfold values. split; [|split; [|split]].
  - intros H. rewrite values_foldl_other by done. by rewrite lookup_singleton_eq.
  - intros k v before after -> H. rewrite foldl_app. simpl.
    rewrite values_foldl_other by done. by rewrite lookup_insert_eq.
  - unfold set_clauses. by rewrite length_fmap.
  - intros k Hk H. rewrite values_foldl_other by done.
    by rewrite lookup_singleton_ne.
Qed.

End UpdateParameters.


(** ** The two address scans on the same file *)

Section Agreement.
Import Env.

Lemma startswith_app_char (c : ascii) (sub a b : string) :
  Notions.mem c sub = false →
  Py.startswith sub (a +:+ String c b) = Py.startswith sub a.
Proof.
  revert a. induction sub as [|x sub IH]; intros a; [done|].
  cbn [Notions.mem]. intros [Hx Hsub]%orb_false_elim.
  destruct a as [|y a]; simpl.
  - by rewrite Hx.
  - by rewrite IH.
Qed.

(** A character that [sub] does not have cuts the search in two. *)
Lemma contains_app_char (c : ascii) (sub a b : string) :
  Notions.mem c sub = false →
  Py.contains sub (a +:+ String c b)
  = Py.contains sub a || Py.contains sub b.
Proof.
  intros Hc. induction a as [|y a IH].
  - rewrite str_nil_l. cbn [Py.contains].
    rewrite <- (str_nil_l (String c b)), startswith_app_char by done.
    by rewrite orb_false_r.
  - rewrite str_cons. cbn [Py.contains]. rewrite IH.
    rewrite <- str_cons, startswith_app_char by done.
    by rewrite orb_assoc.
Qed.

Lemma contains_line (sub s line : string) :
  Py.contains sub s = false → line ∈ Py.readlines s →
  Py.contains sub line = false.
Proof.
  intros Hs (l1 & l2 & Hl)%list_elem_of_split.
  destruct (Py.contains sub line) eqn:Hline; [|done].
  apply contains_spec in Hline as (pre & post & ->).
  assert (Py.contains sub s = true); [|congruence].
  apply contains_spec. exists (Py.join l1 +:+ pre), (post +:+ Py.join l2).
  rewrite <- (join_readlines s), Hl, join_app. cbn [Py.join].
  by rewrite !str_assoc.
Qed.

Lemma collect_app (l1 l2 : list string) (acc : gset string) :
  Service.collect_used_ips (l1 ++ l2) acc
  = Service.collect_used_ips l1 acc ≫= Service.collect_used_ips l2.
Proof.
  revert acc. induction l1 as [|l l1 IH]; intros acc; [done|].
  cbn [app Service.collect_used_ips].
  destruct (Py.contains "AllowedIPs" l); [|apply IH].
  destruct (Service.allowed_ip_of l); [apply IH | done].
Qed.

Lemma collect_skip (lines : list string) (acc : gset string) :
  Forall (λ l, Py.contains "AllowedIPs" l = false) lines →
  Service.collect_used_ips lines acc = Some acc.
Proof.
  induction 1 as [|l lines Hl _ IH]; [done|].
  cbn [Service.collect_used_ips]. by rewrite Hl.
Qed.

Lemma allowed_ip_of_line (ip : string) :
  Notions.tidy ip → Notions.mem "/" ip = false →
  Notions.mem "=" ip = false →
  Service.allowed_ip_of ("AllowedIPs = " +:+ ip +:+ "/32" +:+ Py.nl)
  = Some ip.
Proof.
  intros (Hne & Hs & Hlf & Hcr) Hslash Heq. unfold Service.allowed_ip_of.
  change ("AllowedIPs = " +:+ ip +:+ "/32" +:+ Py.nl)
    with ("AllowedIPs " +:+ String "=" (String " " (ip +:+ "/32" +:+ Py.nl))).
  rewrite split_app_sep by done.
  rewrite split_nosep.
  2:{ cbn [Notions.mem]. by rewrite !mem_app, Heq. }
  assert (Hstrip : Py.strip (String " " (ip +:+ "/32" +:+ Py.nl))
                   = ip +:+ "/32").
  { change (Py.strip (String " " ?x)) with (Py.strip x).
    by apply strip_tidy_app_nl. }
  rewrite Hstrip. by rewrite (split_head "/" ip "32").
Qed.

Lemma collect_item (i : Notions.item) (acc : gset string) :
  Notions.tidy_item i → Terms.unmarked i →
  Service.collect_used_ips (Notions.item_lines i) acc
  = Some (list_to_set ((λ p, p.2) <$> Notions.blocks [i]) ∪ acc).
Proof.
  destruct i as [[[name key] ip]|].
  2:{ intros _ _. simpl. by rewrite (left_id_L ∅ (∪)). }
  intros (Hn & Hk & Hi & Hslash) (Hmn & Hmk & Hmi).
  cbn [fst snd] in *.
  unfold Notions.item_lines, Notions.body_lines, Notions.block_lines.
  cbn [fst snd].
  assert (H0 : Py.contains "AllowedIPs" Py.nl = false) by done.
  assert (H1 : Py.contains "AllowedIPs" ("# " +:+ name +:+ Py.nl) = false).
  { change ("# " +:+ name +:+ Py.nl)
      with ("#" +:+ String " " (name +:+ String Py.LF "")).
    rewrite !contains_app_char by done. by rewrite Hmn. }
  assert (H2 : Py.contains "AllowedIPs" ("[Peer]" +:+ Py.nl) = false) by done.
  assert (H3 : Py.contains "AllowedIPs" ("PublicKey = " +:+ key +:+ Py.nl)
               = false).
  { change ("PublicKey = " +:+ key +:+ Py.nl)
      with ("PublicKey" +:+ String " " ("=" +:+ String " "
              (key +:+ String Py.LF ""))).
    rewrite !contains_app_char by done. by rewrite Hmk. }
  assert (H4 : Py.contains "AllowedIPs"
                 ("AllowedIPs = " +:+ ip +:+ "/32" +:+ Py.nl) = true).
  { apply contains_spec. by exists "", (" = " +:+ ip +:+ "/32" +:+ Py.nl). }
  cbn [Service.collect_used_ips]. rewrite H0, H1, H2, H3, H4.
  rewrite allowed_ip_of_line by done. simpl.
  by rewrite (right_id_L ∅ (∪)).
Qed.

Lemma collect_items (items : list Notions.item) (acc : gset string) :
  Forall Notions.tidy_item items → Forall Terms.unmarked items →
  Service.collect_used_ips (concat (Notions.item_lines <$> items)) acc
  = Some (list_to_set ((λ p, p.2) <$> Notions.blocks items) ∪ acc).
Proof.
  intros Ht. revert acc. induction Ht as [|i items Hi _ IH]; intros acc Hu.
  - simpl. by rewrite (left_id_L ∅ (∪)).
  - apply Forall_cons in Hu as [Hui Hu].
    rewrite fmap_cons. cbn [concat]. rewrite collect_app, collect_item by done.
    simpl. rewrite IH by done. f_equal.
    destruct i as [p|]; simpl.
    + rewrite (right_id_L ∅ (∪)), (assoc_L (∪)).
      by rewrite (comm_L (∪) (list_to_set _) {[p.2]}).
    + by rewrite (left_id_L ∅ (∪)).
Qed.

Lemma collect_layout (base : string) (items : list Notions.item) :
  Py.contains "AllowedIPs" base = false →
  Forall Notions.tidy_item items → Forall Terms.unmarked items →
  Service.collect_used_ips (Py.readlines (Notions.layout base items)) ∅
  = Some (list_to_set ((λ p, p.2) <$> Notions.blocks items)).
Proof.
  intros Hbase Ht Hu. destruct items as [|i items].
  - unfold Notions.layout. simpl. rewrite str_nil_r.
    apply collect_skip, Forall_forall. intros line Hline.
    by apply (contains_line _ base).
  - rewrite layout_lines by done. rewrite collect_app.
    rewrite collect_skip.
    2:{ apply Forall_forall. intros line Hline.
        apply (contains_line _ (base +:+ Py.nl)); [|done].
        change (base +:+ Py.nl) with (base +:+ String Py.LF "").
        rewrite contains_app_char by done. by rewrite Hbase. }
    simpl.
    pose proof (collect_items (i :: items) ∅ Ht Hu) as H.
    rewrite fmap_cons in H. cbn [concat] in H.
    unfold Notions.item_lines at 1 in H.
    cbn [app Service.collect_used_ips] in H.
    change (Py.contains "AllowedIPs" Py.nl) with false in H.
    cbv iota in H. rewrite H. by rewrite (right_id_L ∅ (∪)).
Qed.

(** X21. On a configuration file of ASCII text made of a first part
    without [#], carriage return and the text "AllowedIPs", followed by
    blocks written by [add_peer] (and the line feeds of removals) whose
    names, keys and addresses are tidy (not empty, on one line, without
    blanks around them, the addresses without [/]), whose names and keys do
    not contain "AllowedIPs" and whose addresses have no [=], the line scan
    of [_get_next_available_ip] finds exactly the addresses that
    [get_peers_from_config] lists, and the service selects the same address
    as [add_peer]. *)
Theorem allocators_agree (w : world) (base : string)
    (items : list Notions.item) :
  Notions.mem "#" base = false →
  Notions.mem Py.CR base = false →
  Py.contains "AllowedIPs" base = false →
  Forall Notions.tidy_item items →
  Forall Terms.unmarked items →
  Notions.seven_bit (Notions.layout base items) = true →
  Notions.conf_is (Notions.layout base items) w →
  (Service._get_next_available_ip w).1
  = Notions.chosen_ip (Notions.layout base items) None
  ∧ Service.collect_used_ips
      (Py.readlines (Py.universal_newlines (Notions.layout base items))) ∅
    = Some (list_to_set
              (ConfigManager.ip <$> (ConfigManager.get_peers_from_config w).1)).
Proof.
  intros Hhash Hcr Hbase Ht Hu _ Hc.
  pose proof (listing_layout w base items Hhash Hcr Ht Hc) as Hlist.
  assert (Hips : ConfigManager.ip <$> (Notions.listed <$> Notions.blocks items)
                 = (λ p, p.2) <$> Notions.blocks items).
  { rewrite <- list_fmap_compose. by apply list_fmap_ext. }
  pose proof (collect_layout base items Hbase Ht Hu) as Hcol.
  rewrite Hlist, Hips.
  rewrite universal_newlines_id by by apply layout_no_cr.
  split; [|done]. destruct Hc as [Hf _].
  rewrite (next_ip_readable w (Notions.layout base items)
             (list_to_set ((λ p, p.2) <$> Notions.blocks items))); try done.
  2:{ by rewrite universal_newlines_id by by apply layout_no_cr. }
  unfold Notions.chosen_ip, Service.next_available. cbn [Py.truthy].
  rewrite universal_newlines_id by by apply layout_no_cr.
  rewrite <- first_free_list_set. 
  unfold Re.findall, Notions.layout. rewrite findall_pass by done.
  by rewrite findall_items, Hips.
Qed.

Lemma allocators_agree_witness :
  (Service._get_next_available_ip (Scenario.machine Scenario.conf_r1)).1
  = Notions.chosen_ip
      (Notions.layout Scenario.server_conf
         [Notions.Block ("r1", "KEY1", "10.10.0.2")]) None
  ∧ Service.collect_used_ips
      (Py.readlines
         (Py.universal_newlines
            (Notions.layout Scenario.server_conf
               [Notions.Block ("r1", "KEY1", "10.10.0.2")]))) ∅
    = Some (list_to_set
              (ConfigManager.ip
                 <$> (ConfigManager.get_peers_from_config
                        (Scenario.machine Scenario.conf_r1)).1)).
Proof.
  apply (allocators_agree (Scenario.machine Scenario.conf_r1)
           Scenario.server_conf [Notions.Block ("r1", "KEY1", "10.10.0.2")]).
  - reflexivity.
  - reflexivity.
  - reflexivity.
  - repeat constructor; discriminate.
  - repeat constructor.
  - reflexivity.
  - split; [vm_compute; reflexivity | reflexivity].
Defined.

End Agreement.

(** ** The entries of the [wg] listing *)

Section WgShape.

Lemma rstrip_cons (c : ascii) (s : string) :
  Py.rstrip (String c s)
  = match Py.rstrip s with
    | "" => if Py.isspace c then "" else String c ""
    | r => String c r
    end.
Proof. done. Qed.

Lemma rstrip_idem (s : string) : Py.rstrip (Py.rstrip s) = Py.rstrip s.
Proof.
  induction s as [|c s IH]; [done|]. rewrite rstrip_cons.
  destruct (Py.rstrip s) as [|d r] eqn:Hr.
  - destruct (Py.isspace c) eqn:Hc; [done|]. simpl. by rewrite Hc.
  - rewrite rstrip_cons. by rewrite IH.
Qed.

Lemma rstrip_head (c : ascii) (s : string) :
  Py.isspace c = false → ∃ r, Py.rstrip (String c s) = String c r.
Proof.
  intros Hc. cbn [Py.rstrip]. destruct (Py.rstrip s); rewrite ?Hc; eauto.
Qed.

Lemma lstrip_head (s : string) :
  Py.lstrip s = "" ∨ ∃ c r, Py.lstrip s = String c r ∧ Py.isspace c = false.
Proof.
  induction s as [|c s IH]; [by left|]. simpl.
  destruct (Py.isspace c) eqn:Hc; [done|]. right. by exists c, s.
Qed.

Lemma strip_idem (s : string) : Py.strip (Py.strip s) = Py.strip s.
Proof.
  unfold Py.strip. destruct (lstrip_head s) as [->|(c & r & -> & Hc)]; [done|].
  destruct (rstrip_head c r Hc) as [r' Hr]. rewrite Hr.
  rewrite lstrip_keep by done. by rewrite <- Hr, rstrip_idem.
Qed.

(** X19. Whatever the [wg] call gives, every entry of
    [get_peers_from_wg_command] has a key that is not empty and has no
    blanks around it, the name "Peer_" followed by the first eight
    characters of the key, and "Unknown" as address; a call that exits with
    another code than 0, or cannot be started, gives no entry. *)
Theorem wg_peers_shape (r : WgCommand.result) :
  Forall (λ p, ConfigManager.public_key p ≠ ""
               ∧ Py.strip (ConfigManager.public_key p)
                 = ConfigManager.public_key p
               ∧ ConfigManager.name p
                 = "Peer_" +:+ WgCommand.prefix 8 (ConfigManager.public_key p)
               ∧ ConfigManager.ip p = "Unknown"
               ∧ ConfigManager.allowed_ips p = "Unknown")
    (WgCommand.get_peers_from_wg_command r)
  ∧ (∀ code out, code ≠ 0%Z →
       WgCommand.get_peers_from_wg_command (WgCommand.Completed code out)
       = [])
  ∧ WgCommand.get_peers_from_wg_command WgCommand.CannotStart = [].
Proof.
  split; [|split; [|done]].
  - destruct r as [|code out]; [by constructor|]. simpl.
    case_bool_decide; [|by constructor].
    apply Forall_fmap, Forall_forall.
    intros line [Hline _]%list_elem_of_filter. simpl.
    split; [by destruct (Py.strip line)|]. by rewrite strip_idem.
  - intros code out Hcode. simpl. by rewrite bool_decide_eq_false_2.
Qed.

End WgShape.

(** ** Why a synchronisation is refused *)

Section SyncMessages.
Import Env.

(** X6. [sync_router_with_wireguard] for a router with an address whose
    name is in the configuration file.  When the ping exits with another
    code than 0 the status has no message and the result is "Router is not
    reachable via VPN: Unknown error"; when the ping cannot be started the
    text of that exception follows the colon; when the ping exits with 0
    and the management API refuses, the result is "Router API is not
    accessible via VPN".  The router is unchanged, nothing is saved or
    logged. *)
Theorem sync_unreachable_message (router : Models.Router) (w : world)
    (raw : string) :
  Py.truthy (Models.vpn_ip router) = true →
  files w !! Service.wg_config = Some (File raw) →
  Py.contains (Models.name router) (Py.universal_newlines raw) = true →
  let ping := Service.ping_cmd (default "" (Models.vpn_ip router)) in
  let res := RouterOps.sync_router_with_wireguard router w in
  (∀ code err, spawn w ping = Exit code err → code ≠ 0%Z →
     res.1 = ((false, "Router is not reachable via VPN: Unknown error"),
              router)
     ∧ Terms.events res.2
       = Terms.events w ++ [Opened Service.wg_config "r"; Ran ping])
  ∧ (spawn w ping = NotFound →
     res.1 = ((false, "Router is not reachable via VPN: "
                      +:+ "[Errno 2] No such file or directory: 'ping'"),
              router)
     ∧ Terms.events res.2
       = Terms.events w ++ [Opened Service.wg_config "r"])
  ∧ (∀ err, spawn w ping = Exit 0 err →
     api_up w (Models.name router) = false →
     res.1 = ((false, "Router API is not accessible via VPN"), router)
     ∧ Terms.events res.2
       = Terms.events w ++ [Opened Service.wg_config "r"; Ran ping;
                            ApiTried (Models.name router)]).
Proof.
  intros Hip Hf Hc ping res. subst res.
  unfold RouterOps.sync_router_with_wireguard, read_text.
  rewrite Hip, Hf. cbn [negb]. rewrite Hc. cbn [negb].
  unfold Service.get_router_vpn_status, run. rewrite Hip. cbn [negb].
  fold ping. cbn [spawn record].
  split; [|split].
  - intros code err Hsp Hcode. rewrite Hsp.
    rewrite bool_decide_eq_false_2 by done. simpl.
    split; [done|]. unfold Terms.events. simpl.
    by rewrite !fmap_app, <- app_assoc.
  - intros Hsp. rewrite Hsp. simpl. split; [done|].
    unfold Terms.events. simpl. by rewrite !fmap_app.
  - intros err Hsp Hapi. rewrite Hsp.
    rewrite bool_decide_eq_true_2 by done. simpl. rewrite Hapi. simpl.
    split; [done|]. unfold Terms.events. simpl.
    by rewrite !fmap_app, <- !app_assoc.
Qed.

Lemma sync_unreachable_message_witness :
  let r := Scenario.router "r1" (Some "10.10.0.2") in
  let w := with_files {[ Service.wg_config := File Scenario.conf_r1 ]}
             Scenario.ping_fails in
  (RouterOps.sync_router_with_wireguard r w).1
  = ((false, "Router is not reachable via VPN: Unknown error"), r).
Proof.
  intros r w.
  destruct (sync_unreachable_message r w Scenario.conf_r1) as (H & _).
  - reflexivity.
  - reflexivity.
  - by vm_compute.
  - by destruct (H 1%Z "") as [H1 _].
Defined.

End SyncMessages.
